(** * Payment reconciliation and batch checkout

    A shallow embedding of the payment workflow of the school-catering
    portal:

    - the [create-payment] edge function (the Gateway Transaction Function),
    - [processBatchPayment] of the [useBatchPayment] hook,
    - [retryPayment] of the [useOrders] hook,
    - [handleCheckout] of the [useCartOperations] hook,
    - the cashier's [handlePayment] (CashPaymentV2) and [processPayment]
      (CashierPaymentV2).

    Conventions of the embedding.

    - A JavaScript [number] is modelled by an exact rational ([Q]); the
      finite doubles are rationals, and every concrete input used below is a
      small dyadic rational on which double arithmetic is exact.  What is
      stated about the outcome of the handler's total check is stated for
      whole numbers whose magnitudes add up to at most 2^53, where doubles
      add and multiply without rounding.  [NaN] is modelled by [None] where
      the source can produce it ([parseFloat]).
    - An optional / nullable JSON field is an [option]; JavaScript
      truthiness ([!x], [x || d], [x && y]) is written out on that
      representation.
    - Strings are [string]; [length] and [substring] count bytes, which is
      what JavaScript does on ASCII text; what is stated about the length
      of a name is stated for ASCII names.
    - The hosted store, the payment gateway, the payment widget, the clock
      and the random generator are the environment: their answers are
      supplied by an [Oracle], what the code does to them is recorded in the
      [World]. *)

From Stdlib Require Import QArith Qround Qminmax Qabs ZArith Lia Lqa Ascii String.
From stdpp Require Import base strings gmap list pretty.

Open Scope string_scope.

(** ** JavaScript primitives *)

Module Js.

(** [Math.round]: the nearest integer, halves rounded towards [+∞]. *)
Definition Math_round (x : Q) : Z := Qfloor (x + (1 # 2))%Q.

(** Truthiness of an optional string: [undefined], [null] and [""] are
    falsy. *)
Definition truthy_str (s : option string) : bool :=
  match s with
  | Some s => negb (String.eqb s "")
  | None => false
  end.

(** Truthiness of an optional number: [undefined], [null] and [0] are
    falsy. *)
Definition truthy_num (n : option Q) : bool :=
  match n with
  | Some q => negb (Qeq_bool q 0)
  | None => false
  end.

(** [s || d] on strings. *)
Definition str_or (s : option string) (d : string) : string :=
  match s with
  | Some s => if String.eqb s "" then d else s
  | None => d
  end.

(** [n || d] on numbers. *)
Definition num_or (n : option Q) (d : Q) : Q :=
  match n with
  | Some q => if Qeq_bool q 0 then d else q
  | None => d
  end.

(** [a !== b] on numbers. *)
Definition strict_neq (a b : Q) : bool := negb (Qeq_bool a b).

(** A number interpolated in a template literal. *)
Definition show (n : nat) : string := pretty n.

(** A whole number, as a predicate on [number]. *)
Definition is_integer (q : Q) : Prop := (inject_Z (Qfloor q) == q)%Q.

End Js.

Import Js.

(** ** The request of the Gateway Transaction Function *)

(** One element of [itemDetails] as the caller sent it; every field may be
    missing. *)
Record ItemInput := mkItemInput {
  in_id : option string;
  in_name : option string;
  in_price : option Q;
  in_quantity : option Q
}.

(** One element of [item_details] as it is sent to the gateway: the object
    literal built by the [map] callback of the handler. *)
Record ItemDetail := mkItemDetail {
  id : string;
  price : Z;
  quantity : Q;
  name : string
}.

(** [customerDetails]: the three keys the callers send, each missing or a
    string as the callers of this repository send them; other keys, and a
    key whose value is [null], are not modelled. *)
Record CustomerDetails := mkCustomer {
  first_name : option string;
  email : option string;
  phone : option string
}.

(** The JSON body [{ orderId, amount, customerDetails, itemDetails,
    batchOrderIds }]. *)
Record Request := mkRequest {
  orderId : option string;
  amount : option Q;
  customerDetails : option CustomerDetails;
  itemDetails : option (list ItemInput);
  batchOrderIds : option (list string)
}.

Record TransactionDetails := mkTransactionDetails {
  order_id : string;
  gross_amount : Z
}.

(** [midtransPayload]. *)
Record Payload := mkPayload {
  transaction_details : TransactionDetails;
  customer_details : CustomerDetails;
  item_details : list ItemDetail;
  credit_card_secure : bool
}.

(** ** Item normalisation (the pure core of the handler) *)

Definition defaultCustomerDetails : CustomerDetails :=
  {| first_name := Some "Customer";
     email := Some "customer@example.com";
     phone := Some "08123456789" |}.

(** [{ ...defaultCustomerDetails, ...customerDetails }]: a key of
    [customerDetails] overrides the default. *)
Definition spread (d : CustomerDetails) (c : option CustomerDetails)
  : CustomerDetails :=
  match c with
  | None => d
  | Some c =>
      {| first_name := from_option Some (first_name d) (first_name c);
         email := from_option Some (email d) (email c);
         phone := from_option Some (phone d) (phone c) |}
  end.

(** [item.name && item.name.length > 45 ? item.name.substring(0, 45) + '...'
    : item.name || `Item ${index + 1}`].  [String.length] and
    [String.substring] count the characters of the string as it is written
    here, JavaScript counts UTF-16 code units: the two agree on names of
    ASCII characters. *)
Definition truncatedName (item : ItemInput) (index : nat) : string :=
  match in_name item with
  | Some n =>
      if truthy_str (Some n) && (45 <? String.length n)%nat
      then String.substring 0 45 n +:+ "..."
      else str_or (Some n) ("Item " +:+ show (index + 1))
  | None => "Item " +:+ show (index + 1)
  end.

(** The callback of [itemDetails.map((item, index) => ...)]. *)
Definition normalize_item (index : nat) (item : ItemInput) : ItemDetail :=
  {| id := str_or (in_id item) ("item-" +:+ show (index + 1));
     price := Math_round (num_or (in_price item) 0);
     quantity := num_or (in_quantity item) 1;
     name := truncatedName item index |}.

(** [finalItemDetails.reduce((sum, item) => sum + item.price * item.quantity,
    0)]. *)
Definition calculatedTotal (items : list ItemDetail) : Q :=
  foldl (fun sum item => (sum + inject_Z (price item) * quantity item)%Q)
        0%Q items.

(** The name of the summary item:
    [batchOrderIds && batchOrderIds.length > 1 ? `Batch Payment (${n}
    orders)` : 'Payment']. *)
Definition summary_name (batch : option (list string)) : string :=
  match batch with
  | Some ids =>
      if (1 <? length ids)%nat
      then "Batch Payment (" +:+ show (length ids) +:+ " orders)"
      else "Payment"
  | None => "Payment"
  end.

(** The single summary line item. *)
Definition summary_item (oid : string) (amt : Q)
    (batch : option (list string)) : ItemDetail :=
  {| id := oid;
     price := Math_round amt;
     quantity := 1;
     name := summary_name batch |}.

(** Whether the handler replaces a non-empty itemisation: the test
    [calculatedTotal !== amount] of the source.  The source adds and
    compares doubles, the total here is the exact one: the test has the
    same outcome whenever the doubles add the line values exactly (whole
    quantities and a bounded total; fractions such as one half that a
    double holds exactly); the statements about the outcome of the test
    are made for such inputs. *)
Definition total_mismatch (items : list ItemInput) (amt : Q) : bool :=
  strict_neq (calculatedTotal (imap normalize_item items)) amt.

(** [finalItemDetails]. *)
Definition finalItemDetails (oid : string) (amt : Q)
    (items : option (list ItemInput)) (batch : option (list string))
  : list ItemDetail :=
  match items with
  | Some (i :: rest) =>
      if total_mismatch (i :: rest) amt
      then [summary_item oid amt batch]
      else imap normalize_item (i :: rest)
  | _ => [summary_item oid amt batch]
  end.

(** [midtransPayload]. *)
Definition midtransPayload (oid : string) (amt : Q) (req : Request)
  : Payload :=
  {| transaction_details :=
       {| order_id := oid; gross_amount := Math_round amt |};
     customer_details := spread defaultCustomerDetails (customerDetails req);
     item_details :=
       finalItemDetails oid amt (itemDetails req) (batchOrderIds req);
     credit_card_secure := true |}.

(** The total of the line items of a payload, as the gateway adds them up. *)
Definition items_total (items : list ItemDetail) : Q :=
  foldr (fun item acc => (inject_Z (price item) * quantity item + acc)%Q)
        0%Q items.

(** ** The Order Store *)

(** A row of [orders], without its primary key. *)
Record OrderRow := mkOrderRow {
  user_id : string;
  order_number : string;
  total_amount : Q;
  status : string;
  payment_status : string;
  payment_method : option string;
  midtrans_order_id : option string;
  snap_token : option string;
  child_name : string;
  child_class : string;
  parent_notes : option string
}.

(** A row of [order_line_items] as [handleCheckout] inserts it. *)
Record LineItemRow := mkLineItemRow {
  lr_order_id : string;
  lr_child_id : string;
  lr_child_name : string;
  lr_child_class : string;
  lr_menu_item_id : string;
  lr_quantity : Q;
  lr_unit_price : Q;
  lr_delivery_date : string;
  lr_order_date : string
}.

(** A row of [batch_orders]. *)
Record BatchRow := mkBatchRow {
  batch_id : string;
  br_order_id : string
}.

(** A row of [payments]. *)
Record PaymentRow := mkPaymentRow {
  pay_order_id : string;
  pay_amount : Q;
  pay_payment_method : string;
  pay_status : string;
  pay_transaction_id : string
}.

(** A row of [cash_payments]. *)
Record CashPaymentRow := mkCashPaymentRow {
  cp_order_id : string;
  cp_amount : Q;
  received_amount : Q;
  change_amount : Q;
  cashier_id : string;
  cp_notes : string
}.

(** The object given to [.update(...)] on [orders]: the columns it sets. *)
Record OrderPatch := mkOrderPatch {
  set_status : option string;
  set_payment_status : option string;
  set_payment_method : option string;
  set_midtrans_order_id : option string;
  set_snap_token : option string
}.

Definition no_patch : OrderPatch :=
  {| set_status := None; set_payment_status := None;
     set_payment_method := None; set_midtrans_order_id := None;
     set_snap_token := None |}.

Definition apply_patch (p : OrderPatch) (r : OrderRow) : OrderRow :=
  {| user_id := user_id r;
     order_number := order_number r;
     total_amount := total_amount r;
     status := default (status r) (set_status p);
     payment_status := default (payment_status r) (set_payment_status p);
     payment_method :=
       from_option Some (payment_method r) (set_payment_method p);
     midtrans_order_id :=
       from_option Some (midtrans_order_id r) (set_midtrans_order_id p);
     snap_token := from_option Some (snap_token r) (set_snap_token p);
     child_name := child_name r;
     child_class := child_class r;
     parent_notes := parent_notes r |}.

(** The tables the workflow reads and writes; [orders] is keyed by the
    primary key [id]. *)
Record Store := mkStore {
  orders : gmap string OrderRow;
  order_line_items : list LineItemRow;
  batch_orders : list BatchRow;
  payments : list PaymentRow;
  cash_payments : list CashPaymentRow
}.

(** The write requests the workflow sends to the store. *)
Inductive StoreOp :=
| InsertOrder (new_id : string) (r : OrderRow)
| UpdateOrder (eq_id : string) (p : OrderPatch)
| DeleteOrder (eq_id : string)
| InsertLineItems (rows : list LineItemRow)
| InsertBatchOrders (rows : list BatchRow)
| InsertPayment (r : PaymentRow)
| InsertCashPayment (r : CashPaymentRow).

(** What a request does to the store when the store carries it out.  An
    update or a delete filtered on an [id] no row has changes nothing. *)
Definition apply_op (op : StoreOp) (s : Store) : Store :=
  match op with
  | InsertOrder i r =>
      mkStore (<[i := r]> (orders s)) (order_line_items s) (batch_orders s)
              (payments s) (cash_payments s)
  | UpdateOrder i p =>
      mkStore (alter (apply_patch p) i (orders s)) (order_line_items s)
              (batch_orders s) (payments s) (cash_payments s)
  | DeleteOrder i =>
      mkStore (delete i (orders s)) (order_line_items s) (batch_orders s)
              (payments s) (cash_payments s)
  | InsertLineItems rows =>
      mkStore (orders s) (order_line_items s ++ rows) (batch_orders s)
              (payments s) (cash_payments s)
  | InsertBatchOrders rows =>
      mkStore (orders s) (order_line_items s) (batch_orders s ++ rows)
              (payments s) (cash_payments s)
  | InsertPayment r =>
      mkStore (orders s) (order_line_items s) (batch_orders s)
              (payments s ++ [r]) (cash_payments s)
  | InsertCashPayment r =>
      mkStore (orders s) (order_line_items s) (batch_orders s) (payments s)
              (cash_payments s ++ [r])
  end.

(** ** The environment *)

(** The answer of the payment gateway to [fetch]. *)
Inductive GatewayReply :=
| FetchFailed (message : string)
| HttpError (http_status : nat) (text : string)
| HttpOk (token : option string) (redirect_url : option string).

(** [Deno.env] of the edge function. *)
Record Env := mkEnv {
  MIDTRANS_SERVER_KEY : option string;
  SUPABASE_URL : option string;
  SUPABASE_SERVICE_ROLE_KEY : option string
}.

(** Everything the code asks of its surroundings. *)
Record Oracle := mkOracle {
  (** the [error] the store answers to a request, [None] when it carries
      the request out *)
  store_error : StoreOp -> option string;
  (** the gateway's answer to a payload *)
  gateway : Payload -> GatewayReply;
  deno_env : Env;
  (** [window.snap] is loaded *)
  window_snap : bool;
  (** the text of the n-th [`${Date.now()}-${Math.random()...}`] *)
  stamp : nat -> string;
  (** the primary key the store gives to the order it inserts *)
  new_order_id : string;
  (** [new Date().toISOString().split('T')[0]] *)
  today : string;
  (** [(await supabase.auth.getUser()).data.user?.id] *)
  auth_user_id : option string
}.

(** What the outside can observe of a run, in order. *)
Inductive Event :=
| StoreRequest (op : StoreOp) (carried_out : bool)
| GatewayCall (p : Payload)
| Invoke (body : Request)
| SnapPay (token : string)
| Toast (title description : string) (destructive : bool).

Record World := mkWorld {
  store : Store;
  events : list Event;
  console_errors : list string;
  stamps_drawn : nat
}.

Definition is_store_write (e : Event) : bool :=
  match e with StoreRequest _ _ => true | _ => false end.

Definition is_gateway_call (e : Event) : bool :=
  match e with GatewayCall _ => true | _ => false end.

Definition is_invoke (e : Event) : bool :=
  match e with Invoke _ => true | _ => false end.

(** The store requests, gateway calls and function invocations of a run. *)
Definition store_writes (w : World) : list Event :=
  filter (fun e => is_store_write e = true) (events w).
Definition gateway_calls (w : World) : list Event :=
  filter (fun e => is_gateway_call e = true) (events w).
Definition invocations (w : World) : list Event :=
  filter (fun e => is_invoke e = true) (events w).

(** ** A state-and-exception monad for the asynchronous code *)

(** A computation returns or throws; a thrown value is represented by its
    [message]. *)
Inductive Outcome (A : Type) :=
| Return (a : A)
| Throw (message : string).
Arguments Return {A} a.
Arguments Throw {A} message.

Definition M (A : Type) : Type := World -> Outcome A * World.

#[global] Instance M_ret : MRet M := fun A a w => (Return a, w).
#[global] Instance M_bind : MBind M := fun A B f m w =>
  match m w with
  | (Return a, w') => f a w'
  | (Throw e, w') => (Throw e, w')
  end.

Definition throw {A} (message : string) : M A := fun w => (Throw message, w).

(** [try { m } catch (e) { h e }]. *)
Definition try_catch {A} (m : M A) (h : string -> M A) : M A := fun w =>
  match m w with
  | (Return a, w') => (Return a, w')
  | (Throw e, w') => h e w'
  end.

Definition emit (e : Event) : M unit := fun w =>
  (Return tt, mkWorld (store w) (events w ++ [e]) (console_errors w)
                      (stamps_drawn w)).

(** [console.error(label, ...)]: the label is kept. *)
Definition console_error (label : string) : M unit := fun w =>
  (Return tt, mkWorld (store w) (events w) (console_errors w ++ [label])
                      (stamps_drawn w)).

Definition toast (title description : string) (destructive : bool)
  : M unit := emit (Toast title description destructive).

Section Workflow.

Context (Ω : Oracle).

(** A request to the store: it answers with an [error] or carries the
    request out. *)
Definition store_request (op : StoreOp) : M (option string) := fun w =>
  match store_error Ω op with
  | Some message =>
      (Return (Some message),
       mkWorld (store w) (events w ++ [StoreRequest op false])
               (console_errors w) (stamps_drawn w))
  | None =>
      (Return None,
       mkWorld (apply_op op (store w)) (events w ++ [StoreRequest op true])
               (console_errors w) (stamps_drawn w))
  end.

(** [fetch] to the gateway's transaction URL. *)
Definition fetch (p : Payload) : M GatewayReply := fun w =>
  (Return (gateway Ω p),
   mkWorld (store w) (events w ++ [GatewayCall p]) (console_errors w)
           (stamps_drawn w)).

(** [`${Date.now()}-${Math.random().toString(36).substr(2, 9)}`]. *)
Definition draw_stamp : M string := fun w =>
  (Return (stamp Ω (stamps_drawn w)),
   mkWorld (store w) (events w) (console_errors w) (S (stamps_drawn w))).

(** ** The Gateway Transaction Function ([create-payment]) *)

Inductive Method := OPTIONS | POST | OtherMethod.

Inductive ResponseBody :=
| EmptyBody
| TokenBody (snap_token redirect_url : option string)
| ErrorBody (error details type : string).

Record Response := mkResponse {
  resp_status : nat;
  resp_body : ResponseBody
}.

(** The batch mapping, saved before the gateway is called:
    [if (batchOrderIds && batchOrderIds.length > 0) { ... }]. *)
Definition save_batch_mapping (oid : string) (batch : option (list string))
  : M unit :=
  match batch with
  | Some (b :: ids) =>
      let supabaseUrl := SUPABASE_URL (deno_env Ω) in
      let supabaseServiceKey := SUPABASE_SERVICE_ROLE_KEY (deno_env Ω) in
      if truthy_str supabaseUrl && truthy_str supabaseServiceKey then
        let batchMappings :=
          map (fun originalOrderId =>
                 {| batch_id := oid; br_order_id := originalOrderId |})
              (b :: ids) in
        try_catch
          (batchError ← store_request (InsertBatchOrders batchMappings);
           match batchError with
           | Some message =>
               console_error "Error saving batch mapping:";;
               throw ("Failed to save batch mapping: " +:+ message)
           | None => mret tt
           end)
          (fun dbError =>
             console_error "Database error during batch mapping:";;
             throw ("Database error: " +:+ dbError))
      else
        console_error "Supabase configuration missing for batch mapping";;
        console_error "SUPABASE_URL:";;
        console_error "SUPABASE_SERVICE_ROLE_KEY:"
  | _ => mret tt
  end.

(** The call of the gateway and the answer of the function. *)
Definition create_transaction (p : Payload) : M Response :=
  try_catch
    (midtransResponse ← fetch p;
     match midtransResponse with
     | FetchFailed message => throw message
     | HttpError st errorText =>
         console_error "Midtrans error response:";;
         throw ("Midtrans API error: " +:+ show st +:+ " - " +:+ errorText)
     | HttpOk token redirect =>
         mret {| resp_status := 200;
                 resp_body := TokenBody token redirect |}
     end)
    (fun midtransError =>
       console_error "Midtrans API call failed:";;
       throw ("Midtrans API call failed: " +:+ midtransError)).

(** The body of the outer [try]. *)
Definition create_payment (body : option Request) : M Response :=
  match body with
  | None =>
      console_error "Failed to parse JSON body:";;
      throw "Invalid JSON in request body"
  | Some req =>
      match orderId req with
      | Some oid =>
          if String.eqb oid "" then
            console_error "Order ID is missing";;
            throw "Order ID is required"
          else
            match amount req with
            | Some amt =>
                if Qeq_bool amt 0 || Qle_bool amt 0 then
                  console_error "Invalid amount:";;
                  throw "Valid amount is required"
                else if negb (truthy_str (MIDTRANS_SERVER_KEY (deno_env Ω)))
                then
                  console_error "Midtrans server key not configured";;
                  throw "Midtrans server key not configured"
                else
                  save_batch_mapping oid (batchOrderIds req);;
                  create_transaction (midtransPayload oid amt req)
            | None =>
                console_error "Invalid amount:";;
                throw "Valid amount is required"
            end
      | None =>
          console_error "Order ID is missing";;
          throw "Order ID is required"
      end
  end.

(** The outer [catch]: every error becomes a 500 response. *)
Definition error_response (message : string) : M Response :=
  console_error "=== ERROR IN CREATE-PAYMENT FUNCTION ===";;
  console_error "Error type:";;
  console_error "Error message:";;
  console_error "Error stack:";;
  mret {| resp_status := 500;
          resp_body :=
            ErrorBody
              (if String.eqb message "" then "An unexpected error occurred"
               else message)
              (if String.eqb message "" then "Error"
               else "Error: " +:+ message)
              "Error" |}.

(** [serve(async (req) => ...)]. *)
Definition serve (method : Method) (body : option Request) : M Response :=
  match method with
  | OPTIONS => mret {| resp_status := 200; resp_body := EmptyBody |}
  | _ => try_catch (create_payment body) error_response
  end.

(** The request passes the validation of the handler and the gateway
    credentials are configured. *)
Definition accepted (req : Request) (oid : string) (amt : Q) : Prop :=
  orderId req = Some oid /\ oid <> "" /\
  amount req = Some amt /\ (0 < amt)%Q /\
  truthy_str (MIDTRANS_SERVER_KEY (deno_env Ω)) = true.

(** ** The client: orders, user and the function call *)

(** An element of [order.order_line_items], with the columns the hooks
    read; [menu_name] is [item.menu_items?.name]. *)
Record OrderLineItem := mkOrderLineItem {
  li_id : string;
  li_quantity : Q;
  unit_price : Q;
  menu_name : option string
}.

(** An [Order] as the client holds it: the primary key, the columns and the
    joined line items. *)
Record Order := mkOrder {
  key : string;
  columns :> OrderRow;
  line_items : list OrderLineItem
}.

(** The signed-in user of [useAuth]. *)
Record User := mkUser {
  uid : string;
  user_email : option string;
  full_name : option string;
  user_phone : option string
}.

(** [{ data, error }] of [supabase.functions.invoke]. *)
Record InvokeResult := mkInvokeResult {
  data : option (option string * option string);
  error : option string
}.

(** [supabase.functions.invoke('create-payment', { body })]: the function
    runs on the body; a response outside 2xx comes back as [error], a 2xx
    response as [data] = [{ snap_token, redirect_url }]. *)
Definition functions_invoke (body : Request) : M InvokeResult :=
  emit (Invoke body);;
  resp ← serve POST (Some body);
  match Nat.eqb (resp_status resp) 200, resp_body resp with
  | true, TokenBody t r => mret {| data := Some (t, r); error := None |}
  | true, _ => mret {| data := None; error := None |}
  | false, _ =>
      mret {| data := None;
              error := Some "Edge Function returned a non-2xx status code" |}
  end.

(** [window.snap.pay(token, callbacks)] when the widget is loaded. *)
Definition snap_pay (token : string) (not_loaded : M unit) : M unit :=
  if window_snap Ω then emit (SnapPay token) else not_loaded.

(** [email?.split('@')[0]]. *)
Fixpoint before_at (s : string) : string :=
  match s with
  | EmptyString => EmptyString
  | String c rest =>
      if Ascii.eqb c "@"%char then EmptyString else String c (before_at rest)
  end.

(** ** The Batch Payment Aggregator ([processBatchPayment]) *)

(** The patch written on every order of a batch. *)
Definition batch_patch (token batchOrderId : string) : OrderPatch :=
  {| set_status := None; set_payment_status := None;
     set_payment_method := None;
     set_midtrans_order_id := Some batchOrderId;
     set_snap_token := Some token |}.

(** [for (const order of pendingOrders) { update ...; if (updateError)
    console.error(...) }]. *)
Fixpoint update_batch_orders (pendingOrders : list Order)
    (token batchOrderId : string) : M unit :=
  match pendingOrders with
  | [] => mret tt
  | order :: rest =>
      updateError ←
        store_request (UpdateOrder (key order)
                                   (batch_patch token batchOrderId));
      match updateError with
      | Some _ => console_error "Error updating order:"
      | None => mret tt
      end;;
      update_batch_orders rest token batchOrderId
  end.

Definition pending (orders : list Order) : list Order :=
  filter (fun order : Order => payment_status order = "pending") orders.

Definition batch_total (pendingOrders : list Order) : Q :=
  foldl (fun sum (order : Order) => (sum + total_amount order)%Q) 0%Q
        pendingOrders.

Definition batch_item_details (pendingOrders : list Order)
  : list ItemInput :=
  flat_map
    (fun order : Order =>
       map (fun item =>
              {| in_id := Some (key order +:+ "-" +:+ li_id item);
                 in_price := Some (unit_price item);
                 in_quantity := Some (li_quantity item);
                 in_name :=
                   Some (str_or (menu_name item) "Item" +:+ " - "
                         +:+ child_name order) |})
           (line_items order))
    pendingOrders.

Definition batch_customer (user : option User) : CustomerDetails :=
  {| first_name :=
       Some (str_or (user ≫= full_name)
               (str_or (before_at <$> (user ≫= user_email)) "Customer"));
     email := Some (str_or (user ≫= user_email) "parent@example.com");
     phone := Some (str_or (user ≫= user_phone) "08123456789") |}.

(** The body sent to [create-payment] for a batch. *)
Definition batch_request (user : option User) (pendingOrders : list Order)
    (batchOrderId : string) : Request :=
  {| orderId := Some batchOrderId;
     amount := Some (batch_total pendingOrders);
     customerDetails := Some (batch_customer user);
     itemDetails := Some (batch_item_details pendingOrders);
     batchOrderIds := Some (map key pendingOrders) |}.

(** What [processBatchPayment] does with the answer of the function: the
    checks of the answer, the fan-out of the token and the widget.  The
    check [paymentData.error] is left out: a 2xx answer of the function
    carries [snap_token] and [redirect_url] only. *)
Definition batch_settle (pendingOrders : list Order) (batchOrderId : string)
    (r : InvokeResult) : M unit :=
  match error r with
  | Some message =>
      console_error "Batch payment error:";;
      throw (str_or (Some message) "Failed to create batch payment")
  | None =>
      match data r with
      | None => throw "No payment data received from server"
      | Some (snap, _) =>
          match snap with
          | Some token =>
              if String.eqb token "" then
                throw "Snap token tidak diterima untuk batch payment"
              else
                update_batch_orders pendingOrders token batchOrderId;;
                snap_pay token (throw "Midtrans Snap belum loaded")
          | None => throw "Snap token tidak diterima untuk batch payment"
          end
      end
  end.

(** The [catch] of [processBatchPayment]. *)
Definition batch_failed (message : string) : M unit :=
  console_error "Batch payment error:";;
  toast "Error" (str_or (Some message) "Gagal memproses pembayaran batch")
        true.

Definition processBatchPayment (user : option User) (orders : list Order)
  : M unit :=
  if (length orders =? 0)%nat then
    toast "Error" "Tidak ada pesanan yang dipilih untuk dibayar" true
  else
    let pendingOrders := pending orders in
    if (length pendingOrders =? 0)%nat then
      toast "Info" "Tidak ada pesanan yang perlu dibayar" false
    else
      try_catch
        (s ← draw_stamp;
         let batchOrderId := "BATCH-" +:+ s in
         r ← functions_invoke (batch_request user pendingOrders batchOrderId);
         batch_settle pendingOrders batchOrderId r)
        batch_failed.

(** ** The retry path ([retryPayment]) *)

Definition retry_customer (user : option User) (order : Order)
  : CustomerDetails :=
  {| first_name := Some (str_or (Some (child_name order)) "Customer");
     email := Some (str_or (user ≫= user_email) "parent@example.com");
     phone := Some (str_or (user ≫= user_phone) "08123456789") |}.

Definition retry_item_details (order : Order) : list ItemInput :=
  map (fun item =>
         {| in_id := Some (li_id item);
            in_price := Some (unit_price item);
            in_quantity := Some (li_quantity item);
            in_name := Some (str_or (menu_name item) "Unknown Item") |})
      (line_items order).

Definition retry_request (user : option User) (order : Order)
    (oid : string) : Request :=
  {| orderId := Some oid;
     amount := Some (total_amount order);
     customerDetails := Some (retry_customer user order);
     itemDetails := Some (retry_item_details order);
     batchOrderIds := None |}.

(** [let orderId = order.midtrans_order_id; if (!orderId) { ... }]. *)
Definition ensure_midtrans_order_id (order : Order) : M string :=
  if truthy_str (midtrans_order_id order) then
    mret (default "" (midtrans_order_id order))
  else
    s ← draw_stamp;
    let oid := "ORDER-" +:+ s in
    updateError ←
      store_request
        (UpdateOrder (key order)
           {| set_status := None; set_payment_status := None;
              set_payment_method := None;
              set_midtrans_order_id := Some oid;
              set_snap_token := None |});
    match updateError with
    | Some message => console_error "Error updating order:";; throw message
    | None => mret oid
    end.

Definition token_patch (token : string) : OrderPatch :=
  {| set_status := None; set_payment_status := None;
     set_payment_method := None; set_midtrans_order_id := None;
     set_snap_token := Some token |}.

(** What [retryPayment] does with the answer of the function: the token is
    saved on the order (a failure is only logged) and the widget opened. *)
Definition retry_settle (order : Order) (r : InvokeResult) : M unit :=
  match error r with
  | Some message => console_error "Payment error:";; throw message
  | None =>
      match data r with
      | None => throw "Cannot read properties of null (reading 'snap_token')"
      | Some (snap, _) =>
          if truthy_str snap then
            let token := default "" snap in
            saveTokenError ←
              store_request (UpdateOrder (key order) (token_patch token));
            match saveTokenError with
            | Some _ => console_error "Error saving snap_token:"
            | None => mret tt
            end;;
            snap_pay token (throw "Midtrans Snap belum loaded")
          else throw "Snap token tidak diterima"
      end
  end.

(** The [catch] of [retryPayment]. *)
Definition retry_failed (message : string) : M unit :=
  console_error "Retry payment error:";;
  toast "Error" (str_or (Some message) "Gagal memproses pembayaran") true.

Definition retryPayment (user : option User) (order : Order) : M unit :=
  try_catch
    (if truthy_str (snap_token order) then
       snap_pay (default "" (snap_token order))
                (throw "Midtrans Snap belum loaded")
     else
       oid ← ensure_midtrans_order_id order;
       r ← functions_invoke (retry_request user order oid);
       retry_settle order r)
    retry_failed.

(** ** The Checkout Aggregator ([handleCheckout]) *)

Record CartItem := mkCartItem {
  ci_name : string;
  ci_price : Q;
  ci_quantity : Q;
  menu_item_id : string;
  date : option string;
  child_id : option string;
  ci_child_name : option string;
  ci_child_class : option string;
  delivery_date : option string
}.

Record Child := mkChild {
  ch_id : string;
  ch_name : string;
  class_name : string
}.

(** The state of the [useCartOperations] hook that [handleCheckout] reads. *)
Record CartOperations := mkCartOperations {
  user : option User;
  selectedChildId : string;
  children : list Child;
  notes : string
}.

Definition cart_total (cartItems : list CartItem) : Q :=
  foldl (fun sum item => (sum + ci_price item * ci_quantity item)%Q) 0%Q
        cartItems.

(** [children.find(...)], else the child described by the first cart item
    of that child. *)
Definition find_selected_child (children : list Child)
    (cartItems : list CartItem) (childIdToUse : string) : option Child :=
  match List.find (fun child => String.eqb (ch_id child) childIdToUse)
                  children with
  | Some child => Some child
  | None =>
      match List.find
              (fun item =>
                 match child_id item with
                 | Some c => String.eqb c childIdToUse
                 | None => false
                 end) cartItems with
      | Some cartItem =>
          Some {| ch_id := default "" (child_id cartItem);
                  ch_name := str_or (ci_child_name cartItem) "Unknown";
                  class_name := str_or (ci_child_class cartItem) "" |}
      | None => None
      end
  end.

Definition new_order (h : CartOperations) (u : User) (orderNumber : string)
    (totalAmount : Q) (selectedChild : Child) : OrderRow :=
  {| user_id := uid u;
     order_number := orderNumber;
     total_amount := totalAmount;
     status := "pending";
     payment_status := "pending";
     payment_method := None;
     midtrans_order_id := None;
     snap_token := None;
     child_name := ch_name selectedChild;
     child_class := class_name selectedChild;
     parent_notes := if String.eqb (notes h) "" then None else Some (notes h)
  |}.

Definition checkout_line_items (order_key childIdToUse : string)
    (selectedChild : Child) (cartItems : list CartItem) : list LineItemRow :=
  map (fun item =>
         {| lr_order_id := order_key;
            lr_child_id := str_or (child_id item) childIdToUse;
            lr_child_name := str_or (ci_child_name item) (ch_name selectedChild);
            lr_child_class :=
              str_or (ci_child_class item) (class_name selectedChild);
            lr_menu_item_id := menu_item_id item;
            lr_quantity := ci_quantity item;
            lr_unit_price := ci_price item;
            lr_delivery_date :=
              str_or (delivery_date item) (str_or (date item) (today Ω));
            lr_order_date := today Ω |})
      cartItems.

Definition checkout_request (u : User) (selectedChild : Child)
    (cartItems : list CartItem) (midtransOrderId : string) : Request :=
  {| orderId := Some midtransOrderId;
     amount := Some (cart_total cartItems);
     customerDetails :=
       Some {| first_name := Some (str_or (full_name u) "Customer");
               email := Some (str_or (user_email u) "parent@example.com");
               phone := Some (str_or (user_phone u) "08123456789") |};
     itemDetails :=
       Some (map (fun item =>
                    {| in_id := Some (menu_item_id item);
                       in_price := Some (ci_price item);
                       in_quantity := Some (ci_quantity item);
                       in_name :=
                         Some (ci_name item +:+ " - "
                               +:+ ch_name selectedChild) |})
                 cartItems);
     batchOrderIds := None |}.

(** The part of [handleCheckout] after the order and its line items are
    stored: the gateway order id, the token and the widget. *)
Definition checkout_payment (u : User) (selectedChild : Child)
    (cartItems : list CartItem) (orderData : string * OrderRow)
  : M (option (string * OrderRow)) :=
  s ← draw_stamp;
  let midtransOrderId := "ORDER-" +:+ s in
  updateError ←
    store_request
      (UpdateOrder orderData.1
         {| set_status := None; set_payment_status := None;
            set_payment_method := None;
            set_midtrans_order_id := Some midtransOrderId;
            set_snap_token := None |});
  match updateError with
  | Some _ => console_error "Error updating order with midtrans_order_id:"
  | None => mret tt
  end;;
  r ← functions_invoke
        (checkout_request u selectedChild cartItems midtransOrderId);
  match error r with
  | Some message =>
      console_error "Payment error:";;
      toast "Error Pembayaran"
            (str_or (Some message) "Gagal membuat pembayaran") true;;
      mret None
  | None =>
      if truthy_str (data r ≫= fst) then
        let token := default "" (data r ≫= fst) in
        store_request (UpdateOrder orderData.1 (token_patch token));;
        snap_pay token
          (console_error "Midtrans Snap not loaded";;
           toast "Error"
                 "Sistem pembayaran belum siap. Silakan refresh halaman."
                 true);;
        mret (Some orderData)
      else throw "Token pembayaran tidak diterima"
  end.

Definition handleCheckout (h : CartOperations) (cartItems : list CartItem)
  : M (option (string * OrderRow)) :=
  match user h with
  | None =>
      toast "Error" "Silakan login terlebih dahulu" true;; mret None
  | Some u =>
      if (length cartItems =? 0)%nat then
        toast "Error" "Keranjang belanja kosong" true;; mret None
      else
        let childIdToUse :=
          str_or (Some (selectedChildId h)) (default "" (head cartItems ≫= child_id)) in
        if String.eqb childIdToUse "" then
          toast "Error" "Data anak tidak ditemukan" true;; mret None
        else
          try_catch
            (let totalAmount := cart_total cartItems in
             s ← draw_stamp;
             let orderNumber := "ORDER-" +:+ s in
             match find_selected_child (children h) cartItems childIdToUse with
             | None => throw "Data anak yang dipilih tidak ditemukan"
             | Some selectedChild =>
                 let row := new_order h u orderNumber totalAmount
                                      selectedChild in
                 let orderData := (new_order_id Ω, row) in
                 orderError ← store_request (InsertOrder orderData.1 row);
                 match orderError with
                 | Some _ =>
                     console_error "Error creating order:";;
                     throw "Gagal membuat pesanan utama"
                 | None =>
                     lineItemsError ←
                       store_request
                         (InsertLineItems
                            (checkout_line_items orderData.1 childIdToUse
                                                 selectedChild cartItems));
                     match lineItemsError with
                     | Some _ =>
                         console_error "Error creating order line items:";;
                         store_request (DeleteOrder orderData.1);;
                         throw "Gagal menyimpan detail pesanan"
                     | None =>
                         checkout_payment u selectedChild cartItems orderData
                     end
                 end
             end)
            (fun message =>
               console_error "Checkout error:";;
               toast "Error" (str_or (Some message) "Gagal memproses checkout")
                     true;;
               throw message)
  end.

(** ** Cash settlement *)

(** Taken as a parameter: [formatPrice] of [@/utils/orderUtils]. *)
Context (formatPrice : Q -> string).

(** The state of the [CashPaymentV2] component that [handlePayment] reads;
    [receivedAmount] holds [parseFloat(receivedAmount)], [None] for
    [NaN]. *)
Record CashPaymentV2 := mkCashPaymentV2 {
  selectedOrder : option Order;
  receivedAmount : option Q
}.

(** [parseFloat(receivedAmount) - selectedOrder.total_amount], [None] for
    [NaN]; [0] without a selected order. *)
Definition changeAmount (c : CashPaymentV2) : option Q :=
  match selectedOrder c with
  | Some order =>
      (fun received => received - total_amount order)%Q <$> receivedAmount c
  | None => Some 0%Q
  end.

(** [selectedOrder && parseFloat(receivedAmount) >=
    selectedOrder.total_amount]. *)
Definition isValidPayment (c : CashPaymentV2) : bool :=
  match selectedOrder c, receivedAmount c with
  | Some order, Some received => Qle_bool (total_amount order) received
  | _, _ => false
  end.

Definition paid_confirmed : OrderPatch :=
  {| set_status := Some "confirmed"; set_payment_status := Some "paid";
     set_payment_method := None; set_midtrans_order_id := None;
     set_snap_token := None |}.

Definition handlePayment (c : CashPaymentV2) : M unit :=
  match selectedOrder c with
  | Some order =>
      if isValidPayment c then
        try_catch
          (s ← draw_stamp;
           let transactionId := "CASH-" +:+ s in
           orderError ← store_request (UpdateOrder (key order) paid_confirmed);
           match orderError with
           | Some message => throw message
           | None =>
               paymentError ←
                 store_request
                   (InsertPayment
                      {| pay_order_id := key order;
                         pay_amount := total_amount order;
                         pay_payment_method := "cash";
                         pay_status := "success";
                         pay_transaction_id := transactionId |});
               match paymentError with
               | Some message => throw message
               | None =>
                   toast "Pembayaran Berhasil"
                         "Pembayaran tunai telah diproses" false
               end
           end)
          (fun _ =>
             console_error "Error processing payment:";;
             toast "Error" "Gagal memproses pembayaran" true)
      else
        toast "Error" "Jumlah uang yang diterima kurang dari total pembayaran"
              true
  | None =>
      toast "Error" "Jumlah uang yang diterima kurang dari total pembayaran"
            true
  end.

(** The state of the [CashierPaymentV2] page that [processPayment] reads. *)
Record CashierPaymentV2 := mkCashierPaymentV2 {
  cashier_selectedOrder : option Order;
  paymentAmount : Q;
  cashier_receivedAmount : Q;
  paymentNotes : string
}.

(** [handleViewDetail(order)]: the order is selected and the form reset. *)
Definition handleViewDetail (order : Order) : CashierPaymentV2 :=
  {| cashier_selectedOrder := Some order;
     paymentAmount := total_amount order;
     cashier_receivedAmount := 0;
     paymentNotes := "" |}.

(** [setReceivedAmount(Number(e.target.value) || 0)] on a number typed in
    the field. *)
Definition setReceivedAmount (received : Q) (c : CashierPaymentV2)
  : CashierPaymentV2 :=
  {| cashier_selectedOrder := cashier_selectedOrder c;
     paymentAmount := paymentAmount c;
     cashier_receivedAmount := num_or (Some received) 0;
     paymentNotes := paymentNotes c |}.

Definition paid_cash : OrderPatch :=
  {| set_status := None; set_payment_status := Some "paid";
     set_payment_method := Some "cash"; set_midtrans_order_id := None;
     set_snap_token := None |}.

Definition processPayment (c : CashierPaymentV2) : M unit :=
  match cashier_selectedOrder c with
  | None => mret tt
  | Some order =>
      if negb (Qle_bool (paymentAmount c) (cashier_receivedAmount c)) then
        toast "Error" "Jumlah uang yang diterima kurang dari total pembayaran"
              true
      else
        try_catch
          (paymentError ←
             store_request
               (InsertCashPayment
                  {| cp_order_id := key order;
                     cp_amount := paymentAmount c;
                     received_amount := cashier_receivedAmount c;
                     change_amount :=
                       (cashier_receivedAmount c - paymentAmount c)%Q;
                     cashier_id := str_or (auth_user_id Ω) "";
                     cp_notes := paymentNotes c |});
           match paymentError with
           | Some message => throw message
           | None =>
               orderError ← store_request (UpdateOrder (key order) paid_cash);
               match orderError with
               | Some message => throw message
               | None =>
                   toast "Berhasil"
                         ("Pembayaran berhasil diproses. Kembalian: "
                          +:+ formatPrice (cashier_receivedAmount c
                                           - paymentAmount c)%Q)
                         false
               end
           end)
          (fun _ =>
             console_error "Error processing payment:";;
             toast "Error" "Gagal memproses pembayaran" true)
  end.

End Workflow.

Arguments accepted Ω req oid amt /.

(** ** Observations on a run *)

(** The events a run added to the world. *)
Definition new_events (before after : World) : list Event :=
  drop (length (events before)) (events after).

(** The payloads handed to the gateway among some events. *)
Definition payloads (evs : list Event) : list Payload :=
  omap (fun e => match e with GatewayCall p => Some p | _ => None end) evs.

(** The store requests among some events, with whether they were carried
    out. *)
Definition store_requests (evs : list Event) : list (StoreOp * bool) :=
  omap (fun e => match e with StoreRequest op b => Some (op, b) | _ => None end)
       evs.

(** The bodies the client sent to the Gateway Transaction Function. *)
Definition invoked (evs : list Event) : list Request :=
  omap (fun e => match e with Invoke r => Some r | _ => None end) evs.

(** The tokens the payment widget was opened with. *)
Definition widget_opened (evs : list Event) : list string :=
  omap (fun e => match e with SnapPay t => Some t | _ => None end) evs.

(** The payloads the Gateway Transaction Function sends to the gateway when
    it receives [req] in world [w]. *)
Definition sent_payloads (Ω : Oracle) (req : Request) (w : World)
  : list Payload :=
  payloads (new_events w (serve Ω POST (Some req) w).2).

(** Every quantity of the itemisation is a whole number (or missing). *)
Definition whole_quantities (req : Request) : Prop :=
  Forall (fun item => is_integer (num_or (in_quantity item) 1))
         (default [] (itemDetails req)).

(** The store is configured for the edge function. *)
Definition store_configured (Ω : Oracle) : bool :=
  truthy_str (SUPABASE_URL (deno_env Ω))
  && truthy_str (SUPABASE_SERVICE_ROLE_KEY (deno_env Ω)).

(** The rows of [batch_orders] of a batch. *)
Definition batch_rows (oid : string) (ids : list string) : list BatchRow :=
  map (fun originalOrderId =>
         {| batch_id := oid; br_order_id := originalOrderId |}) ids.

(** The answer of the function once the gateway has replied. *)
Definition gateway_response (r : GatewayReply) : Response :=
  match r with
  | HttpOk token redirect =>
      {| resp_status := 200; resp_body := TokenBody token redirect |}
  | HttpError st text =>
      let m := "Midtrans API call failed: "
               +:+ ("Midtrans API error: " +:+ show st +:+ " - " +:+ text) in
      {| resp_status := 500;
         resp_body := ErrorBody m ("Error: " +:+ m) "Error" |}
  | FetchFailed message =>
      let m := "Midtrans API call failed: " +:+ message in
      {| resp_status := 500;
         resp_body := ErrorBody m ("Error: " +:+ m) "Error" |}
  end.

(** ** Concrete environments and inputs *)

(** An environment in which everything is configured and nothing fails. *)
Definition example_env : Env :=
  {| MIDTRANS_SERVER_KEY := Some "SB-Mid-server-KEY";
     SUPABASE_URL := Some "https://project.supabase.co";
     SUPABASE_SERVICE_ROLE_KEY := Some "service-role-key" |}.

Definition example_oracle : Oracle :=
  {| store_error := fun _ => None;
     gateway := fun _ => HttpOk (Some "snap-token-1")
                                (Some "https://pay.example/redirect/1");
     deno_env := example_env;
     window_snap := true;
     stamp := fun n => "1700000000000-k3j9x2m1" +:+ show n;
     new_order_id := "order-new";
     today := "2025-01-15";
     auth_user_id := Some "cashier-1" |}.

Definition empty_store : Store :=
  {| orders := ∅; order_line_items := []; batch_orders := [];
     payments := []; cash_payments := [] |}.

Definition empty_world : World :=
  {| store := empty_store; events := []; console_errors := [];
     stamps_drawn := 0 |}.

(** A checkout whose quantity is not a whole number: 3 x 0.5 = 1.5. *)
Definition half_portion_request : Request :=
  {| orderId := Some "ORDER-1";
     amount := Some (3 # 2)%Q;
     customerDetails := None;
     itemDetails :=
       Some [ {| in_id := Some "menu-1"; in_name := Some "Nasi Goreng";
                 in_price := Some 3%Q; in_quantity := Some (1 # 2)%Q |} ];
     batchOrderIds := None |}.

(** A checkout of 10.5 whose single price rounds to 11. *)
Definition fractional_amount_request : Request :=
  {| orderId := Some "ORDER-2";
     amount := Some (21 # 2)%Q;
     customerDetails := None;
     itemDetails :=
       Some [ {| in_id := Some "menu-2"; in_name := Some "Es Teh";
                 in_price := Some (21 # 2)%Q; in_quantity := Some 1%Q |} ];
     batchOrderIds := None |}.

(** The first end-to-end scenario: 15000 x 2 and 20000 x 1. *)
Definition two_item_request : Request :=
  {| orderId := Some "ORDER-3";
     amount := Some 50000%Q;
     customerDetails := None;
     itemDetails :=
       Some [ {| in_id := Some "menu-1"; in_name := Some "Nasi Goreng";
                 in_price := Some 15000%Q; in_quantity := Some 2%Q |};
              {| in_id := Some "menu-2"; in_name := Some "Ayam Bakar";
                 in_price := Some 20000%Q; in_quantity := Some 1%Q |} ];
     batchOrderIds := None |}.

(** The same cart sent with an amount that does not match. *)
Definition mismatched_request : Request :=
  {| orderId := Some "ORDER-4";
     amount := Some 60000%Q;
     customerDetails := None;
     itemDetails := itemDetails two_item_request;
     batchOrderIds := Some ["a"; "b"; "c"] |}.

(** A checkout without itemisation. *)
Definition unitemized_request : Request :=
  {| orderId := Some "ORDER-5";
     amount := Some 25000%Q;
     customerDetails := None;
     itemDetails := None;
     batchOrderIds := None |}.

(** The same environment with other answers of the store. *)
Definition with_store_error (f : StoreOp -> option string) (Ω : Oracle)
  : Oracle :=
  {| store_error := f; gateway := gateway Ω; deno_env := deno_env Ω;
     window_snap := window_snap Ω; stamp := stamp Ω;
     new_order_id := new_order_id Ω; today := today Ω;
     auth_user_id := auth_user_id Ω |}.

(** The same environment with other settings of the edge function. *)
Definition with_env (e : Env) (Ω : Oracle) : Oracle :=
  {| store_error := store_error Ω; gateway := gateway Ω; deno_env := e;
     window_snap := window_snap Ω; stamp := stamp Ω;
     new_order_id := new_order_id Ω; today := today Ω;
     auth_user_id := auth_user_id Ω |}.

(** The same environment with or without the payment widget. *)
Definition with_widget (loaded : bool) (Ω : Oracle) : Oracle :=
  {| store_error := store_error Ω; gateway := gateway Ω;
     deno_env := deno_env Ω; window_snap := loaded; stamp := stamp Ω;
     new_order_id := new_order_id Ω; today := today Ω;
     auth_user_id := auth_user_id Ω |}.

(** A store that refuses every insert into [batch_orders]. *)
Definition refuse_batch_mapping (op : StoreOp) : option string :=
  match op with
  | InsertBatchOrders _ => Some "permission denied for table batch_orders"
  | _ => None
  end.

(** An edge function without store configuration. *)
Definition unconfigured_env : Env :=
  {| MIDTRANS_SERVER_KEY := Some "SB-Mid-server-KEY";
     SUPABASE_URL := None;
     SUPABASE_SERVICE_ROLE_KEY := None |}.

(** The order id and the amount of a request that passes the validation of
    the handler, when the gateway credentials are configured. *)
Definition validated (Ω : Oracle) (req : Request) : option (string * Q) :=
  match orderId req, amount req with
  | Some oid, Some amt =>
      if negb (String.eqb oid "")
         && negb (Qeq_bool amt 0 || Qle_bool amt 0)
         && truthy_str (MIDTRANS_SERVER_KEY (deno_env Ω))
      then Some (oid, amt)
      else None
  | _, _ => None
  end.

(** An event of the edge function: a store request or a gateway call. *)
Definition server_event (e : Event) : Prop :=
  match e with
  | StoreRequest (InsertBatchOrders _) _ | GatewayCall _ => True
  | _ => False
  end.

(** The first two steps of the [try] block of [processBatchPayment]: the
    batch id is drawn and the function is called. *)
Definition batch_invocation (Ω : Oracle) (user : option User)
    (orders : list Order) : M InvokeResult :=
  s ← draw_stamp Ω;
  functions_invoke Ω (batch_request user (pending orders) ("BATCH-" +:+ s)).

(** The sum of a list of numbers. *)
Definition Qsum (l : list Q) : Q := foldr Qplus 0%Q l.

(** The [orders] table after the fan-out of [processBatchPayment]: every
    update the store carries out stamps its row. *)
Definition stamped_orders (Ω : Oracle) (pendingOrders : list Order)
    (token batchOrderId : string) (m : gmap string OrderRow)
  : gmap string OrderRow :=
  foldl (fun m (order : Order) =>
           match store_error Ω (UpdateOrder (key order)
                                  (batch_patch token batchOrderId)) with
           | Some _ => m
           | None =>
               alter (apply_patch (batch_patch token batchOrderId))
                     (key order) m
           end)
        m pendingOrders.

(** The update requests of the fan-out, with whether each was carried
    out. *)
Definition fan_out_requests (Ω : Oracle) (pendingOrders : list Order)
    (token batchOrderId : string) : list (StoreOp * bool) :=
  map (fun order : Order =>
         let op := UpdateOrder (key order) (batch_patch token batchOrderId) in
         (op, bool_decide (store_error Ω op = None)))
      pendingOrders.

(** Three pending orders of 10000, 20000 and 30000 and one paid order, as
    the client holds them and as the store holds them. *)
Definition example_row (number : string) (total : Q) (payment : string)
  : OrderRow :=
  {| user_id := "parent-1"; order_number := number; total_amount := total;
     status := "pending"; payment_status := payment;
     payment_method := None; midtrans_order_id := None; snap_token := None;
     child_name := "Budi"; child_class := "3A"; parent_notes := None |}.

Definition example_line (i : string) (unit : Q) : OrderLineItem :=
  {| li_id := i; li_quantity := 1; unit_price := unit;
     menu_name := Some "Nasi Goreng" |}.

Definition order_A : Order :=
  {| key := "A"; columns := example_row "ORDER-A" 10000 "pending";
     line_items := [example_line "a1" 10000] |}.
Definition order_B : Order :=
  {| key := "B"; columns := example_row "ORDER-B" 20000 "pending";
     line_items := [example_line "b1" 20000] |}.
Definition order_C : Order :=
  {| key := "C"; columns := example_row "ORDER-C" 30000 "pending";
     line_items := [example_line "c1" 30000] |}.
Definition order_D : Order :=
  {| key := "D"; columns := example_row "ORDER-D" 40000 "paid";
     line_items := [example_line "d1" 40000] |}.

Definition example_store : Store :=
  {| orders :=
       <["A" := columns order_A]>
         (<["B" := columns order_B]>
            (<["C" := columns order_C]>
               (<["D" := columns order_D]> ∅)));
     order_line_items := []; batch_orders := []; payments := [];
     cash_payments := [] |}.

Definition example_world : World :=
  {| store := example_store; events := []; console_errors := [];
     stamps_drawn := 0 |}.

Definition example_user : option User :=
  Some {| uid := "parent-1"; user_email := Some "ibu@example.com";
          full_name := Some "Ibu Budi"; user_phone := None |}.

(** A store that refuses every update of order "B". *)
Definition refuse_update_of_B (op : StoreOp) : option string :=
  match op with
  | UpdateOrder i _ => if String.eqb i "B" then Some "timeout" else None
  | _ => None
  end.

(** The patch that persists a generated gateway order id. *)
Definition midtrans_id_patch (oid : string) : OrderPatch :=
  {| set_status := None; set_payment_status := None;
     set_payment_method := None; set_midtrans_order_id := Some oid;
     set_snap_token := None |}.

(** An order whose cached token is the empty string. *)
Definition order_with_empty_token : Order :=
  {| key := "E";
     columns :=
       {| user_id := "parent-1"; order_number := "ORDER-E";
          total_amount := 10000; status := "pending";
          payment_status := "pending"; payment_method := None;
          midtrans_order_id := Some "ORDER-1700000000000-abc";
          snap_token := Some "";
          child_name := "Budi"; child_class := "3A"; parent_notes := None |};
     line_items := [example_line "e1" 10000] |}.

(** An order with a cached token. *)
Definition order_with_token : Order :=
  {| key := "F";
     columns :=
       {| user_id := "parent-1"; order_number := "ORDER-F";
          total_amount := 10000; status := "pending";
          payment_status := "pending"; payment_method := None;
          midtrans_order_id := Some "ORDER-1700000000000-def";
          snap_token := Some "cached-token";
          child_name := "Budi"; child_class := "3A"; parent_notes := None |};
     line_items := [example_line "f1" 10000] |}.

(** A cart of 15000 x 2 and 20000 x 1 for one child, and the hook state of
    a signed-in parent. *)
Definition example_cart : list CartItem :=
  [ {| ci_name := "Nasi Goreng"; ci_price := 15000; ci_quantity := 2;
       menu_item_id := "menu-1"; date := Some "2025-01-20";
       child_id := Some "child-1"; ci_child_name := Some "Budi";
       ci_child_class := Some "3A"; delivery_date := None |};
    {| ci_name := "Ayam Bakar"; ci_price := 20000; ci_quantity := 1;
       menu_item_id := "menu-2"; date := Some "2025-01-20";
       child_id := Some "child-1"; ci_child_name := Some "Budi";
       ci_child_class := Some "3A"; delivery_date := None |} ].

Definition example_hook : CartOperations :=
  {| user := example_user;
     selectedChildId := "child-1";
     children := [ {| ch_id := "child-1"; ch_name := "Budi";
                      class_name := "3A" |} ];
     notes := "" |}.

(** A store that refuses every insert into [order_line_items]. *)
Definition refuse_line_items (op : StoreOp) : option string :=
  match op with
  | InsertLineItems _ => Some "violates foreign key constraint"
  | _ => None
  end.

(** The row of [payments] that [handlePayment] records. *)
Definition cash_payment_row (order : Order) (transactionId : string)
  : PaymentRow :=
  {| pay_order_id := key order;
     pay_amount := total_amount order;
     pay_payment_method := "cash";
     pay_status := "success";
     pay_transaction_id := transactionId |}.

(** The row of [cash_payments] that [processPayment] records. *)
Definition cashier_payment_row (Ω : Oracle) (c : CashierPaymentV2)
    (order : Order) : CashPaymentRow :=
  {| cp_order_id := key order;
     cp_amount := paymentAmount c;
     received_amount := cashier_receivedAmount c;
     change_amount := (cashier_receivedAmount c - paymentAmount c)%Q;
     cashier_id := str_or (auth_user_id Ω) "";
     cp_notes := paymentNotes c |}.

(** A pending order of 50000, as the cashier selects it, and a store that
    holds it. *)
Definition order_50000 : Order :=
  {| key := "G"; columns := example_row "ORDER-G" 50000 "pending";
     line_items := [example_line "g1" 50000] |}.

Definition cashier_world : World :=
  {| store :=
       {| orders := <["G" := columns order_50000]> ∅;
          order_line_items := []; batch_orders := []; payments := [];
          cash_payments := [] |};
     events := []; console_errors := []; stamps_drawn := 0 |}.

(** How the examples print a price. *)
Definition example_formatPrice (q : Q) : string :=
  "Rp " +:+ pretty (Qfloor q).

(** Two states of the store that differ at most by rows added to
    [batch_orders]. *)
Definition only_batch_rows_added (before after : Store) : Prop :=
  orders after = orders before
  /\ order_line_items after = order_line_items before
  /\ payments after = payments before
  /\ cash_payments after = cash_payments before
  /\ exists rows, batch_orders after = (batch_orders before ++ rows)%list.

(** An edge function without gateway credentials. *)
Definition keyless_env : Env :=
  {| MIDTRANS_SERVER_KEY := None;
     SUPABASE_URL := Some "https://project.supabase.co";
     SUPABASE_SERVICE_ROLE_KEY := Some "service-role-key" |}.

(** The same environment with another gateway. *)
Definition with_gateway (g : Payload -> GatewayReply) (Ω : Oracle) : Oracle :=
  {| store_error := store_error Ω; gateway := g; deno_env := deno_env Ω;
     window_snap := window_snap Ω; stamp := stamp Ω;
     new_order_id := new_order_id Ω; today := today Ω;
     auth_user_id := auth_user_id Ω |}.

(** A gateway that rejects every transaction. *)
Definition rejecting_gateway (p : Payload) : GatewayReply :=
  HttpError 400 "transaction_details.gross_amount is not equal to the sum of item_details".

(** ** The batch payment button ([BatchPaymentButton]) *)

(** [pendingOrders] and [totalAmount] of the button, computed from the
    selection at every render. *)
Definition button_pendingOrders (selectedOrders : list Order) : list Order :=
  filter (fun order : Order => payment_status order = "pending")
         selectedOrders.

Definition button_totalAmount (selectedOrders : list Order) : Q :=
  foldl (fun sum (order : Order) => (sum + total_amount order)%Q) 0%Q
        (button_pendingOrders selectedOrders).

(** The click handler of the button, [None] when the component renders
    nothing ([pendingOrders.length === 0]). *)
Definition button_onClick (Ω : Oracle) (user : option User)
    (selectedOrders : list Order) : option (M unit) :=
  if (length (button_pendingOrders selectedOrders) =? 0)%nat then None
  else Some (processBatchPayment Ω user (button_pendingOrders selectedOrders)).

(** The value of a supplied line once normalised: rounded price times
    quantity. *)
Definition line_value (item : ItemInput) : Q :=
  (inject_Z (Math_round (num_or (in_price item) 0))
   * num_or (in_quantity item) 1)%Q.

(** The sum of [unit_price * quantity] over the line items of an order. *)
Definition lines_total (order : Order) : Q :=
  Qsum (map (fun item => (unit_price item * li_quantity item)%Q)
            (line_items order)).

(** What the store keeps true of an order (its trigger recomputes the
    total), with whole unit prices and no zero quantity. *)
Definition order_consistent (order : Order) : Prop :=
  (total_amount order == lines_total order)%Q
  /\ Forall (fun item => is_integer (unit_price item)
                         /\ ~ (li_quantity item == 0)%Q)
            (line_items order).

(** The first two steps of the uncached path of [retryPayment]: the
    gateway order id is ensured and the function is called. *)
Definition retry_invocation (Ω : Oracle) (user : option User) (order : Order)
  : M InvokeResult :=
  oid ← ensure_midtrans_order_id Ω order;
  functions_invoke Ω (retry_request user order oid).

(** The order as [fetchOrders] reads it again: the same key and line
    items, with the columns of the stored row. *)
Definition reload (s : Store) (order : Order) : Order :=
  {| key := key order;
     columns := default (columns order) (orders s !! key order);
     line_items := line_items order |}.

(** A store that refuses to save a token on order "A". *)
Definition refuse_token_of_A (op : StoreOp) : option string :=
  match op with
  | UpdateOrder i p =>
      if String.eqb i "A" && bool_decide (is_Some (set_snap_token p))
      then Some "timeout" else None
  | _ => None
  end.

(** ** The checkout once the order is stored *)

(** [selectedChildId || cartItems[0]?.child_id] of [handleCheckout]. *)
Definition checkout_child_id (h : CartOperations) (cartItems : list CartItem)
  : string :=
  str_or (Some (selectedChildId h)) (default "" (head cartItems ≫= child_id)).

(** The order row [handleCheckout] inserts when it starts in world [w]. *)
Definition checkout_order (Ω : Oracle) (h : CartOperations) (u : User)
    (cartItems : list CartItem) (selectedChild : Child) (w : World)
  : OrderRow :=
  new_order h u ("ORDER-" +:+ stamp Ω (stamps_drawn w)) (cart_total cartItems)
            selectedChild.

(** The line items it inserts for that order. *)
Definition checkout_rows (Ω : Oracle) (h : CartOperations)
    (cartItems : list CartItem) (selectedChild : Child) : list LineItemRow :=
  checkout_line_items Ω (new_order_id Ω) (checkout_child_id h cartItems)
                      selectedChild cartItems.

(** The checkout passes its guards and the store carries out the insertion
    of the order and of its line items: the payment step is reached. *)
Definition order_stored (Ω : Oracle) (h : CartOperations)
    (cartItems : list CartItem) (w : World) (u : User)
    (selectedChild : Child) : Prop :=
  user h = Some u
  /\ cartItems <> []
  /\ checkout_child_id h cartItems <> ""
  /\ find_selected_child (children h) cartItems (checkout_child_id h cartItems)
     = Some selectedChild
  /\ store_error Ω (InsertOrder (new_order_id Ω)
                      (checkout_order Ω h u cartItems selectedChild w)) = None
  /\ store_error Ω (InsertLineItems
                      (checkout_rows Ω h cartItems selectedChild)) = None.

(** The [catch] block of [handleCheckout]. *)
Definition checkout_failed (message : string)
  : M (option (string * OrderRow)) :=
  console_error "Checkout error:";;
  toast "Error" (str_or (Some message) "Gagal memproses checkout") true;;
  throw message.

(** The world in which the payment step of a checkout starts. *)
Definition order_stored_world (Ω : Oracle) (h : CartOperations) (u : User)
    (cartItems : list CartItem) (selectedChild : Child) (w : World) : World :=
  let order := InsertOrder (new_order_id Ω)
                 (checkout_order Ω h u cartItems selectedChild w) in
  let rows := InsertLineItems (checkout_rows Ω h cartItems selectedChild) in
  mkWorld (apply_op rows (apply_op order (store w)))
          (events w ++ [StoreRequest order true; StoreRequest rows true])
          (console_errors w) (S (stamps_drawn w)).

(** A request to delete an order, carried out or not. *)
Definition is_delete (e : Event) : bool :=
  match e with
  | StoreRequest (DeleteOrder _) _ => true
  | _ => false
  end.

(** The value of a cart line. *)
Definition cart_line_value (item : CartItem) : Q :=
  (ci_price item * ci_quantity item)%Q.

(** A cart the menu page can build: whole prices, quantities that are not
    zero. *)
Definition whole_cart (cartItems : list CartItem) : Prop :=
  Forall (fun item => is_integer (ci_price item) /\ ~ ci_quantity item == 0)
         cartItems.

(** ** The change of the cashier page ([calculateChange]) *)

(** [Math.max(0, receivedAmount - paymentAmount)]. *)
Definition calculateChange (c : CashierPaymentV2) : Q :=
  Qmax 0 (cashier_receivedAmount c - paymentAmount c).

(** The cash payment rows a run asked the store to insert. *)
Definition cash_rows_requested (evs : list Event) : list CashPaymentRow :=
  omap (fun e => match e with
                 | StoreRequest (InsertCashPayment r) _ => Some r
                 | _ => None
                 end) evs.

(** A store that refuses every insert into [payments]. *)
Definition refuse_payments (op : StoreOp) : option string :=
  match op with
  | InsertPayment _ => Some "permission denied for table payments"
  | _ => None
  end.

(** A store that refuses every update of an order. *)
Definition refuse_order_updates (op : StoreOp) : option string :=
  match op with
  | UpdateOrder _ _ => Some "permission denied for table orders"
  | _ => None
  end.

(** ** The cart of the menu page ([Index]) *)

(** A menu item, with the fields [addToCart] reads. *)
Record MenuItem := mkMenuItem {
  mi_id : string;
  mi_name : string;
  mi_price : Q;
  mi_image_url : string
}.

(** An entry of the cart as the menu page holds it: the [CartItem] the
    checkout reads, with its [id] and [image_url]. *)
Record MenuCartItem := mkMenuCartItem {
  entry_id : string;
  image_url : string;
  cart_item :> CartItem
}.

(** The state of the page that the cart functions read;
    [dateString] is [selectedDate.toISOString().split('T')[0]]. *)
Record IndexPage := mkIndexPage {
  page_user : option User;
  page_children : list Child;
  selectedChildForMenu : string;
  dateString : string;
  page_cartItems : list MenuCartItem
}.

(** The page after [setCartItems(cart)]. *)
Definition setCartItems (cart : list MenuCartItem) (p : IndexPage)
  : IndexPage :=
  {| page_user := page_user p;
     page_children := page_children p;
     selectedChildForMenu := selectedChildForMenu p;
     dateString := dateString p;
     page_cartItems := cart |}.

(** [{ ...item, quantity: q }]. *)
Definition with_quantity (q : Q) (item : MenuCartItem) : MenuCartItem :=
  {| entry_id := entry_id item;
     image_url := image_url item;
     cart_item :=
       {| ci_name := ci_name item; ci_price := ci_price item;
          ci_quantity := q;
          menu_item_id := menu_item_id item; date := date item;
          child_id := child_id item; ci_child_name := ci_child_name item;
          ci_child_class := ci_child_class item;
          delivery_date := delivery_date item |} |}.

(** [item.menu_item_id === menuItemId && item.date === dateString &&
    item.child_id === childId]. *)
Definition same_slot (menuItemId dateStr childId : string)
    (item : MenuCartItem) : bool :=
  String.eqb (menu_item_id item) menuItemId
  && match date item with
     | Some d => String.eqb d dateStr
     | None => false
     end
  && match child_id item with
     | Some c => String.eqb c childId
     | None => false
     end.

(** The entry [addToCart] creates; [now] is [Date.now()]. *)
Definition newItem (now : string) (p : IndexPage) (menuItem : MenuItem)
    (selectedChild : Child) : MenuCartItem :=
  {| entry_id := mi_id menuItem +:+ "-" +:+ dateString p +:+ "-"
                 +:+ ch_id selectedChild +:+ "-" +:+ now;
     image_url := str_or (Some (mi_image_url menuItem)) "";
     cart_item :=
       {| ci_name := mi_name menuItem; ci_price := mi_price menuItem;
          ci_quantity := 1;
          menu_item_id := mi_id menuItem; date := Some (dateString p);
          child_id := Some (ch_id selectedChild);
          ci_child_name := Some (ch_name selectedChild);
          ci_child_class := Some (class_name selectedChild);
          delivery_date := Some (dateString p) |} |}.

(** [addToCart(menuItem)]: the cart it sets (the cart as it is when a guard
    rejects the click) and the toast it shows. *)
Definition addToCart (now : string) (p : IndexPage) (menuItem : MenuItem)
  : list MenuCartItem * Event :=
  let cartItems := page_cartItems p in
  match page_user p with
  | None =>
      (cartItems,
       Toast "Login Required" "Silakan login terlebih dahulu untuk memesan"
             true)
  | Some _ =>
      if (length (page_children p) =? 0)%nat then
        (cartItems,
         Toast "Data Anak Diperlukan"
               "Silakan tambahkan data anak terlebih dahulu" true)
      else if negb (truthy_str (Some (selectedChildForMenu p))) then
        (cartItems,
         Toast "Pilih Anak"
               "Silakan pilih anak terlebih dahulu sebelum menambah menu" true)
      else
        match List.find (fun child =>
                           String.eqb (ch_id child) (selectedChildForMenu p))
                        (page_children p) with
        | None => (cartItems, Toast "Error" "Data anak tidak ditemukan" true)
        | Some selectedChild =>
            (match List.find (same_slot (mi_id menuItem) (dateString p)
                                        (ch_id selectedChild)) cartItems with
             | Some existingItem =>
                 map (fun item =>
                        if String.eqb (entry_id item) (entry_id existingItem)
                        then with_quantity (ci_quantity item + 1) item
                        else item) cartItems
             | None => (cartItems ++ [newItem now p menuItem selectedChild])%list
             end,
             Toast "Ditambahkan ke Keranjang"
                   (mi_name menuItem +:+ " untuk " +:+ ch_name selectedChild
                    +:+ " berhasil ditambahkan") false)
        end
  end.

(** [removeFromCart(itemId)]: the cart it sets. *)
Definition removeFromCart (itemId : string) (cartItems : list MenuCartItem)
  : list MenuCartItem :=
  match List.find (fun item => String.eqb (entry_id item) itemId)
                  cartItems with
  | Some existingItem =>
      if negb (Qle_bool (ci_quantity existingItem) 1) then
        map (fun item =>
               if String.eqb (entry_id item) itemId
               then with_quantity (ci_quantity item - 1) item
               else item) cartItems
      else filter (fun item => entry_id item <> itemId) cartItems
  | None => filter (fun item => entry_id item <> itemId) cartItems
  end.

(** [getItemQuantityInCart(menuItemId)]. *)
Definition getItemQuantityInCart (p : IndexPage) (menuItemId : string) : Q :=
  if negb (truthy_str (Some (selectedChildForMenu p))) then 0
  else
    num_or ((fun item : MenuCartItem => ci_quantity item)
              <$> List.find (same_slot menuItemId (dateString p)
                                       (selectedChildForMenu p))
                            (page_cartItems p))
           0.

(** [totalCartItems]. *)
Definition totalCartItems (cartItems : list MenuCartItem) : Q :=
  foldl (fun sum (item : MenuCartItem) => (sum + ci_quantity item)%Q) 0%Q
        cartItems.

(** The [onClick] of the minus button of a menu card: the cart it sets. *)
Definition minus_onClick (p : IndexPage) (menuItemId : string)
  : list MenuCartItem :=
  match List.find (same_slot menuItemId (dateString p)
                             (selectedChildForMenu p))
                  (page_cartItems p) with
  | Some cartItem => removeFromCart (entry_id cartItem) (page_cartItems p)
  | None => page_cartItems p
  end.

(** What the page keeps true of its cart: the entries have distinct ids and
    whole quantities of at least one. *)
Definition cart_well_formed (cartItems : list MenuCartItem) : Prop :=
  NoDup (map entry_id cartItems)
  /\ Forall (fun item : MenuCartItem =>
               is_integer (ci_quantity item) /\ (1 <= ci_quantity item)%Q)
            cartItems.

(** A click on the plus button that passes the guards of [addToCart]. *)
Definition can_add (p : IndexPage) (selectedChild : Child) : Prop :=
  page_user p <> None
  /\ selectedChildForMenu p <> ""
  /\ List.find (fun child => String.eqb (ch_id child) (selectedChildForMenu p))
               (page_children p)
     = Some selectedChild.

(** ** The children of a cart ([childrenInCart] of [Cart]) *)



(** A page of the menu with one child selected and an empty cart, and a
    menu item. *)
Definition example_page : IndexPage :=
  {| page_user := example_user;
     page_children := [ {| ch_id := "child-1"; ch_name := "Budi";
                           class_name := "3A" |} ];
     selectedChildForMenu := "child-1";
     dateString := "2025-01-20";
     page_cartItems := [] |}.

Definition nasi_goreng : MenuItem :=
  {| mi_id := "menu-1"; mi_name := "Nasi Goreng"; mi_price := 15000;
     mi_image_url := "" |}.

(** ** Where the embedding computes what the code computes *)

(** The code adds and multiplies doubles; the embedding computes with exact
    rationals.  The two agree as long as every intermediate result is a
    whole number of magnitude at most 2^53.  [representable_total] says so
    of the total the handler recomputes: with whole quantities, every
    normalised line value and every partial sum is bounded by the sum of
    the magnitudes of the line values. *)
Definition representable_total (items : list ItemInput) : Prop :=
  (Qsum (map (fun item => Qabs (line_value item)) items)
   <= 9007199254740992)%Q.

(** The same of a list of numbers a caller adds up. *)
Definition representable_sum (l : list Q) : Prop :=
  Forall is_integer l /\ (Qsum (map Qabs l) <= 9007199254740992)%Q.

(** Every character is an ASCII character: the string has as many UTF-16
    code units as it has characters here, and [substring] cuts it at the
    same place. *)
Definition is_ascii_string (s : string) : bool :=
  forallb (fun c => (nat_of_ascii c <? 128)%nat) (list_ascii_of_string s).

(** A store that refuses every insert into [order_line_items] and every
    delete of an order. *)
Definition refuse_line_items_and_delete (op : StoreOp) : option string :=
  match op with
  | InsertLineItems _ => Some "violates foreign key constraint"
  | DeleteOrder _ => Some "permission denied for table orders"
  | _ => None
  end.

(** * Properties *)

Open Scope list_scope.

(** ** Arithmetic of the normalisation *)

Lemma Math_round_integer q : is_integer q -> inject_Z (Math_round q) == q.
Proof.
  unfold is_integer, Math_round. intros H.
  rewrite <- H at 1.
  assert (E : Qfloor (inject_Z (Qfloor q) + (1 # 2)) = Qfloor q).
  { apply Z.le_antisymm.
    - apply Z.lt_succ_r. rewrite <- Z.add_1_r.
      assert (L : (inject_Z (Qfloor q) + (1 # 2) < inject_Z (Qfloor q + 1))%Q).
      { rewrite inject_Z_plus. apply Qplus_lt_r. reflexivity. }
      pose proof (Qfloor_le (inject_Z (Qfloor q) + (1 # 2))) as F.
      pose proof (Qle_lt_trans _ _ _ F L) as G.
      rewrite <- Zlt_Qlt in G. exact G.
    - rewrite <- (Qfloor_Z (Qfloor q)) at 1.
      apply Qfloor_resp_le.
      rewrite <- (Qplus_0_r (inject_Z (Qfloor q))) at 1.
      apply Qplus_le_r. discriminate. }
  rewrite E. exact H.
Qed.

Lemma is_integer_iff q : is_integer q <-> exists z, q == inject_Z z.
Proof.
  split.
  - intros H. exists (Qfloor q). symmetry. exact H.
  - intros [z Hz]. unfold is_integer.
    rewrite (Qfloor_comp _ _ Hz), Qfloor_Z. symmetry. exact Hz.
Qed.

Lemma is_integer_plus a b : is_integer a -> is_integer b -> is_integer (a + b).
Proof.
  rewrite !is_integer_iff. intros [x Hx] [y Hy]. exists (x + y)%Z.
  rewrite inject_Z_plus, Hx, Hy. reflexivity.
Qed.

Lemma is_integer_mult a b : is_integer a -> is_integer b -> is_integer (a * b).
Proof.
  rewrite !is_integer_iff. intros [x Hx] [y Hy]. exists (x * y)%Z.
  rewrite inject_Z_mult, Hx, Hy. reflexivity.
Qed.

Lemma is_integer_inject z : is_integer (inject_Z z).
Proof. apply is_integer_iff. exists z. reflexivity. Qed.

(** The left fold of the source adds up the same total as the sum over the
    line items. *)
Lemma calculatedTotal_from acc items :
  foldl (fun sum item => (sum + inject_Z (price item) * quantity item)%Q)
        acc items == acc + items_total items.
Proof.
  revert acc. induction items as [|item items IH]; intros acc; simpl.
  - rewrite Qplus_0_r. reflexivity.
  - rewrite IH. rewrite Qplus_assoc. reflexivity.
Qed.

Lemma calculatedTotal_items_total items :
  calculatedTotal items == items_total items.
Proof.
  unfold calculatedTotal. rewrite calculatedTotal_from.
  apply Qplus_0_l.
Qed.

Lemma items_total_integer items :
  Forall (fun item => is_integer (quantity item)) items ->
  is_integer (items_total items).
Proof.
  induction 1 as [|item items Hq _ IH]; simpl.
  - apply (is_integer_inject 0).
  - apply is_integer_plus; [|exact IH].
    apply is_integer_mult; [apply is_integer_inject|exact Hq].
Qed.

Lemma imap_normalize_quantities (items : list ItemInput) k :
  Forall (fun item => is_integer (num_or (in_quantity item) 1)) items ->
  Forall (fun item => is_integer (quantity item))
         (imap (fun i => normalize_item (k + i)) items).
Proof.
  intros H. revert k. induction H as [|item items Hq _ IH]; intros k; simpl.
  - constructor.
  - constructor; [exact Hq|].
    rewrite (imap_ext _ (fun i => normalize_item (S k + i))).
    + apply IH.
    + intros i x _. simpl. f_equal. lia.
Qed.

Lemma summary_item_total oid amt batch :
  items_total [summary_item oid amt batch] == inject_Z (Math_round amt).
Proof. simpl. rewrite Qmult_1_r, Qplus_0_r. reflexivity. Qed.

(** The line items of a payload add up to its gross amount when the
    quantities are whole numbers. *)
Lemma finalItemDetails_reconciles oid amt items batch :
  Forall (fun item => is_integer (num_or (in_quantity item) 1))
         (default [] items) ->
  items_total (finalItemDetails oid amt items batch)
  == inject_Z (Math_round amt).
Proof.
  intros Hq. unfold finalItemDetails.
  destruct items as [[|i rest]|]; try apply summary_item_total.
  destruct (total_mismatch (i :: rest) amt) eqn:E;
    [apply summary_item_total|].
  unfold total_mismatch, strict_neq in E.
  apply negb_false_iff, Qeq_bool_iff in E.
  rewrite calculatedTotal_items_total in E.
  assert (I : is_integer amt).
  { apply is_integer_iff.
    destruct (proj1 (is_integer_iff _)
                (items_total_integer _
                   (imap_normalize_quantities (i :: rest) 0 Hq))) as [z Hz].
    exists z. rewrite <- E. exact Hz. }
  rewrite (Math_round_integer _ I). exact E.
Qed.

(** ** Runs of the Gateway Transaction Function *)

Lemma new_events_app before after evs :
  events after = events before ++ evs -> new_events before after = evs.
Proof. intros E. unfold new_events. rewrite E. apply drop_app_length. Qed.

Ltac run_monad :=
  repeat (unfold mbind, M_bind, mret, M_ret, throw, try_catch, toast, emit,
          console_error, store_request, fetch, draw_stamp in *;
          simpl in * ).

Section GatewayFunction.

Context (Ω : Oracle).

Lemma positive_amount amt :
  (0 < amt)%Q -> Qeq_bool amt 0 || Qle_bool amt 0 = false.
Proof.
  intros H. apply orb_false_iff. split.
  - apply not_true_is_false. intros E. apply Qeq_bool_iff in E.
    rewrite E in H. discriminate.
  - apply not_true_is_false. intros E. apply Qle_bool_iff in E.
    apply (Qlt_irrefl 0). eapply Qlt_le_trans; eauto.
Qed.

Lemma eqb_nonempty s : s <> "" -> String.eqb s "" = false.
Proof. intros H. apply String.eqb_neq. exact H. Qed.

(** An accepted request reaches the batch mapping and the gateway call. *)
Lemma create_payment_accepted req oid amt :
  accepted Ω req oid amt ->
  create_payment Ω (Some req)
  = (save_batch_mapping Ω oid (batchOrderIds req);;
     create_transaction Ω (midtransPayload oid amt req)).
Proof.
  intros (Ho & Hne & Ha & Hpos & Hkey). unfold create_payment.
  rewrite Ho, Ha, (eqb_nonempty _ Hne), (positive_amount _ Hpos), Hkey.
  reflexivity.
Qed.

(** The gateway call itself: one call, and every reply becomes an answer
    or an error caught by the outer handler. *)
Lemma create_transaction_run p w :
  exists w',
    try_catch (create_transaction Ω p) (error_response) w
    = (Return (gateway_response (gateway Ω p)), w')
    /\ events w' = events w ++ [GatewayCall p]
    /\ store w' = store w
    /\ stamps_drawn w' = stamps_drawn w.
Proof.
  unfold create_transaction, error_response. run_monad.
  destruct (gateway Ω p) as [m|st t|t r]; simpl; eexists; repeat split.
Qed.

(** Without a batch, or without store configuration, nothing is written
    and the gateway is called once. *)
Lemma serve_without_mapping req oid amt w :
  accepted Ω req oid amt ->
  (batchOrderIds req = None \/ batchOrderIds req = Some []
   \/ store_configured Ω = false) ->
  exists w',
    serve Ω POST (Some req) w
    = (Return (gateway_response (gateway Ω (midtransPayload oid amt req))), w')
    /\ events w' = events w ++ [GatewayCall (midtransPayload oid amt req)]
    /\ store w' = store w
    /\ stamps_drawn w' = stamps_drawn w.
Proof.
  intros Hacc Hb. unfold serve. rewrite (create_payment_accepted _ _ _ Hacc).
  set (p := midtransPayload oid amt req).
  assert (S : exists w0,
             save_batch_mapping Ω oid (batchOrderIds req) w = (Return tt, w0)
             /\ events w0 = events w /\ store w0 = store w
             /\ stamps_drawn w0 = stamps_drawn w).
  { unfold save_batch_mapping, store_configured in *.
    destruct (batchOrderIds req) as [[|b ids]|];
      try (eexists; repeat split; fail).
    destruct Hb as [Hb|[Hb|Hb]]; try discriminate.
    rewrite Hb. run_monad. eexists; repeat split. }
  destruct S as (w0 & E0 & Ev0 & St0 & Sd0).
  destruct (create_transaction_run p w0) as (w' & E1 & Ev1 & St1 & Sd1).
  exists w'. repeat split; try congruence.
  unfold try_catch, mbind, M_bind in *. rewrite E0. exact E1.
Qed.

(** With a batch and a configured store, the mapping is written first and
    the gateway is called after it. *)
Lemma serve_mapping_saved req oid amt b ids w :
  accepted Ω req oid amt ->
  batchOrderIds req = Some (b :: ids) ->
  store_configured Ω = true ->
  store_error Ω (InsertBatchOrders (batch_rows oid (b :: ids))) = None ->
  exists w',
    serve Ω POST (Some req) w
    = (Return (gateway_response (gateway Ω (midtransPayload oid amt req))), w')
    /\ events w'
       = events w
         ++ [StoreRequest (InsertBatchOrders (batch_rows oid (b :: ids))) true;
             GatewayCall (midtransPayload oid amt req)]
    /\ store w'
       = apply_op (InsertBatchOrders (batch_rows oid (b :: ids))) (store w)
    /\ stamps_drawn w' = stamps_drawn w.
Proof.
  intros Hacc Hb Hc He. unfold serve.
  rewrite (create_payment_accepted _ _ _ Hacc).
  set (p := midtransPayload oid amt req).
  assert (S : exists w0,
             save_batch_mapping Ω oid (batchOrderIds req) w = (Return tt, w0)
             /\ events w0
                = events w
                  ++ [StoreRequest
                        (InsertBatchOrders (batch_rows oid (b :: ids))) true]
             /\ store w0
                = apply_op (InsertBatchOrders (batch_rows oid (b :: ids)))
                           (store w)
             /\ stamps_drawn w0 = stamps_drawn w).
  { unfold save_batch_mapping, store_configured, batch_rows in *.
    rewrite Hb, Hc. run_monad. rewrite He. eexists; repeat split. }
  destruct S as (w0 & E0 & Ev0 & St0 & Sd0).
  destruct (create_transaction_run p w0) as (w' & E1 & Ev1 & St1 & Sd1).
  exists w'. repeat split; try congruence.
  - unfold try_catch, mbind, M_bind in *. rewrite E0. exact E1.
  - rewrite Ev1, Ev0, <- app_assoc. reflexivity.
Qed.

(** When the store refuses the mapping, the request fails and the gateway
    is not called. *)
Lemma serve_mapping_failed req oid amt b ids message w :
  accepted Ω req oid amt ->
  batchOrderIds req = Some (b :: ids) ->
  store_configured Ω = true ->
  store_error Ω (InsertBatchOrders (batch_rows oid (b :: ids)))
  = Some message ->
  exists w',
    serve Ω POST (Some req) w
    = (Return
         {| resp_status := 500;
            resp_body :=
              let m := "Database error: "
                       +:+ ("Failed to save batch mapping: " +:+ message) in
              ErrorBody m ("Error: " +:+ m) "Error" |}, w')
    /\ events w'
       = events w
         ++ [StoreRequest (InsertBatchOrders (batch_rows oid (b :: ids)))
                          false]
    /\ store w' = store w
    /\ stamps_drawn w' = stamps_drawn w.
Proof.
  intros Hacc Hb Hc He. unfold serve.
  rewrite (create_payment_accepted _ _ _ Hacc).
  unfold save_batch_mapping, store_configured, batch_rows, error_response
    in *.
  rewrite Hb, Hc. run_monad. rewrite He. simpl.
  eexists; repeat split.
Qed.

End GatewayFunction.

(** ** What the gateway receives *)

(** The normalisation on small inputs: a long name is cut at 45 characters
    and marked, an empty name and a missing id are numbered from 1, a price
    of 2.5 is rounded to 3 and a quantity of 0 counts as 1. *)
Example normalize_item_long_name :
  name (normalize_item 0
          {| in_id := Some "menu-7";
             in_name :=
               Some "Nasi Goreng Spesial Dengan Telur Mata Sapi Dan Kerupuk";
             in_price := Some 18000%Q; in_quantity := Some 1%Q |})
  = "Nasi Goreng Spesial Dengan Telur Mata Sapi Da...".
Proof. reflexivity. Qed.

Example normalize_item_defaults :
  normalize_item 4 {| in_id := None; in_name := Some "";
                      in_price := Some (5 # 2)%Q; in_quantity := Some 0%Q |}
  = {| id := "item-5"; price := 3; quantity := 1; name := "Item 5" |}.
Proof. reflexivity. Qed.

(** The first end-to-end scenario: the two line items are passed through
    and add up to the gross amount of 50000. *)
Example two_item_request_payload :
  sent_payloads example_oracle two_item_request empty_world
  = [ {| transaction_details :=
           {| order_id := "ORDER-3"; gross_amount := 50000 |};
         customer_details := defaultCustomerDetails;
         item_details :=
           [ {| id := "menu-1"; price := 15000; quantity := 2;
                name := "Nasi Goreng" |};
             {| id := "menu-2"; price := 20000; quantity := 1;
                name := "Ayam Bakar" |} ];
         credit_card_secure := true |} ].
Proof. vm_compute. reflexivity. Qed.

(** An accepted request sends its payload, once, unless the store refused
    the batch mapping. *)
Lemma sent_payloads_accepted Ω req oid amt w :
  accepted Ω req oid amt ->
  sent_payloads Ω req w = [midtransPayload oid amt req]
  \/ (sent_payloads Ω req w = []
      /\ exists b ids message,
           batchOrderIds req = Some (b :: ids)
           /\ store_configured Ω = true
           /\ store_error Ω (InsertBatchOrders (batch_rows oid (b :: ids)))
              = Some message).
Proof.
  intros Hacc. unfold sent_payloads.
  destruct (batchOrderIds req) as [[|b ids]|] eqn:Hb.
  - destruct (serve_without_mapping Ω req oid amt w Hacc) as (w' & E & Ev & _);
      [auto|]. left. rewrite E. simpl. rewrite (new_events_app _ _ _ Ev).
    reflexivity.
  - destruct (store_configured Ω) eqn:Hc.
    + destruct (store_error Ω (InsertBatchOrders (batch_rows oid (b :: ids))))
        as [message|] eqn:He.
      * destruct (serve_mapping_failed Ω req oid amt b ids message w
                    Hacc Hb Hc He) as (w' & E & Ev & _).
        right. rewrite E. simpl. rewrite (new_events_app _ _ _ Ev).
        split; [reflexivity|]. eauto 6.
      * destruct (serve_mapping_saved Ω req oid amt b ids w Hacc Hb Hc He)
          as (w' & E & Ev & _).
        left. rewrite E. simpl. rewrite (new_events_app _ _ _ Ev).
        reflexivity.
    + destruct (serve_without_mapping Ω req oid amt w Hacc) as (w' & E & Ev & _);
        [auto|]. left. rewrite E. simpl. rewrite (new_events_app _ _ _ Ev).
      reflexivity.
  - destruct (serve_without_mapping Ω req oid amt w Hacc) as (w' & E & Ev & _);
      [auto|]. left. rewrite E. simpl. rewrite (new_events_app _ _ _ Ev).
    reflexivity.
Qed.

Lemma sent_payload_is req oid amt Ω w p :
  accepted Ω req oid amt ->
  p ∈ sent_payloads Ω req w ->
  p = midtransPayload oid amt req.
Proof.
  intros Hacc Hp.
  destruct (sent_payloads_accepted Ω req oid amt w Hacc) as [E|[E _]];
    rewrite E in Hp.
  - apply list_elem_of_singleton in Hp. exact Hp.
  - apply elem_of_nil in Hp. contradiction.
Qed.

Lemma total_mismatch_spec items amt :
  total_mismatch items amt = true
  <-> ~ items_total (imap normalize_item items) == amt.
Proof.
  unfold total_mismatch, strict_neq.
  rewrite negb_true_iff, <- not_true_iff_false, Qeq_bool_iff.
  rewrite calculatedTotal_items_total. reflexivity.
Qed.

(** X25: where the reconciliation holds.  For every accepted request whose
    item quantities are whole numbers (a missing quantity counts as 1) and
    whose normalised line values stay within what doubles add exactly, the
    line items sent to the gateway add up to [round(amount)] exactly and
    [gross_amount] is the same [round(amount)]; whenever the normalised
    total of a supplied itemisation differs from the amount as it was
    received, the single summary line item is sent instead. *)
Theorem gateway_totals_reconcile Ω req oid amt w p :
  accepted Ω req oid amt ->
  whole_quantities req ->
  representable_total (default [] (itemDetails req)) ->
  p ∈ sent_payloads Ω req w ->
  items_total (item_details p) == inject_Z (Math_round amt)
  /\ gross_amount (transaction_details p) = Math_round amt
  /\ (forall i rest,
        itemDetails req = Some (i :: rest) ->
        ~ items_total (imap normalize_item (i :: rest)) == amt ->
        item_details p = [summary_item oid amt (batchOrderIds req)]).
Proof.
  intros Hacc Hq _ Hp. rewrite (sent_payload_is _ _ _ _ _ _ Hacc Hp).
  unfold midtransPayload. cbn [item_details transaction_details gross_amount].
  split; [|split].
  - apply finalItemDetails_reconciles. exact Hq.
  - reflexivity.
  - intros i rest Hi Hne. rewrite Hi. unfold finalItemDetails.
    apply total_mismatch_spec in Hne. rewrite Hne. reflexivity.
Qed.

(** The first end-to-end scenario passes its two line items through. *)
Lemma gateway_totals_reconcile_witness :
  accepted example_oracle two_item_request "ORDER-3" 50000
  /\ whole_quantities two_item_request
  /\ representable_total (default [] (itemDetails two_item_request))
  /\ midtransPayload "ORDER-3" 50000 two_item_request
     ∈ sent_payloads example_oracle two_item_request empty_world
  /\ items_total
       (item_details (midtransPayload "ORDER-3" 50000 two_item_request))
     == inject_Z (Math_round 50000).
Proof.
  assert (A : accepted example_oracle two_item_request "ORDER-3" 50000).
  { simpl. repeat split; try reflexivity. discriminate. }
  assert (Q : whole_quantities two_item_request).
  { repeat constructor. }
  assert (P : midtransPayload "ORDER-3" 50000 two_item_request
              ∈ sent_payloads example_oracle two_item_request empty_world).
  { vm_compute. constructor. }
  assert (R : representable_total (default [] (itemDetails two_item_request))).
  { unfold representable_total. vm_compute. discriminate. }
  split; [exact A|split; [exact Q|split; [exact R|split; [exact P|]]]].
  exact (proj1 (gateway_totals_reconcile example_oracle two_item_request
                  "ORDER-3" 50000 empty_world _ A Q R P)).
Defined.

(** C1: the handler misses the reconciliation it attempts.  It tests the
    recomputed total against the amount as received and then sends the
    rounded amount: for one item of price 3 and quantity one half against
    the amount 1.5 (all of them numbers a double holds exactly) the request
    is accepted, the itemisation is passed through, and the gateway
    receives line items adding up to 1.5 next to a gross amount of 2. *)
Lemma reconciliation_fails_on_half_portion :
  accepted example_oracle half_portion_request "ORDER-1" (3 # 2)
  /\ exists p,
       sent_payloads example_oracle half_portion_request empty_world = [p]
       /\ gross_amount (transaction_details p) = Math_round (3 # 2)
       /\ ~ items_total (item_details p) == inject_Z (Math_round (3 # 2)).
Proof.
  split.
  - simpl. repeat split; try reflexivity. discriminate.
  - eexists. split; [vm_compute; reflexivity|]. split; [reflexivity|].
    vm_compute. discriminate.
Qed.

(** X26: what the handler's test decides.  For every accepted request with
    a non-empty itemDetails array of whole quantities whose normalised line
    values stay within what doubles add exactly, the single summary line
    item is sent if and only if the sum of the normalised item totals
    differs from the amount as it was received (the handler does not round
    the amount for the comparison); the summary item has the rounded amount
    as price, quantity 1, the order id as id, and is named "Batch Payment
    (n orders)" when batchOrderIds holds more than one id and "Payment"
    otherwise. *)
Theorem summary_substituted_iff_mismatch Ω req oid amt w p i rest :
  accepted Ω req oid amt ->
  itemDetails req = Some (i :: rest) ->
  whole_quantities req ->
  representable_total (i :: rest) ->
  p ∈ sent_payloads Ω req w ->
  (total_mismatch (i :: rest) amt = true
   <-> ~ items_total (imap normalize_item (i :: rest)) == amt)
  /\ (total_mismatch (i :: rest) amt = true ->
      item_details p
      = [ {| id := oid; price := Math_round amt; quantity := 1;
             name := match batchOrderIds req with
                     | Some ids =>
                         if (1 <? length ids)%nat
                         then "Batch Payment (" +:+ show (length ids)
                              +:+ " orders)"
                         else "Payment"
                     | None => "Payment"
                     end |} ])
  /\ (total_mismatch (i :: rest) amt = false ->
      item_details p = imap normalize_item (i :: rest)).
Proof.
  intros Hacc Hi _ _ Hp. rewrite (sent_payload_is _ _ _ _ _ _ Hacc Hp).
  unfold midtransPayload. cbn [item_details]. rewrite Hi.
  unfold finalItemDetails.
  split; [apply total_mismatch_spec|].
  split; intros E; rewrite E; reflexivity.
Qed.

(** A batch whose items do not add up to the amount is billed as one
    "Batch Payment (3 orders)" line. *)
Lemma summary_substituted_iff_mismatch_witness :
  item_details (midtransPayload "ORDER-4" 60000 mismatched_request)
  = [ {| id := "ORDER-4"; price := 60000; quantity := 1;
         name := "Batch Payment (3 orders)" |} ].
Proof.
  assert (A : accepted example_oracle mismatched_request "ORDER-4" 60000).
  { simpl. repeat split; try reflexivity. discriminate. }
  assert (P : midtransPayload "ORDER-4" 60000 mismatched_request
              ∈ sent_payloads example_oracle mismatched_request empty_world).
  { vm_compute. constructor. }
  assert (Q : whole_quantities mismatched_request).
  { repeat constructor. }
  assert (R : representable_total (default [] (itemDetails mismatched_request))).
  { unfold representable_total. vm_compute. discriminate. }
  exact (proj1 (proj2 (summary_substituted_iff_mismatch example_oracle
                         mismatched_request "ORDER-4" 60000 empty_world _ _ _
                         A eq_refl Q R P))
               eq_refl).
Defined.

(** C2: the handler compares with the amount as received, not with the
    rounded amount it sends.  For the amount 10.5 and one item of price
    10.5 and quantity 1 (numbers a double holds exactly), the normalised
    total is 11, which is the rounded amount, and the summary item is
    substituted all the same. *)
Lemma substitution_compares_unrounded_amount :
  accepted example_oracle fractional_amount_request "ORDER-2" (21 # 2)
  /\ items_total
       (imap normalize_item
             (default [] (itemDetails fractional_amount_request)))
     == inject_Z (Math_round (21 # 2))
  /\ exists p,
       sent_payloads example_oracle fractional_amount_request empty_world
       = [p]
       /\ item_details p
          = [summary_item "ORDER-2" (21 # 2)
                          (batchOrderIds fractional_amount_request)]
       /\ item_details p
          <> imap normalize_item
                  (default [] (itemDetails fractional_amount_request)).
Proof.
  split; [|split].
  - simpl. repeat split; try reflexivity. discriminate.
  - vm_compute. reflexivity.
  - eexists. split; [vm_compute; reflexivity|]. split; [reflexivity|].
    vm_compute. discriminate.
Qed.

(** C10: a request that passes validation without itemDetails (absent or
    an empty array) sends exactly one line item: id = orderId, price =
    round(amount), quantity 1, named "Batch Payment (n orders)" when
    batchOrderIds has more than one entry and "Payment" otherwise; that
    single line reconciles with the gross amount. *)
Theorem unitemized_request_sends_summary Ω req oid amt w p :
  accepted Ω req oid amt ->
  itemDetails req = None \/ itemDetails req = Some [] ->
  p ∈ sent_payloads Ω req w ->
  item_details p
  = [ {| id := oid; price := Math_round amt; quantity := 1;
         name := match batchOrderIds req with
                 | Some ids =>
                     if (1 <? length ids)%nat
                     then "Batch Payment (" +:+ show (length ids)
                          +:+ " orders)"
                     else "Payment"
                 | None => "Payment"
                 end |} ]
  /\ items_total (item_details p)
     == inject_Z (gross_amount (transaction_details p)).
Proof.
  intros Hacc Hi Hp. rewrite (sent_payload_is _ _ _ _ _ _ Hacc Hp).
  unfold midtransPayload.
  cbn [item_details transaction_details gross_amount].
  assert (E : finalItemDetails oid amt (itemDetails req) (batchOrderIds req)
              = [summary_item oid amt (batchOrderIds req)]).
  { destruct Hi as [Hi|Hi]; rewrite Hi; reflexivity. }
  rewrite E. split; [reflexivity|apply summary_item_total].
Qed.

Lemma unitemized_request_sends_summary_witness :
  sent_payloads example_oracle unitemized_request empty_world
  = [midtransPayload "ORDER-5" 25000 unitemized_request]
  /\ item_details (midtransPayload "ORDER-5" 25000 unitemized_request)
     = [ {| id := "ORDER-5"; price := 25000; quantity := 1;
            name := "Payment" |} ].
Proof.
  assert (A : accepted example_oracle unitemized_request "ORDER-5" 25000).
  { simpl. repeat split; try reflexivity. discriminate. }
  assert (S : sent_payloads example_oracle unitemized_request empty_world
              = [midtransPayload "ORDER-5" 25000 unitemized_request]).
  { vm_compute. reflexivity. }
  assert (P : midtransPayload "ORDER-5" 25000 unitemized_request
              ∈ sent_payloads example_oracle unitemized_request empty_world).
  { rewrite S. constructor. }
  split; [exact S|].
  exact (proj1 (unitemized_request_sends_summary example_oracle
                  unitemized_request "ORDER-5" 25000 empty_world _ A
                  (or_introl eq_refl) P)).
Defined.

(** ** Validation and the batch mapping *)

(** C5: a request whose orderId is missing or empty, or whose amount is
    missing, zero or not positive, is answered with a descriptive error
    (status 500), and the run writes nothing to the Order Store and calls
    neither the store nor the gateway: no event is added and the store is
    unchanged. *)
Theorem invalid_request_has_no_side_effect Ω req w :
  truthy_str (orderId req) = false
  \/ amount req = None
  \/ (exists amt, amount req = Some amt /\ (amt <= 0)%Q) ->
  exists message w',
    serve Ω POST (Some req) w
    = (Return {| resp_status := 500;
                 resp_body := ErrorBody message ("Error: " +:+ message)
                                        "Error" |}, w')
    /\ (message = "Order ID is required"
        \/ message = "Valid amount is required")
    /\ store w' = store w
    /\ events w' = events w
    /\ new_events w w' = []
    /\ sent_payloads Ω req w = [].
Proof.
  intros H.
  assert (G : exists message w',
             serve Ω POST (Some req) w
             = (Return {| resp_status := 500;
                          resp_body := ErrorBody message
                                         ("Error: " +:+ message) "Error" |},
                w')
             /\ (message = "Order ID is required"
                 \/ message = "Valid amount is required")
             /\ store w' = store w
             /\ events w' = events w).
  { unfold serve, create_payment, error_response.
    destruct (orderId req) as [oid|] eqn:Ho.
    - destruct (String.eqb oid "") eqn:Eo.
      + run_monad. eexists _, _. repeat split. left. reflexivity.
      + destruct H as [H|[H|(amt & Ha & Hle)]].
        * simpl in H. rewrite Eo in H. discriminate.
        * rewrite H. run_monad. eexists _, _. repeat split. right. reflexivity.
        * rewrite Ha.
          assert (B : Qeq_bool amt 0 || Qle_bool amt 0 = true).
          { apply orb_true_iff. right. apply Qle_bool_iff. exact Hle. }
          rewrite B. run_monad. eexists _, _. repeat split. right.
          reflexivity.
    - run_monad. eexists _, _. repeat split. left. reflexivity. }
  destruct G as (message & w' & E & Hm & Hs & He).
  exists message, w'. repeat split; try assumption.
  - unfold new_events. rewrite He. apply drop_all.
  - unfold sent_payloads, new_events. rewrite E. simpl. rewrite He.
    rewrite drop_all. reflexivity.
Qed.

(** A checkout with amount 0 against a store that already holds rows: the
    answer is the validation error and nothing else happened. *)
Lemma invalid_request_has_no_side_effect_witness :
  exists message w',
    serve example_oracle POST
          (Some {| orderId := Some "ORDER-9"; amount := Some 0%Q;
                   customerDetails := None; itemDetails := None;
                   batchOrderIds := Some ["a"; "b"] |})
          empty_world
    = (Return {| resp_status := 500;
                 resp_body := ErrorBody message ("Error: " +:+ message)
                                        "Error" |}, w')
    /\ store w' = store empty_world
    /\ events w' = events empty_world.
Proof.
  destruct (invalid_request_has_no_side_effect example_oracle
              {| orderId := Some "ORDER-9"; amount := Some 0%Q;
                 customerDetails := None; itemDetails := None;
                 batchOrderIds := Some ["a"; "b"] |}
              empty_world)
    as (message & w' & E & _ & Hs & He & _).
  - right. right. exists 0%Q. split; [reflexivity|discriminate].
  - exists message, w'. auto.
Defined.

(** Without store configuration a batch request logs the problem. *)
Lemma unconfigured_batch_is_logged Ω req oid amt b ids w :
  accepted Ω req oid amt ->
  batchOrderIds req = Some (b :: ids) ->
  store_configured Ω = false ->
  "Supabase configuration missing for batch mapping"
  ∈ console_errors (serve Ω POST (Some req) w).2.
Proof.
  intros Hacc Hb Hc. unfold serve.
  rewrite (create_payment_accepted _ _ _ _ Hacc).
  unfold save_batch_mapping, store_configured, create_transaction,
    error_response in *.
  rewrite Hb, Hc. run_monad.
  destruct (gateway Ω (midtransPayload oid amt req)); simpl;
    rewrite ?elem_of_app, !list_elem_of_singleton; tauto.
Qed.

(** C6: for an accepted request with a non-empty batchOrderIds,
    - when the reconciliation store is configured and carries the insert
      out, one batch_orders row per order id, each pointing at the batch id,
      is inserted first and the gateway is called after it;
    - when the store is configured and the insert fails, the request fails
      with status 500, nothing is stored and the gateway is never called;
    - when the store configuration is missing, the function logs the
      problem, writes nothing and still calls the gateway. *)
Theorem batch_mapping_precedes_gateway Ω req oid amt b ids w :
  accepted Ω req oid amt ->
  batchOrderIds req = Some (b :: ids) ->
  let rows := batch_rows oid (b :: ids) in
  let p := midtransPayload oid amt req in
  let run := serve Ω POST (Some req) w in
  map br_order_id rows = b :: ids
  /\ Forall (fun row => batch_id row = oid) rows
  /\ (store_configured Ω = true ->
      store_error Ω (InsertBatchOrders rows) = None ->
      new_events w run.2
      = [StoreRequest (InsertBatchOrders rows) true; GatewayCall p]
      /\ batch_orders (store run.2) = batch_orders (store w) ++ rows)
  /\ (store_configured Ω = true ->
      forall message,
        store_error Ω (InsertBatchOrders rows) = Some message ->
        new_events w run.2 = [StoreRequest (InsertBatchOrders rows) false]
        /\ store run.2 = store w
        /\ exists resp, run.1 = Return resp /\ resp_status resp = 500)
  /\ (store_configured Ω = false ->
      new_events w run.2 = [GatewayCall p]
      /\ store run.2 = store w
      /\ "Supabase configuration missing for batch mapping"
         ∈ console_errors run.2).
Proof.
  intros Hacc Hb rows p run. subst rows p run.
  split; [|split; [|split; [|split]]].
  - unfold batch_rows. rewrite map_map. apply map_id.
  - unfold batch_rows. apply Forall_map. apply Forall_true. reflexivity.
  - intros Hc He.
    destruct (serve_mapping_saved Ω req oid amt b ids w Hacc Hb Hc He)
      as (w' & E & Ev & St & _).
    rewrite E. simpl. rewrite (new_events_app _ _ _ Ev), St.
    split; reflexivity.
  - intros Hc message He.
    destruct (serve_mapping_failed Ω req oid amt b ids message w
                Hacc Hb Hc He) as (w' & E & Ev & St & _).
    rewrite E. simpl. rewrite (new_events_app _ _ _ Ev), St.
    repeat split. eexists. split; reflexivity.
  - intros Hc. split; [|split].
    + destruct (serve_without_mapping Ω req oid amt w Hacc)
        as (w' & E & Ev & St & _); [auto|].
      rewrite E. simpl. apply (new_events_app _ _ _ Ev).
    + destruct (serve_without_mapping Ω req oid amt w Hacc)
        as (w' & E & Ev & St & _); [auto|].
      rewrite E. simpl. exact St.
    + apply (unconfigured_batch_is_logged Ω req oid amt b ids w Hacc Hb Hc).
Qed.

(** The three cases on the batch ["a"; "b"; "c"] of order "ORDER-4". *)
Lemma batch_mapping_precedes_gateway_witness :
  (let run := serve example_oracle POST (Some mismatched_request)
                    empty_world in
   batch_orders (store run.2)
   = [ {| batch_id := "ORDER-4"; br_order_id := "a" |};
       {| batch_id := "ORDER-4"; br_order_id := "b" |};
       {| batch_id := "ORDER-4"; br_order_id := "c" |} ])
  /\ (let run := serve (with_store_error refuse_batch_mapping example_oracle)
                       POST (Some mismatched_request) empty_world in
      payloads (new_events empty_world run.2) = []
      /\ store run.2 = empty_store)
  /\ (let run := serve (with_env unconfigured_env example_oracle) POST
                       (Some mismatched_request) empty_world in
      new_events empty_world run.2
      = [GatewayCall (midtransPayload "ORDER-4" 60000 mismatched_request)]
      /\ store run.2 = empty_store).
Proof.
  assert (A : forall Ω,
             truthy_str (MIDTRANS_SERVER_KEY (deno_env Ω)) = true ->
             accepted Ω mismatched_request "ORDER-4" 60000).
  { intros Ω K. simpl. repeat split; try reflexivity; try assumption.
    discriminate. }
  split; [|split].
  - destruct (batch_mapping_precedes_gateway example_oracle
                mismatched_request "ORDER-4" 60000 "a" ["b"; "c"] empty_world
                (A example_oracle eq_refl) eq_refl) as (_ & _ & H & _).
    exact (proj2 (H eq_refl eq_refl)).
  - destruct (batch_mapping_precedes_gateway
                (with_store_error refuse_batch_mapping example_oracle)
                mismatched_request "ORDER-4" 60000 "a" ["b"; "c"] empty_world
                (A (with_store_error refuse_batch_mapping example_oracle)
                   eq_refl) eq_refl) as (_ & _ & _ & H & _).
    destruct (H eq_refl _ eq_refl) as (Ev & St & _).
    split; [rewrite Ev; reflexivity|exact St].
  - destruct (batch_mapping_precedes_gateway
                (with_env unconfigured_env example_oracle)
                mismatched_request "ORDER-4" 60000 "a" ["b"; "c"] empty_world
                (A (with_env unconfigured_env example_oracle) eq_refl)
                eq_refl) as (_ & _ & _ & _ & H).
    destruct (H eq_refl) as (Ev & St & _).
    split; assumption.
Defined.

(** ** Every run of the Gateway Transaction Function *)

Lemma validated_accepted Ω req oid amt :
  validated Ω req = Some (oid, amt) -> accepted Ω req oid amt.
Proof.
  unfold validated, accepted.
  destruct (orderId req) as [o|]; [|discriminate].
  destruct (amount req) as [a|]; [|discriminate].
  destruct (String.eqb o "") eqn:Eo; [discriminate|].
  destruct (Qeq_bool a 0 || Qle_bool a 0) eqn:Ea; [discriminate|].
  destruct (truthy_str (MIDTRANS_SERVER_KEY (deno_env Ω))) eqn:Ek;
    [|discriminate].
  simpl. intros [= <- <-]. repeat split; auto.
  - apply String.eqb_neq. exact Eo.
  - apply orb_false_iff in Ea. destruct Ea as [_ Ea].
    apply Qnot_le_lt. intros L. apply Qle_bool_iff in L. congruence.
Qed.

(** A request that does not pass is answered with status 500 and leaves no
    trace besides the console. *)
Lemma serve_not_validated Ω req w :
  validated Ω req = None ->
  exists resp w',
    serve Ω POST (Some req) w = (Return resp, w')
    /\ resp_status resp = 500
    /\ events w' = events w
    /\ store w' = store w
    /\ stamps_drawn w' = stamps_drawn w.
Proof.
  unfold validated, serve, create_payment, error_response.
  destruct (orderId req) as [o|]; [|run_monad; eexists _, _; repeat split].
  destruct (String.eqb o ""); [run_monad; eexists _, _; repeat split|].
  destruct (amount req) as [a|]; [|run_monad; eexists _, _; repeat split].
  destruct (Qeq_bool a 0 || Qle_bool a 0);
    [run_monad; eexists _, _; repeat split|].
  destruct (truthy_str (MIDTRANS_SERVER_KEY (deno_env Ω)));
    [discriminate|].
  run_monad. eexists _, _; repeat split.
Qed.

Lemma gateway_response_ok reply t r :
  gateway_response reply
  = {| resp_status := 200; resp_body := TokenBody t r |} ->
  reply = HttpOk t r.
Proof. destruct reply; simpl; intros [=]; subst; reflexivity. Qed.

(** What a run of the function can do, whatever the request: it answers,
    it adds only its own events, at most one gateway call, and it touches
    no table but [batch_orders]. *)
Lemma serve_runs Ω req w :
  exists resp w' evs,
    serve Ω POST (Some req) w = (Return resp, w')
    /\ events w' = events w ++ evs
    /\ Forall server_event evs
    /\ (length (payloads evs) <= 1)%nat
    /\ orders (store w') = orders (store w)
    /\ stamps_drawn w' = stamps_drawn w.
Proof.
  assert (K : forall resp w' evs,
             serve Ω POST (Some req) w = (Return resp, w') ->
             events w' = events w ++ evs ->
             Forall server_event evs ->
             (length (payloads evs) <= 1)%nat ->
             orders (store w') = orders (store w) ->
             stamps_drawn w' = stamps_drawn w ->
             exists resp w' evs,
               serve Ω POST (Some req) w = (Return resp, w')
               /\ events w' = events w ++ evs
               /\ Forall server_event evs
               /\ (length (payloads evs) <= 1)%nat
               /\ orders (store w') = orders (store w)
               /\ stamps_drawn w' = stamps_drawn w).
  { intros resp w' evs. eauto 10. }
  destruct (validated Ω req) as [[oid amt]|] eqn:V.
  - apply validated_accepted in V.
    destruct (batchOrderIds req) as [[|b ids]|] eqn:Hb;
      [| destruct (store_configured Ω) eqn:Hc;
         [destruct (store_error Ω
                      (InsertBatchOrders (batch_rows oid (b :: ids))))
            as [message|] eqn:He|] |].
    + destruct (serve_without_mapping Ω req oid amt w V)
        as (w' & E & Ev & St & Sd); [auto|].
      apply (K _ _ _ E Ev); [repeat constructor|simpl; lia|congruence|exact Sd].
    + destruct (serve_mapping_failed Ω req oid amt b ids message w
                  V Hb Hc He) as (w' & E & Ev & St & Sd).
      apply (K _ _ _ E Ev); [repeat constructor|simpl; lia|congruence|exact Sd].
    + destruct (serve_mapping_saved Ω req oid amt b ids w V Hb Hc He)
        as (w' & E & Ev & St & Sd).
      apply (K _ _ _ E Ev);
        [repeat constructor|simpl; lia|rewrite St; reflexivity|exact Sd].
    + destruct (serve_without_mapping Ω req oid amt w V)
        as (w' & E & Ev & St & Sd); [auto|].
      apply (K _ _ _ E Ev); [repeat constructor|simpl; lia|congruence|exact Sd].
    + destruct (serve_without_mapping Ω req oid amt w V)
        as (w' & E & Ev & St & Sd); [auto|].
      apply (K _ _ _ E Ev); [repeat constructor|simpl; lia|congruence|exact Sd].
  - destruct (serve_not_validated Ω req w V)
      as (resp & w' & E & _ & Ev & St & Sd).
    apply (K resp w' [] E);
      [rewrite app_nil_r; exact Ev|constructor|simpl; lia|congruence
      |exact Sd].
Qed.

(** A 200 answer carrying a token means: the request was accepted, the
    gateway replied with that token, and a batch mapping, when one was due
    and the store is configured, has been written before. *)
Lemma serve_success_inv Ω req w t r w' :
  serve Ω POST (Some req) w
  = (Return {| resp_status := 200; resp_body := TokenBody t r |}, w') ->
  exists oid amt,
    accepted Ω req oid amt
    /\ gateway Ω (midtransPayload oid amt req) = HttpOk t r
    /\ orders (store w') = orders (store w)
    /\ stamps_drawn w' = stamps_drawn w
    /\ match batchOrderIds req with
       | Some (b :: ids) =>
           if store_configured Ω
           then batch_orders (store w')
                = batch_orders (store w) ++ batch_rows oid (b :: ids)
                /\ events w'
                   = events w
                     ++ [StoreRequest
                           (InsertBatchOrders (batch_rows oid (b :: ids)))
                           true;
                         GatewayCall (midtransPayload oid amt req)]
           else store w' = store w
                /\ events w'
                   = events w ++ [GatewayCall (midtransPayload oid amt req)]
       | _ => store w' = store w
              /\ events w'
                 = events w ++ [GatewayCall (midtransPayload oid amt req)]
       end.
Proof.
  intros E.
  destruct (validated Ω req) as [[oid amt]|] eqn:V.
  - apply validated_accepted in V. exists oid, amt.
    destruct (batchOrderIds req) as [[|b ids]|] eqn:Hb.
    + destruct (serve_without_mapping Ω req oid amt w V)
        as (w1 & E1 & Ev & St & Sd); [auto|].
      rewrite E in E1. injection E1 as R <-.
      symmetry in R. apply gateway_response_ok in R.
      split; [exact V|]. split; [exact R|]. split; [congruence|].
      split; [exact Sd|]. split; assumption.
    + destruct (store_configured Ω) eqn:Hc.
      * destruct (store_error Ω
                    (InsertBatchOrders (batch_rows oid (b :: ids))))
          as [message|] eqn:He.
        -- destruct (serve_mapping_failed Ω req oid amt b ids message w
                       V Hb Hc He) as (w1 & E1 & _).
           rewrite E in E1. discriminate.
        -- destruct (serve_mapping_saved Ω req oid amt b ids w V Hb Hc He)
             as (w1 & E1 & Ev & St & Sd).
           rewrite E in E1. injection E1 as R <-.
           symmetry in R. apply gateway_response_ok in R.
           split; [exact V|]. split; [exact R|].
           split; [rewrite St; reflexivity|]. split; [exact Sd|].
           split; [rewrite St; reflexivity|exact Ev].
      * destruct (serve_without_mapping Ω req oid amt w V)
          as (w1 & E1 & Ev & St & Sd); [auto|].
        rewrite E in E1. injection E1 as R <-.
        symmetry in R. apply gateway_response_ok in R.
        split; [exact V|]. split; [exact R|]. split; [congruence|].
        split; [exact Sd|]. split; assumption.
    + destruct (serve_without_mapping Ω req oid amt w V)
        as (w1 & E1 & Ev & St & Sd); [auto|].
      rewrite E in E1. injection E1 as R <-.
      symmetry in R. apply gateway_response_ok in R.
      split; [exact V|]. split; [exact R|]. split; [congruence|].
      split; [exact Sd|]. split; assumption.
  - destruct (serve_not_validated Ω req w V) as (resp & w1 & E1 & S5 & _).
    rewrite E in E1. injection E1 as <- <-. discriminate.
Qed.

(** ** The function call from the client *)

Lemma invoked_app a b : invoked (a ++ b) = invoked a ++ invoked b.
Proof. apply omap_app. Qed.

Lemma payloads_app a b : payloads (a ++ b) = payloads a ++ payloads b.
Proof. apply omap_app. Qed.

Lemma server_events_not_invoked evs :
  Forall server_event evs -> invoked evs = [] /\ widget_opened evs = [].
Proof.
  induction 1 as [|e evs He _ [IH1 IH2]]; [split; reflexivity|].
  destruct e as [[]| | | |]; simpl in *; try contradiction; auto.
Qed.

(** The world once an event has been recorded. *)
Lemma emit_run e w :
  emit e w
  = (Return tt, mkWorld (store w) (events w ++ [e]) (console_errors w)
                        (stamps_drawn w)).
Proof. reflexivity. Qed.

(** A call of the function: the call is recorded, the function runs, and
    the answer comes back as [data] or [error]. *)
Lemma functions_invoke_runs Ω body w :
  exists r w' evs,
    functions_invoke Ω body w = (Return r, w')
    /\ events w' = events w ++ Invoke body :: evs
    /\ Forall server_event evs
    /\ (length (payloads evs) <= 1)%nat
    /\ orders (store w') = orders (store w)
    /\ stamps_drawn w' = stamps_drawn w.
Proof.
  unfold functions_invoke.
  set (w0 := mkWorld (store w) (events w ++ [Invoke body]) (console_errors w)
                     (stamps_drawn w)).
  destruct (serve_runs Ω body w0)
    as (resp & w' & evs & E & Ev & Fs & Lp & Os & Sd).
  assert (G : forall r,
             (mret r : M InvokeResult) w' = (Return r, w')) by reflexivity.
  unfold mbind, M_bind. rewrite emit_run. fold w0. rewrite E.
  destruct (Nat.eqb (resp_status resp) 200), (resp_body resp);
    eexists _, w', evs; (split; [apply G|]);
    (split; [rewrite Ev; simpl; rewrite <- app_assoc; reflexivity|]);
    repeat split; auto.
Qed.

(** A call that comes back with a token. *)
Lemma functions_invoke_success Ω body w t r w' :
  functions_invoke Ω body w
  = (Return {| data := Some (t, r); error := None |}, w') ->
  exists oid amt,
    accepted Ω body oid amt
    /\ orders (store w') = orders (store w)
    /\ stamps_drawn w' = stamps_drawn w
    /\ match batchOrderIds body with
       | Some (b :: ids) =>
           if store_configured Ω
           then batch_orders (store w')
                = batch_orders (store w) ++ batch_rows oid (b :: ids)
           else batch_orders (store w') = batch_orders (store w)
       | _ => batch_orders (store w') = batch_orders (store w)
       end.
Proof.
  unfold functions_invoke.
  set (w0 := mkWorld (store w) (events w ++ [Invoke body]) (console_errors w)
                     (stamps_drawn w)).
  unfold mbind, M_bind. rewrite emit_run. fold w0.
  destruct (serve Ω POST (Some body) w0) as [[resp|e] w1] eqn:E;
    [|discriminate].
  destruct resp as [st bd]. simpl.
  destruct (Nat.eqb st 200) eqn:Est; [|destruct bd; discriminate].
  apply Nat.eqb_eq in Est. subst st.
  destruct bd as [|t' r'|]; try discriminate.
  intros [= <- <- <-].
  destruct (serve_success_inv Ω body w0 _ _ _ E)
    as (oid & amt & Hacc & _ & Os & Sd & Hb).
  exists oid, amt.
  split; [exact Hacc|]. split; [exact Os|]. split; [exact Sd|].
  destruct (batchOrderIds body) as [[|b ids]|].
  - destruct Hb as [-> _]. reflexivity.
  - destruct (store_configured Ω).
    + destruct Hb as [-> _]. reflexivity.
    + destruct Hb as [-> _]. reflexivity.
  - destruct Hb as [-> _]. reflexivity.
Qed.

(** ** The fan-out of a batch *)

Lemma batch_patch_idempotent token bid row :
  apply_patch (batch_patch token bid) (apply_patch (batch_patch token bid) row)
  = apply_patch (batch_patch token bid) row.
Proof. reflexivity. Qed.

(** A stamped row stays stamped. *)
Lemma stamped_orders_keeps Ω l token bid (m : gmap string OrderRow) i row :
  m !! i = Some (apply_patch (batch_patch token bid) row) ->
  stamped_orders Ω l token bid m !! i
  = Some (apply_patch (batch_patch token bid) row).
Proof.
  revert m. induction l as [|o l IH]; intros m Hm; simpl; [exact Hm|].
  apply IH.
  destruct (store_error Ω (UpdateOrder (key o) (batch_patch token bid)));
    [exact Hm|].
  destruct (decide (key o = i)) as [->|Hne].
  - rewrite lookup_alter_eq, Hm. reflexivity.
  - rewrite lookup_alter_ne by exact Hne. exact Hm.
Qed.

(** A row whose update the store carries out ends up stamped, whatever
    happens to the updates of the other orders. *)
Lemma stamped_orders_lookup Ω l token bid (m : gmap string OrderRow) o row :
  o ∈ l ->
  store_error Ω (UpdateOrder (key o) (batch_patch token bid)) = None ->
  m !! key o = Some row ->
  stamped_orders Ω l token bid m !! key o
  = Some (apply_patch (batch_patch token bid) row).
Proof.
  intros Ho Hok. revert m.
  induction l as [|o' l IH]; intros m Hm; [inversion Ho|].
  simpl. apply elem_of_cons in Ho. destruct Ho as [<-|Ho].
  - rewrite Hok. apply stamped_orders_keeps.
    rewrite lookup_alter_eq, Hm. reflexivity.
  - destruct (store_error Ω (UpdateOrder (key o') (batch_patch token bid)))
      eqn:E'; [apply (IH Ho); exact Hm|].
    destruct (decide (key o' = key o)) as [Hk|Hne].
    + apply stamped_orders_keeps.
      rewrite Hk, lookup_alter_eq, Hm. reflexivity.
    + apply (IH Ho). rewrite lookup_alter_ne by exact Hne. exact Hm.
Qed.

(** A row no order of the batch refers to is left alone. *)
Lemma stamped_orders_other Ω l token bid (m : gmap string OrderRow) i :
  i ∉ map key l ->
  stamped_orders Ω l token bid m !! i = m !! i.
Proof.
  revert m. induction l as [|o l IH]; intros m Hi; simpl; [reflexivity|].
  simpl in Hi. apply not_elem_of_cons in Hi. destruct Hi as [Hne Hi].
  rewrite (IH _ Hi).
  destruct (store_error Ω (UpdateOrder (key o) (batch_patch token bid)));
    [reflexivity|].
  apply lookup_alter_ne. congruence.
Qed.

(** The loop: one update request per order, in order; a refused update is
    logged and the loop goes on. *)
Lemma update_batch_orders_run Ω l token bid w :
  exists w' evs,
    update_batch_orders Ω l token bid w = (Return tt, w')
    /\ events w' = events w ++ evs
    /\ store_requests evs = fan_out_requests Ω l token bid
    /\ invoked evs = [] /\ payloads evs = [] /\ widget_opened evs = []
    /\ orders (store w') = stamped_orders Ω l token bid (orders (store w))
    /\ batch_orders (store w') = batch_orders (store w)
    /\ stamps_drawn w' = stamps_drawn w.
Proof.
  revert w. induction l as [|o l IH]; intros w.
  - exists w, []. rewrite app_nil_r. repeat split.
  - simpl. unfold mbind, M_bind, store_request.
    destruct (store_error Ω (UpdateOrder (key o) (batch_patch token bid)))
      as [message|] eqn:E; simpl.
    + match goal with
      | |- context [update_batch_orders Ω l token bid ?w0] =>
          destruct (IH w0)
            as (w' & evs & R & Ev & Sr & In & Pl & Wd & Os & Bs & Sd)
      end.
      exists w', (StoreRequest (UpdateOrder (key o) (batch_patch token bid))
                               false :: evs).
      rewrite R. simpl in *.
      repeat split; auto; try congruence.
      rewrite Ev, <- app_assoc. reflexivity.
    + match goal with
      | |- context [update_batch_orders Ω l token bid ?w0] =>
          destruct (IH w0)
            as (w' & evs & R & Ev & Sr & In & Pl & Wd & Os & Bs & Sd)
      end.
      exists w', (StoreRequest (UpdateOrder (key o) (batch_patch token bid))
                               true :: evs).
      rewrite R. simpl in *.
      repeat split; auto; try congruence.
      rewrite Ev, <- app_assoc. reflexivity.
Qed.

Lemma try_catch_bind {A B} (m : M A) (f : A -> M B) (h : string -> M B) w :
  try_catch (m ≫= f) h w
  = match m w with
    | (Return a, w1) => try_catch (f a) h w1
    | (Throw e, w1) => h e w1
    end.
Proof. unfold try_catch, mbind, M_bind. destruct (m w) as [[a|e] w1]; reflexivity. Qed.

Lemma widget_opened_app a b :
  widget_opened (a ++ b) = widget_opened a ++ widget_opened b.
Proof. apply omap_app. Qed.

Lemma store_requests_app a b :
  store_requests (a ++ b) = store_requests a ++ store_requests b.
Proof. apply omap_app. Qed.

(** What happens once the function has answered: either the batch fails
    with a toast and nothing is written, or the token is fanned out. *)
Lemma batch_settle_run Ω l bid r w :
  exists w' evs,
    try_catch (batch_settle Ω l bid r) batch_failed w = (Return tt, w')
    /\ events w' = events w ++ evs
    /\ invoked evs = [] /\ payloads evs = []
    /\ batch_orders (store w') = batch_orders (store w)
    /\ stamps_drawn w' = stamps_drawn w
    /\ (forall token x,
          r = {| data := Some (Some token, x); error := None |} ->
          token <> "" ->
          orders (store w') = stamped_orders Ω l token bid (orders (store w))
          /\ store_requests evs = fan_out_requests Ω l token bid
          /\ (window_snap Ω = true -> widget_opened evs = [token])).
Proof.
  destruct r as [d [message|]].
  - unfold batch_settle, batch_failed. run_monad.
    eexists _, _. split; [reflexivity|]. simpl.
    do 5 (split; [reflexivity|]). intros token x [=].
  - destruct d as [[[token|] x]|]; unfold batch_settle; simpl.
    + destruct (String.eqb token "") eqn:Et.
      * unfold batch_failed. run_monad.
        eexists _, _. split; [reflexivity|]. simpl.
        do 5 (split; [reflexivity|]).
        intros token' x' [= <- <-] Hne.
        apply String.eqb_eq in Et. contradiction.
      * rewrite try_catch_bind.
        destruct (update_batch_orders_run Ω l token bid w)
          as (w1 & evs & R & Ev & Sr & In & Pl & Wd & Os & Bs & Sd).
        rewrite R. unfold snap_pay, batch_failed.
        destruct (window_snap Ω) eqn:Hw; run_monad;
          (eexists _, (evs ++ [_])); (split; [reflexivity|]); simpl;
          rewrite invoked_app, payloads_app, In, Pl, Ev, app_assoc;
          (do 3 (split; [reflexivity|])); (split; [exact Bs|]);
          (split; [exact Sd|]);
          intros token' x' [= <- <-] Hne;
          (split; [exact Os|]);
          (split; [rewrite store_requests_app, Sr; apply app_nil_r|]);
          [intros _; rewrite widget_opened_app, Wd; reflexivity
          |intros [=]].
    + unfold batch_failed. run_monad.
      eexists _, _. split; [reflexivity|]. simpl.
      do 5 (split; [reflexivity|]). intros token' x' [=].
    + unfold batch_failed. run_monad.
      eexists _, _. split; [reflexivity|]. simpl.
      do 5 (split; [reflexivity|]). intros token' x' [=].
Qed.

(** ** The Batch Payment Aggregator *)

Lemma pending_spec (orders : list Order) (o : Order) :
  o ∈ pending orders <-> o ∈ orders /\ payment_status o = "pending".
Proof. unfold pending. rewrite list_elem_of_filter. tauto. Qed.

Lemma length_eqb_nonempty {A} (l : list A) :
  l <> [] -> (length l =? 0)%nat = false.
Proof. destruct l; [congruence|reflexivity]. Qed.

Lemma pending_nonempty (orders : list Order) :
  pending orders <> [] -> orders <> [].
Proof. intros H ->. apply H. reflexivity. Qed.

(** A run of [processBatchPayment] on a selection with pending orders: the
    batch id is drawn, the function is called once, and its answer is
    settled. *)
Lemma processBatchPayment_pending Ω user selected w :
  pending selected <> [] ->
  let bid := "BATCH-" +:+ stamp Ω (stamps_drawn w) in
  let req := batch_request user (pending selected) bid in
  exists r w1 w' evs1 evs2,
    batch_invocation Ω user selected w = (Return r, w1)
    /\ processBatchPayment Ω user selected w = (Return tt, w')
    /\ events w1 = events w ++ Invoke req :: evs1
    /\ Forall server_event evs1
    /\ (length (payloads evs1) <= 1)%nat
    /\ events w' = events w1 ++ evs2
    /\ invoked evs2 = [] /\ payloads evs2 = []
    /\ orders (store w1) = orders (store w)
    /\ batch_orders (store w') = batch_orders (store w1)
    /\ (forall token x,
          r = {| data := Some (Some token, x); error := None |} ->
          token <> "" ->
          orders (store w')
          = stamped_orders Ω (pending selected) token bid (orders (store w))
          /\ store_requests evs2
             = fan_out_requests Ω (pending selected) token bid
          /\ (window_snap Ω = true -> widget_opened evs2 = [token])).
Proof.
  intros Hp bid req.
  unfold processBatchPayment, batch_invocation.
  rewrite (length_eqb_nonempty _ (pending_nonempty _ Hp)),
    (length_eqb_nonempty _ Hp).
  rewrite try_catch_bind. unfold mbind at 1, M_bind at 1.
  unfold draw_stamp at 1 2. cbv beta iota. fold bid. fold req.
  set (w0 := mkWorld (store w) (events w) (console_errors w)
                     (S (stamps_drawn w))).
  rewrite try_catch_bind.
  destruct (functions_invoke_runs Ω req w0)
    as (r & w1 & evs1 & R & Ev1 & Fs & Lp & Os & Sd).
  rewrite R.
  destruct (batch_settle_run Ω (pending selected) bid r w1)
    as (w' & evs2 & R2 & Ev2 & In & Pl & Bs & Sd2 & Hs).
  exists r, w1, w', evs1, evs2.
  split; [reflexivity|]. split; [exact R2|]. split; [exact Ev1|].
  split; [exact Fs|]. split; [exact Lp|]. split; [exact Ev2|].
  split; [exact In|]. split; [exact Pl|]. split; [exact Os|].
  split; [exact Bs|].
  intros token x Hr Hne. destruct (Hs token x Hr Hne) as (H1 & H2 & H3).
  rewrite H1, Os. auto.
Qed.

Lemma batch_total_from acc (l : list Order) :
  foldl (fun sum (order : Order) => (sum + total_amount order)%Q) acc l
  == acc + Qsum (map (fun order : Order => total_amount order) l).
Proof.
  revert acc. induction l as [|o l IH]; intros acc; simpl.
  - rewrite Qplus_0_r. reflexivity.
  - rewrite IH, Qplus_assoc. reflexivity.
Qed.

Lemma batch_total_sum (l : list Order) :
  batch_total l == Qsum (map (fun order : Order => total_amount order) l).
Proof. unfold batch_total. rewrite batch_total_from. apply Qplus_0_l. Qed.

(** C7 (amended): the Batch Payment Aggregator includes exactly the
    candidate orders with payment_status 'pending'.  With a non-empty
    selection none of which is pending it shows the informational toast and
    calls and writes nothing; with an empty selection it shows an error
    toast and calls and writes nothing.  Otherwise it calls the Gateway
    Transaction Function exactly once, with the sum of the pending orders'
    total_amount as amount, the synthetic "BATCH-..." id as order id, and
    the pending orders' ids as batchOrderIds. *)
Theorem batch_aggregator_calls_once Ω user selected w :
  let run := processBatchPayment Ω user selected w in
  let bid := "BATCH-" +:+ stamp Ω (stamps_drawn w) in
  (forall o : Order,
     o ∈ pending selected <-> o ∈ selected /\ payment_status o = "pending")
  /\ (selected = [] ->
      new_events w run.2
      = [Toast "Error" "Tidak ada pesanan yang dipilih untuk dibayar" true]
      /\ store run.2 = store w)
  /\ (selected <> [] -> pending selected = [] ->
      new_events w run.2
      = [Toast "Info" "Tidak ada pesanan yang perlu dibayar" false]
      /\ store run.2 = store w)
  /\ (pending selected <> [] ->
      invoked (new_events w run.2)
      = [ {| orderId := Some bid;
             amount := Some (batch_total (pending selected));
             customerDetails := Some (batch_customer user);
             itemDetails := Some (batch_item_details (pending selected));
             batchOrderIds := Some (map key (pending selected)) |} ]
      /\ (length (payloads (new_events w run.2)) <= 1)%nat
      /\ batch_total (pending selected)
         == Qsum (map (fun order : Order => total_amount order)
                      (pending selected))).
Proof.
  intros run bid. subst run.
  split; [apply pending_spec|]. split; [|split].
  - intros ->. split; [|reflexivity].
    apply new_events_app. reflexivity.
  - intros Hs Hp. unfold processBatchPayment.
    rewrite (length_eqb_nonempty _ Hs), Hp. simpl.
    split; [|reflexivity]. apply new_events_app. reflexivity.
  - intros Hp.
    destruct (processBatchPayment_pending Ω user selected w Hp)
      as (r & w1 & w' & evs1 & evs2 & _ & R & Ev1 & Fs & Lp & Ev2 & In & Pl & _).
    rewrite R. simpl.
    assert (Ev : events w'
                 = events w
                   ++ Invoke (batch_request user (pending selected) bid)
                      :: evs1 ++ evs2).
    { rewrite Ev2, Ev1, <- app_assoc. reflexivity. }
    rewrite (new_events_app _ _ _ Ev).
    split; [|split].
    + change (invoked ([Invoke (batch_request user (pending selected) bid)]
                       ++ evs1 ++ evs2)
              = [batch_request user (pending selected) bid]).
      rewrite !invoked_app, In.
      rewrite (proj1 (server_events_not_invoked _ Fs)). reflexivity.
    + change (length (payloads ([Invoke (batch_request user (pending selected)
                                                         bid)]
                                ++ evs1 ++ evs2)) <= 1)%nat.
      rewrite !payloads_app, Pl, app_nil_r. exact Lp.
    + apply batch_total_sum.
Qed.

(** The second end-to-end scenario: of the four selected orders the three
    pending ones (10000 + 20000 + 30000) are paid in one call of 60000. *)
Lemma batch_aggregator_calls_once_witness :
  let run := processBatchPayment example_oracle example_user
               [order_A; order_D; order_B; order_C] example_world in
  invoked (new_events example_world run.2)
  = [ {| orderId := Some "BATCH-1700000000000-k3j9x2m10";
         amount := Some 60000%Q;
         customerDetails :=
           Some (batch_customer example_user);
         itemDetails :=
           Some (batch_item_details [order_A; order_B; order_C]);
         batchOrderIds := Some ["A"; "B"; "C"] |} ].
Proof.
  assert (P : pending [order_A; order_D; order_B; order_C] <> []).
  { vm_compute. discriminate. }
  exact (proj1 (proj2 (proj2 (proj2
           (batch_aggregator_calls_once example_oracle example_user
              [order_A; order_D; order_B; order_C] example_world))) P)).
Defined.

(** C7, as stated, fails on an empty selection: no candidate is pending,
    and the aggregator reports an error instead of the informational
    "nothing to pay". *)
Lemma empty_selection_is_an_error :
  pending [] = []
  /\ new_events empty_world
       (processBatchPayment example_oracle example_user [] empty_world).2
     = [Toast "Error" "Tidak ada pesanan yang dipilih untuk dibayar" true]
  /\ new_events empty_world
       (processBatchPayment example_oracle example_user [] empty_world).2
     <> [Toast "Info" "Tidak ada pesanan yang perlu dibayar" false].
Proof. repeat split. discriminate. Qed.

Lemma batch_rows_of_orders bid (l : list Order) :
  batch_rows bid (map key l)
  = map (fun o : Order => {| batch_id := bid; br_order_id := key o |}) l.
Proof. unfold batch_rows. apply map_map. Qed.

(** C3 (amended): after a batch payment call that came back with a token,
    every pending order of the batch whose own update the store carries out
    holds the same (snap_token, midtrans_order_id) pair, the shared token
    and the synthetic batch id; a refused update of one order does not keep
    the other orders from being updated: one update is requested per order.
    When the reconciliation store is configured for the function, one
    batch_orders row per order id, pointing at the batch id, has been
    added; when it is not configured, no batch_orders row is written. *)
Theorem batch_fan_out Ω user selected w token x :
  let bid := "BATCH-" +:+ stamp Ω (stamps_drawn w) in
  let run := processBatchPayment Ω user selected w in
  pending selected <> [] ->
  (batch_invocation Ω user selected w).1
  = Return {| data := Some (Some token, x); error := None |} ->
  token <> "" ->
  (forall (o : Order) row,
     o ∈ pending selected ->
     store_error Ω (UpdateOrder (key o) (batch_patch token bid)) = None ->
     orders (store w) !! key o = Some row ->
     exists row',
       orders (store run.2) !! key o = Some row'
       /\ snap_token row' = Some token
       /\ midtrans_order_id row' = Some bid
       /\ row' = apply_patch (batch_patch token bid) row)
  /\ (exists evs,
        store_requests (new_events w run.2)
        = evs ++ fan_out_requests Ω (pending selected) token bid)
  /\ (store_configured Ω = true ->
      batch_orders (store run.2)
      = batch_orders (store w)
        ++ map (fun o : Order => {| batch_id := bid; br_order_id := key o |})
               (pending selected))
  /\ (store_configured Ω = false ->
      batch_orders (store run.2) = batch_orders (store w)).
Proof.
  intros bid run Hp Hr Hne. subst run.
  destruct (processBatchPayment_pending Ω user selected w Hp)
    as (r & w1 & w' & evs1 & evs2 & Inv & R & Ev1 & Fs & Lp & Ev2 & In & Pl
        & Os & Bs & Hs).
  rewrite Inv in Hr. simpl in Hr. injection Hr as ->.
  destruct (Hs token x eq_refl Hne) as (Ho & Hreq & _).
  rewrite R. simpl.
  unfold batch_invocation, mbind, M_bind, draw_stamp in Inv.
  cbv beta iota in Inv. fold bid in Inv.
  destruct (functions_invoke_success Ω _ _ _ _ _ Inv)
    as (oid & amt & (Hoid & _) & _ & _ & Hb).
  simpl in Hoid. injection Hoid as <-.
  cbn [batchOrderIds batch_request store] in Hb.
  split; [|split; [|split]].
  - intros o row Hin Hok Hrow.
    exists (apply_patch (batch_patch token bid) row).
    split; [|repeat split].
    rewrite Ho. apply stamped_orders_lookup; assumption.
  - exists (store_requests (Invoke (batch_request user (pending selected) bid)
                            :: evs1)).
    assert (Ev : events w'
                 = events w
                   ++ (Invoke (batch_request user (pending selected) bid)
                       :: evs1) ++ evs2).
    { rewrite Ev2, Ev1, <- app_assoc. reflexivity. }
    rewrite (new_events_app _ _ _ Ev), store_requests_app, Hreq.
    reflexivity.
  - intros Hc. rewrite Bs. rewrite Hc in Hb.
    destruct (map key (pending selected)) as [|k ks] eqn:Hk.
    + destruct (pending selected); [congruence|discriminate].
    + rewrite Hb, <- Hk. f_equal. apply batch_rows_of_orders.
  - intros Hc. rewrite Bs. rewrite Hc in Hb.
    destruct (map key (pending selected)) as [|k ks]; exact Hb.
Qed.

(** The fan-out of the scenario [A, B, C] when the store refuses the update
    of B: A and C carry the shared pair, and the three batch rows exist. *)
Lemma batch_fan_out_witness :
  let Ω := with_store_error refuse_update_of_B example_oracle in
  let bid := "BATCH-1700000000000-k3j9x2m10" in
  let run := processBatchPayment Ω example_user [order_A; order_B; order_C]
                                 example_world in
  (exists row',
     orders (store run.2) !! "A" = Some row'
     /\ snap_token row' = Some "snap-token-1"
     /\ midtrans_order_id row' = Some bid)
  /\ (exists row',
        orders (store run.2) !! "C" = Some row'
        /\ snap_token row' = Some "snap-token-1"
        /\ midtrans_order_id row' = Some bid)
  /\ batch_orders (store run.2)
     = [ {| batch_id := bid; br_order_id := "A" |};
         {| batch_id := bid; br_order_id := "B" |};
         {| batch_id := bid; br_order_id := "C" |} ].
Proof.
  intros Ω bid run.
  assert (P : pending [order_A; order_B; order_C] <> []).
  { vm_compute. discriminate. }
  assert (I : (batch_invocation Ω example_user [order_A; order_B; order_C]
                                example_world).1
              = Return {| data := Some (Some "snap-token-1",
                                        Some "https://pay.example/redirect/1");
                          error := None |}).
  { vm_compute. reflexivity. }
  assert (N : "snap-token-1" <> "") by discriminate.
  destruct (batch_fan_out Ω example_user [order_A; order_B; order_C]
              example_world _ _ P I N) as (Hrows & _ & Hb & _).
  split; [|split].
  - destruct (Hrows order_A (columns order_A)) as (row' & H1 & H2 & H3 & _).
    + vm_compute. constructor.
    + reflexivity.
    + reflexivity.
    + exists row'. auto.
  - destruct (Hrows order_C (columns order_C)) as (row' & H1 & H2 & H3 & _).
    + vm_compute. do 2 constructor. constructor.
    + reflexivity.
    + reflexivity.
    + exists row'. auto.
  - exact (Hb eq_refl).
Defined.

(** C3, as stated, fails when the function runs without store
    configuration: the batch call succeeds and the orders are stamped, but
    no batch_orders row exists for any of them. *)
Lemma batch_rows_missing_without_store_configuration :
  let Ω := with_env unconfigured_env example_oracle in
  let run := processBatchPayment Ω example_user [order_A; order_B; order_C]
                                 example_world in
  (batch_invocation Ω example_user [order_A; order_B; order_C]
                    example_world).1
  = Return {| data := Some (Some "snap-token-1",
                            Some "https://pay.example/redirect/1");
              error := None |}
  /\ snap_token <$> orders (store run.2) !! "A" = Some (Some "snap-token-1")
  /\ widget_opened (new_events example_world run.2) = ["snap-token-1"]
  /\ batch_orders (store run.2) = [].
Proof. vm_compute. repeat split. Qed.

(** ** The retry path *)

(** Settling the answer of the function never calls the function again. *)
Lemma retry_settle_run Ω order r w :
  exists w' evs,
    try_catch (retry_settle Ω order r) retry_failed w = (Return tt, w')
    /\ events w' = events w ++ evs
    /\ invoked evs = [] /\ payloads evs = [].
Proof.
  unfold retry_settle, retry_failed, snap_pay.
  destruct r as [d [message|]]; simpl.
  - run_monad. eexists _, _. split; [reflexivity|]. simpl.
    split; [reflexivity|]. split; reflexivity.
  - destruct d as [[snap x]|].
    + destruct (truthy_str snap).
      * run_monad.
        destruct (store_error Ω
                    (UpdateOrder (key order) (token_patch (default "" snap))));
          destruct (window_snap Ω); simpl;
          eexists _, [_; _]; (split; [reflexivity|]); simpl;
          rewrite <- app_assoc; repeat split.
      * run_monad. eexists _, _. split; [reflexivity|]. simpl.
        split; [reflexivity|]. split; reflexivity.
    + run_monad. eexists _, _. split; [reflexivity|]. simpl.
      split; [reflexivity|]. split; reflexivity.
Qed.

Lemma truthy_str_Some token :
  token <> "" -> truthy_str (Some token) = true.
Proof. intros H. simpl. rewrite (eqb_nonempty _ H). reflexivity. Qed.

(** The gateway order id of an order without token: the stored one, or a
    generated one that is persisted first. *)
Lemma ensure_midtrans_order_id_present Ω (order : Order) oid w :
  midtrans_order_id order = Some oid -> oid <> "" ->
  ensure_midtrans_order_id Ω order w = (Return oid, w).
Proof.
  intros Ho Hne. unfold ensure_midtrans_order_id.
  rewrite Ho, (truthy_str_Some _ Hne). reflexivity.
Qed.

Lemma ensure_midtrans_order_id_generated Ω (order : Order) w :
  truthy_str (midtrans_order_id order) = false ->
  let oid := "ORDER-" +:+ stamp Ω (stamps_drawn w) in
  let persist := UpdateOrder (key order) (midtrans_id_patch oid) in
  store_error Ω persist = None ->
  ensure_midtrans_order_id Ω order w
  = (Return oid,
     mkWorld (apply_op persist (store w))
             (events w ++ [StoreRequest persist true]) (console_errors w)
             (S (stamps_drawn w))).
Proof.
  intros Hm oid persist Hok. unfold ensure_midtrans_order_id.
  rewrite Hm. run_monad. fold oid. fold (midtrans_id_patch oid).
  fold persist. rewrite Hok. reflexivity.
Qed.

Lemma ensure_midtrans_order_id_refused Ω (order : Order) w message :
  truthy_str (midtrans_order_id order) = false ->
  let oid := "ORDER-" +:+ stamp Ω (stamps_drawn w) in
  let persist := UpdateOrder (key order) (midtrans_id_patch oid) in
  store_error Ω persist = Some message ->
  ensure_midtrans_order_id Ω order w
  = (Throw message,
     mkWorld (store w) (events w ++ [StoreRequest persist false])
             (console_errors w ++ ["Error updating order:"])
             (S (stamps_drawn w))).
Proof.
  intros Hm oid persist Hf. unfold ensure_midtrans_order_id.
  rewrite Hm. run_monad. fold oid. fold (midtrans_id_patch oid).
  fold persist. rewrite Hf. reflexivity.
Qed.

(** C4 (amended): for every order whose cached snap_token is a non-empty
    string, the retry path never invokes the Gateway Transaction Function,
    never calls the gateway and writes nothing; it opens the payment widget
    with the cached token when the widget is loaded, and reports an error
    otherwise.  When snap_token is null (or empty), the path first
    generates and persists a midtrans_order_id if the order has none, and
    then requests a fresh token with that id; with a midtrans_order_id
    present the request is the first thing it does; if persisting the
    generated id fails, no token is requested. *)
Theorem retry_reuses_cached_token Ω user (order : Order) w :
  let run := retryPayment Ω user order w in
  (forall token,
     snap_token order = Some token -> token <> "" ->
     invoked (new_events w run.2) = []
     /\ payloads (new_events w run.2) = []
     /\ store run.2 = store w
     /\ (window_snap Ω = true -> new_events w run.2 = [SnapPay token])
     /\ (window_snap Ω = false ->
         new_events w run.2
         = [Toast "Error" "Midtrans Snap belum loaded" true]))
  /\ (truthy_str (snap_token order) = false ->
      (forall oid,
         midtrans_order_id order = Some oid -> oid <> "" ->
         exists evs,
           new_events w run.2 = Invoke (retry_request user order oid) :: evs
           /\ invoked evs = [])
      /\ (truthy_str (midtrans_order_id order) = false ->
          let oid := "ORDER-" +:+ stamp Ω (stamps_drawn w) in
          let persist := UpdateOrder (key order) (midtrans_id_patch oid) in
          (store_error Ω persist = None ->
           exists evs,
             new_events w run.2
             = StoreRequest persist true
               :: Invoke (retry_request user order oid) :: evs
             /\ invoked evs = [])
          /\ (forall message,
                store_error Ω persist = Some message ->
                invoked (new_events w run.2) = []
                /\ payloads (new_events w run.2) = []
                /\ store run.2 = store w))).
Proof.
  intros run. subst run. split.
  - intros token Ht Hne. unfold retryPayment, retry_failed, snap_pay.
    rewrite Ht, (truthy_str_Some _ Hne). simpl.
    destruct (window_snap Ω); run_monad;
      erewrite (new_events_app w) by (simpl; reflexivity);
      repeat split; try reflexivity; discriminate.
  - intros Hs. unfold retryPayment. rewrite Hs.
    rewrite try_catch_bind. split.
    + intros oid Ho Hne.
      rewrite (ensure_midtrans_order_id_present Ω order oid w Ho Hne).
      rewrite try_catch_bind.
      destruct (functions_invoke_runs Ω (retry_request user order oid) w)
        as (r & w1 & evs1 & R & Ev1 & Fs & _).
      rewrite R.
      destruct (retry_settle_run Ω order r w1)
        as (w' & evs2 & R2 & Ev2 & In & _).
      rewrite R2. simpl. exists (evs1 ++ evs2). split.
      * apply new_events_app. rewrite Ev2, Ev1, <- app_assoc. reflexivity.
      * rewrite invoked_app, In, (proj1 (server_events_not_invoked _ Fs)).
        reflexivity.
    + intros Hm.
      set (oid := "ORDER-" +:+ stamp Ω (stamps_drawn w)).
      set (persist := UpdateOrder (key order) (midtrans_id_patch oid)).
      split.
      * intros Hok.
        rewrite (ensure_midtrans_order_id_generated Ω order w Hm Hok).
        fold oid. fold persist.
        set (wp := mkWorld (apply_op persist (store w))
                           (events w ++ [StoreRequest persist true])
                           (console_errors w) (S (stamps_drawn w))).
        rewrite try_catch_bind.
        destruct (functions_invoke_runs Ω (retry_request user order oid) wp)
          as (r & w1 & evs1 & R & Ev1 & Fs & _).
        rewrite R.
        destruct (retry_settle_run Ω order r w1)
          as (w' & evs2 & R2 & Ev2 & In & _).
        rewrite R2. simpl. exists (evs1 ++ evs2). split.
        -- apply new_events_app. rewrite Ev2, Ev1. subst wp. simpl.
           rewrite <- !app_assoc. reflexivity.
        -- rewrite invoked_app, In, (proj1 (server_events_not_invoked _ Fs)).
           reflexivity.
      * intros message Hf.
        rewrite (ensure_midtrans_order_id_refused Ω order w message Hm Hf).
        fold oid. fold persist. unfold retry_failed. run_monad.
        erewrite (new_events_app w)
          by (simpl; rewrite <- app_assoc; reflexivity).
        repeat split.
Qed.

(** Retrying an order with a cached token opens the widget with it and
    does nothing else. *)
Lemma retry_reuses_cached_token_witness :
  let run := retryPayment example_oracle example_user order_with_token
                          example_world in
  invoked (new_events example_world run.2) = []
  /\ store run.2 = store example_world
  /\ new_events example_world run.2 = [SnapPay "cached-token"].
Proof.
  intros run.
  destruct (proj1 (retry_reuses_cached_token example_oracle example_user
                     order_with_token example_world)
                  "cached-token" eq_refl)
    as (H1 & _ & H3 & H4 & _).
  - discriminate.
  - split; [exact H1|]. split; [exact H3|]. exact (H4 eq_refl).
Defined.

(** C4, as stated, fails twice.  A cached token that is the empty string
    is not null, and the retry path requests a fresh token all the same;
    and with a cached token but the widget not loaded, the widget is not
    opened. *)
Lemma retry_claim_fails :
  (snap_token order_with_empty_token <> None
   /\ invoked
        (new_events example_world
           (retryPayment example_oracle example_user order_with_empty_token
                         example_world).2)
      = [retry_request example_user order_with_empty_token
                       "ORDER-1700000000000-abc"]
   /\ length
        (payloads
           (new_events example_world
              (retryPayment example_oracle example_user
                            order_with_empty_token example_world).2))
      = 1%nat)
  /\ (snap_token order_with_token <> None
      /\ widget_opened
           (new_events example_world
              (retryPayment (with_widget false example_oracle) example_user
                            order_with_token example_world).2)
         = []).
Proof.
  split; (split; [discriminate|]); vm_compute; repeat split.
Qed.

(** ** The Checkout Aggregator *)

(** C8 (amended): when the order row has been created and the insertion of
    its line items fails, the aggregator requests the deletion of the order
    it just created (a best-effort clean-up: the answer of the store is not
    inspected) and fails the checkout with the error "Gagal menyimpan
    detail pesanan"; it never reaches the payment function.  When the store
    carries the deletion out, the created order is gone and no line item
    was added: the Order Store holds no orphaned order (it is the store it
    was before the checkout, the key of the new order being fresh). *)
Theorem checkout_rolls_back_order Ω h cartItems w u selectedChild :
  user h = Some u ->
  cartItems <> [] ->
  let childIdToUse :=
    str_or (Some (selectedChildId h))
           (default "" (head cartItems ≫= child_id)) in
  childIdToUse <> "" ->
  find_selected_child (children h) cartItems childIdToUse
  = Some selectedChild ->
  let row := new_order h u ("ORDER-" +:+ stamp Ω (stamps_drawn w))
                       (cart_total cartItems) selectedChild in
  let oid := new_order_id Ω in
  let rows := checkout_line_items Ω oid childIdToUse selectedChild
                                  cartItems in
  store_error Ω (InsertOrder oid row) = None ->
  forall message,
    store_error Ω (InsertLineItems rows) = Some message ->
    let run := handleCheckout Ω h cartItems w in
    run.1 = Throw "Gagal menyimpan detail pesanan"
    /\ store_requests (new_events w run.2)
       = [ (InsertOrder oid row, true);
           (InsertLineItems rows, false);
           (DeleteOrder oid,
            bool_decide (store_error Ω (DeleteOrder oid) = None)) ]
    /\ invoked (new_events w run.2) = []
    /\ payloads (new_events w run.2) = []
    /\ last (new_events w run.2)
       = Some (Toast "Error" "Gagal menyimpan detail pesanan" true)
    /\ (store_error Ω (DeleteOrder oid) = None ->
        orders (store run.2) !! oid = None
        /\ orders (store run.2) = delete oid (orders (store w))
        /\ order_line_items (store run.2) = order_line_items (store w)
        /\ (orders (store w) !! oid = None -> store run.2 = store w)).
Proof.
  intros Hu Hc childIdToUse Hne Hchild row oid rows Hok message Hf run.
  subst run. unfold handleCheckout.
  rewrite Hu, (length_eqb_nonempty _ Hc). fold childIdToUse.
  rewrite (eqb_nonempty _ Hne), Hchild.
  unfold try_catch, mbind, M_bind, draw_stamp, store_request.
  cbv beta iota zeta. cbn [fst snd store events console_errors stamps_drawn].
  fold oid. fold row. rewrite Hok.
  cbv beta iota zeta. cbn [fst snd store events console_errors stamps_drawn].
  fold rows. rewrite Hf.
  cbv beta iota zeta. cbn [fst snd store events console_errors stamps_drawn].
  unfold console_error, throw, toast, emit.
  cbv beta iota zeta. cbn [fst snd store events console_errors stamps_drawn].
  destruct (store_error Ω (DeleteOrder oid)) as [refused|] eqn:Hd;
    cbn [fst snd store events console_errors stamps_drawn];
    (split; [reflexivity|]);
    erewrite (new_events_app w)
      by (cbn [events]; rewrite <- !app_assoc; reflexivity);
    (do 4 (split; [reflexivity|])).
  - intros [=].
  - intros _. cbn [apply_op orders order_line_items].
    split; [apply lookup_delete_eq|]. split; [apply delete_insert_eq|].
    split; [reflexivity|].
    intros Hfresh. destruct (store w) as [o li b p c]. simpl in *.
    f_equal. apply delete_insert_id. exact Hfresh.
Qed.

(** The checkout of the example cart against a store that refuses the line
    items: the order is inserted, deleted again, and the store is as it
    was. *)
Lemma checkout_rolls_back_order_witness :
  let Ω := with_store_error refuse_line_items example_oracle in
  let run := handleCheckout Ω example_hook example_cart example_world in
  run.1 = Throw "Gagal menyimpan detail pesanan"
  /\ invoked (new_events example_world run.2) = []
  /\ store run.2 = store example_world.
Proof.
  intros Ω run.
  destruct (checkout_rolls_back_order Ω example_hook example_cart
              example_world
              {| uid := "parent-1"; user_email := Some "ibu@example.com";
                 full_name := Some "Ibu Budi"; user_phone := None |}
              {| ch_id := "child-1"; ch_name := "Budi"; class_name := "3A" |}
              eq_refl)
    with (message := "violates foreign key constraint")
    as (H1 & _ & H3 & _ & _ & H6).
  - discriminate.
  - discriminate.
  - reflexivity.
  - reflexivity.
  - reflexivity.
  - split; [exact H1|]. split; [exact H3|].
    destruct (H6 eq_refl) as (_ & _ & _ & H). apply H. reflexivity.
Defined.

(** C8, as stated, fails when the store refuses the deletion as well: the
    checkout fails with the same error, and the order it created stays in
    the Order Store without any line item. *)
Lemma refused_rollback_leaves_orphan :
  let Ω := with_store_error refuse_line_items_and_delete example_oracle in
  let run := handleCheckout Ω example_hook example_cart example_world in
  run.1 = Throw "Gagal menyimpan detail pesanan"
  /\ store_requests (new_events example_world run.2)
     = [ (InsertOrder "order-new"
            (checkout_order Ω example_hook
               {| uid := "parent-1"; user_email := Some "ibu@example.com";
                  full_name := Some "Ibu Budi"; user_phone := None |}
               example_cart
               {| ch_id := "child-1"; ch_name := "Budi"; class_name := "3A" |}
               example_world), true);
         (InsertLineItems
            (checkout_rows Ω example_hook example_cart
               {| ch_id := "child-1"; ch_name := "Budi"; class_name := "3A" |}),
          false);
         (DeleteOrder "order-new", false) ]
  /\ orders (store example_world) !! "order-new" = None
  /\ is_Some (orders (store run.2) !! "order-new")
  /\ order_line_items (store run.2) = [].
Proof.
  intros Ω run. split; [vm_compute; reflexivity|].
  split; [vm_compute; reflexivity|]. split; [reflexivity|].
  split; [|vm_compute; reflexivity].
  eexists. vm_compute. reflexivity.
Qed.

(** ** Cash settlement *)

Lemma Qle_bool_false a b : (b < a)%Q -> Qle_bool a b = false.
Proof.
  intros H. apply not_true_is_false. intros E. apply Qle_bool_iff in E.
  apply (Qlt_irrefl b). eapply Qlt_le_trans; eauto.
Qed.

(** [handlePayment] of CashPaymentV2 with too little money (or no number
    at all): an error toast, and nothing else. *)
Lemma handlePayment_rejects Ω (order : Order) received w :
  match received with
  | Some r => (r < total_amount order)%Q
  | None => True
  end ->
  handlePayment Ω {| selectedOrder := Some order;
                     receivedAmount := received |} w
  = (Return tt,
     mkWorld (store w)
             (events w
              ++ [Toast "Error"
                    "Jumlah uang yang diterima kurang dari total pembayaran"
                    true])
             (console_errors w) (stamps_drawn w)).
Proof.
  intros H. unfold handlePayment, isValidPayment. simpl.
  destruct received as [r|]; [rewrite (Qle_bool_false _ _ H)|]; reflexivity.
Qed.

(** [handlePayment] with enough money, the store carrying out both
    requests: the order is updated first, the payment recorded after. *)
Lemma handlePayment_settles Ω (order : Order) r w :
  (total_amount order <= r)%Q ->
  let transactionId := "CASH-" +:+ stamp Ω (stamps_drawn w) in
  store_error Ω (UpdateOrder (key order) paid_confirmed) = None ->
  store_error Ω (InsertPayment (cash_payment_row order transactionId))
  = None ->
  handlePayment Ω {| selectedOrder := Some order;
                     receivedAmount := Some r |} w
  = (Return tt,
     mkWorld (apply_op (InsertPayment (cash_payment_row order transactionId))
                (apply_op (UpdateOrder (key order) paid_confirmed) (store w)))
             (events w
              ++ [StoreRequest (UpdateOrder (key order) paid_confirmed) true;
                  StoreRequest
                    (InsertPayment (cash_payment_row order transactionId))
                    true;
                  Toast "Pembayaran Berhasil"
                        "Pembayaran tunai telah diproses" false])
             (console_errors w) (S (stamps_drawn w))).
Proof.
  intros H transactionId H1 H2. unfold handlePayment, isValidPayment.
  cbn [selectedOrder receivedAmount].
  apply Qle_bool_iff in H. rewrite H.
  unfold try_catch, mbind, M_bind, draw_stamp, store_request.
  cbv beta iota zeta. cbn [store events console_errors stamps_drawn].
  rewrite H1. cbv beta iota zeta.
  cbn [store events console_errors stamps_drawn].
  fold transactionId. fold (cash_payment_row order transactionId).
  rewrite H2. unfold toast, emit. cbv beta iota zeta.
  cbn [store events console_errors stamps_drawn].
  rewrite <- !app_assoc. reflexivity.
Qed.

(** [processPayment] of CashierPaymentV2 with too little money. *)
Lemma processPayment_rejects Ω formatPrice c (order : Order) w :
  cashier_selectedOrder c = Some order ->
  (cashier_receivedAmount c < paymentAmount c)%Q ->
  processPayment Ω formatPrice c w
  = (Return tt,
     mkWorld (store w)
             (events w
              ++ [Toast "Error"
                    "Jumlah uang yang diterima kurang dari total pembayaran"
                    true])
             (console_errors w) (stamps_drawn w)).
Proof.
  intros Hs H. unfold processPayment. rewrite Hs.
  rewrite (Qle_bool_false _ _ H). reflexivity.
Qed.

(** [processPayment] with enough money, the store carrying out both
    requests: the cash payment is recorded first, the order updated
    after. *)
Lemma processPayment_settles Ω formatPrice c (order : Order) w :
  cashier_selectedOrder c = Some order ->
  (paymentAmount c <= cashier_receivedAmount c)%Q ->
  store_error Ω (InsertCashPayment (cashier_payment_row Ω c order)) = None ->
  store_error Ω (UpdateOrder (key order) paid_cash) = None ->
  processPayment Ω formatPrice c w
  = (Return tt,
     mkWorld (apply_op (UpdateOrder (key order) paid_cash)
                (apply_op (InsertCashPayment (cashier_payment_row Ω c order))
                          (store w)))
             (events w
              ++ [StoreRequest
                    (InsertCashPayment (cashier_payment_row Ω c order)) true;
                  StoreRequest (UpdateOrder (key order) paid_cash) true;
                  Toast "Berhasil"
                        ("Pembayaran berhasil diproses. Kembalian: "
                         +:+ formatPrice (cashier_receivedAmount c
                                          - paymentAmount c)%Q)
                        false])
             (console_errors w) (stamps_drawn w)).
Proof.
  intros Hs H H1 H2. unfold processPayment. rewrite Hs.
  apply Qle_bool_iff in H. rewrite H. cbn [negb].
  unfold try_catch, mbind, M_bind, store_request.
  fold (cashier_payment_row Ω c order). rewrite H1.
  cbv beta iota zeta. cbn [store events console_errors stamps_drawn].
  rewrite H2. unfold toast, emit. cbv beta iota zeta.
  cbn [store events console_errors stamps_drawn].
  rewrite <- !app_assoc. reflexivity.
Qed.

(** X27: what the two cashier paths do.  On both paths a received amount
    strictly less than the order's total_amount (or no number at all) is
    rejected before anything is submitted: no store request is made, no
    payment row is written, the order is unchanged.  With a received
    amount of at least total_amount and the store carrying the requests
    out,
    - [handlePayment] (CashPaymentV2) updates the order to payment_status
      'paid' and status 'confirmed' and records a payments row with method
      'cash' and the order's total as amount; the change, received minus
      total, is computed for display;
    - [processPayment] (CashierPaymentV2) records a cash_payments row with
      the received amount and change = received minus total, and updates
      the order to payment_status 'paid' with payment_method 'cash'. *)
Theorem cash_settlement Ω formatPrice (order : Order) w row :
  orders (store w) !! key order = Some row ->
  (forall received,
     match received with
     | Some r => (r < total_amount order)%Q
     | None => True
     end ->
     let run := handlePayment Ω {| selectedOrder := Some order;
                                   receivedAmount := received |} w in
     store run.2 = store w /\ store_requests (new_events w run.2) = [])
  /\ (forall r,
        (total_amount order <= r)%Q ->
        let c := {| selectedOrder := Some order;
                    receivedAmount := Some r |} in
        let pay := cash_payment_row order
                     ("CASH-" +:+ stamp Ω (stamps_drawn w)) in
        store_error Ω (UpdateOrder (key order) paid_confirmed) = None ->
        store_error Ω (InsertPayment pay) = None ->
        let run := handlePayment Ω c w in
        changeAmount c = Some (r - total_amount order)%Q
        /\ payments (store run.2) = payments (store w) ++ [pay]
        /\ pay_payment_method pay = "cash"
        /\ pay_amount pay = total_amount order
        /\ exists row',
             orders (store run.2) !! key order = Some row'
             /\ payment_status row' = "paid"
             /\ status row' = "confirmed")
  /\ (forall c,
        cashier_selectedOrder c = Some order ->
        paymentAmount c = total_amount order ->
        let run := processPayment Ω formatPrice c w in
        ((cashier_receivedAmount c < total_amount order)%Q ->
         store run.2 = store w /\ store_requests (new_events w run.2) = [])
        /\ ((total_amount order <= cashier_receivedAmount c)%Q ->
            let cash := cashier_payment_row Ω c order in
            store_error Ω (InsertCashPayment cash) = None ->
            store_error Ω (UpdateOrder (key order) paid_cash) = None ->
            cash_payments (store run.2) = cash_payments (store w) ++ [cash]
            /\ received_amount cash = cashier_receivedAmount c
            /\ change_amount cash
               = (cashier_receivedAmount c - total_amount order)%Q
            /\ exists row',
                 orders (store run.2) !! key order = Some row'
                 /\ payment_status row' = "paid"
                 /\ payment_method row' = Some "cash")).
Proof.
  intros Hrow. split; [|split].
  - intros received H run. subst run.
    rewrite (handlePayment_rejects Ω order received w H). simpl.
    split; [reflexivity|].
    erewrite (new_events_app w) by (simpl; reflexivity). reflexivity.
  - intros r H c pay H1 H2 run. subst run c.
    rewrite (handlePayment_settles Ω order r w H H1 H2). fold pay.
    cbn [snd store apply_op payments orders].
    split; [reflexivity|]. split; [reflexivity|]. split; [reflexivity|].
    split; [reflexivity|].
    exists (apply_patch paid_confirmed row).
    rewrite lookup_alter_eq, Hrow. repeat split.
  - intros c Hs Hp run. subst run. split.
    + intros H. rewrite <- Hp in H.
      rewrite (processPayment_rejects Ω formatPrice c order w Hs H). simpl.
      split; [reflexivity|].
      erewrite (new_events_app w) by (simpl; reflexivity). reflexivity.
    + intros H cash H1 H2. rewrite <- Hp in H.
      rewrite (processPayment_settles Ω formatPrice c order w Hs H H1 H2).
      fold cash. cbn [snd store apply_op cash_payments orders].
      split; [reflexivity|]. split; [reflexivity|].
      split; [unfold cash, cashier_payment_row; simpl; rewrite Hp;
              reflexivity|].
      exists (apply_patch paid_cash row).
      rewrite lookup_alter_eq, Hrow. repeat split.
Qed.

(** The third and fourth end-to-end scenarios on an order of 50000: 45000
    is rejected and nothing is written; 100000 is settled with a change of
    50000. *)
Lemma cash_settlement_witness :
  (let run := handlePayment example_oracle
                {| selectedOrder := Some order_50000;
                   receivedAmount := Some 45000%Q |} cashier_world in
   store run.2 = store cashier_world)
  /\ (let c := {| selectedOrder := Some order_50000;
                  receivedAmount := Some 100000%Q |} in
      let run := handlePayment example_oracle c cashier_world in
      changeAmount c = Some (100000 - 50000)%Q
      /\ exists row',
           orders (store run.2) !! "G" = Some row'
           /\ payment_status row' = "paid" /\ status row' = "confirmed")
  /\ (let c := setReceivedAmount 100000 (handleViewDetail order_50000) in
      let run := processPayment example_oracle example_formatPrice c
                                cashier_world in
      exists cash,
        cash_payments (store run.2) = [cash]
        /\ change_amount cash = (100000 - 50000)%Q).
Proof.
  destruct (cash_settlement example_oracle example_formatPrice order_50000
              cashier_world (columns order_50000) eq_refl)
    as (H1 & H2 & H3).
  split; [|split].
  - apply (H1 (Some 45000%Q)). reflexivity.
  - destruct (H2 100000%Q) as (Hc & _ & _ & _ & Hr);
      [discriminate|reflexivity|reflexivity|].
    split; [exact Hc|exact Hr].
  - destruct (H3 (setReceivedAmount 100000 (handleViewDetail order_50000))
                 eq_refl eq_refl) as (_ & H).
    destruct H as (Hc & _ & Hch & _);
      [discriminate|reflexivity|reflexivity|].
    eexists. split; [exact Hc|exact Hch].
Defined.

(** C9: [processPayment] of the cashier page misses the status.  100000
    received against an order of 50000 is settled, the cash payment carries
    the change of 50000 and the order becomes 'paid', but its status is not
    set to 'confirmed': it stays 'pending'.  [handlePayment] of
    CashPaymentV2, given the same order and the same money, sets it. *)
Lemma cashier_settlement_leaves_status :
  let c := setReceivedAmount 100000 (handleViewDetail order_50000) in
  let run := processPayment example_oracle example_formatPrice c
                            cashier_world in
  let sibling := handlePayment example_oracle
                   {| selectedOrder := Some order_50000;
                      receivedAmount := Some 100000%Q |} cashier_world in
  payment_status <$> orders (store run.2) !! "G" = Some "paid"
  /\ change_amount <$> head (cash_payments (store run.2))
     = Some (100000 - 50000)%Q
  /\ status <$> orders (store run.2) !! "G" = Some "pending"
  /\ status <$> orders (store run.2) !! "G" <> Some "confirmed"
  /\ status <$> orders (store sibling.2) !! "G" = Some "confirmed".
Proof. vm_compute. repeat split. discriminate. Qed.

(** * Further properties of the workflow *)

(** ** The Gateway Transaction Function: answers and failures *)

Lemma only_batch_rows_added_refl s : only_batch_rows_added s s.
Proof.
  repeat split. exists []. symmetry. apply app_nil_r.
Qed.

Lemma only_batch_rows_added_insert rows s :
  only_batch_rows_added s (apply_op (InsertBatchOrders rows) s).
Proof. repeat split. exists rows. reflexivity. Qed.

Lemma gateway_response_status reply :
  resp_status (gateway_response reply) = 200
  \/ (resp_status (gateway_response reply) = 500
      /\ exists e d,
           resp_body (gateway_response reply) = ErrorBody e d "Error"
           /\ e <> "").
Proof.
  destruct reply; simpl; [right|right|left; reflexivity];
    (split; [reflexivity|]); eexists _, _; (split; [reflexivity|]);
    discriminate.
Qed.

(** Every way in which a request can fail before the gateway is reached
    ends in a 500 answer with a message. *)
Lemma create_payment_rejected Ω body w :
  match body with
  | Some req => validated Ω req = None
  | None => True
  end ->
  exists e w',
    serve Ω POST body w
    = (Return {| resp_status := 500;
                 resp_body := ErrorBody e ("Error: " +:+ e) "Error" |}, w')
    /\ e <> ""
    /\ events w' = events w
    /\ store w' = store w
    /\ stamps_drawn w' = stamps_drawn w.
Proof.
  unfold validated, serve, create_payment, error_response.
  destruct body as [req|];
    [|intros _; run_monad; eexists _, _; repeat split; discriminate].
  destruct (orderId req) as [o|];
    [|intros _; run_monad; eexists _, _; repeat split; discriminate].
  destruct (String.eqb o "");
    [intros _; run_monad; eexists _, _; repeat split; discriminate|].
  destruct (amount req) as [a|];
    [|intros _; run_monad; eexists _, _; repeat split; discriminate].
  destruct (Qeq_bool a 0 || Qle_bool a 0);
    [intros _; run_monad; eexists _, _; repeat split; discriminate|].
  destruct (truthy_str (MIDTRANS_SERVER_KEY (deno_env Ω)));
    [discriminate|].
  intros _. run_monad. eexists _, _; repeat split; discriminate.
Qed.

(** X1: the function always answers.  Whatever the method, the body, the
    environment and the gateway's reply, no exception escapes: the answer
    has status 200, or status 500 with a non-empty error message.  An
    OPTIONS request is answered with an empty 200 and changes nothing.  No
    run draws an id or touches a table other than [batch_orders]. *)
Theorem serve_always_answers Ω method body w :
  exists resp w',
    serve Ω method body w = (Return resp, w')
    /\ (resp_status resp = 200
        \/ (resp_status resp = 500
            /\ exists e d, resp_body resp = ErrorBody e d "Error" /\ e <> ""))
    /\ (method = OPTIONS -> resp_body resp = EmptyBody /\ w' = w)
    /\ only_batch_rows_added (store w) (store w')
    /\ stamps_drawn w' = stamps_drawn w.
Proof.
  assert (P : exists resp w',
             serve Ω POST body w = (Return resp, w')
             /\ (resp_status resp = 200
                 \/ (resp_status resp = 500
                     /\ exists e d,
                          resp_body resp = ErrorBody e d "Error" /\ e <> ""))
             /\ only_batch_rows_added (store w) (store w')
             /\ stamps_drawn w' = stamps_drawn w).
  { assert (R : (match body with
                 | Some req => validated Ω req = None
                 | None => True
                 end) ->
                exists resp w',
                  serve Ω POST body w = (Return resp, w')
                  /\ (resp_status resp = 200
                      \/ (resp_status resp = 500
                          /\ exists e d,
                               resp_body resp = ErrorBody e d "Error"
                               /\ e <> ""))
                  /\ only_batch_rows_added (store w) (store w')
                  /\ stamps_drawn w' = stamps_drawn w).
    { intros H.
      destruct (create_payment_rejected Ω body w H)
        as (e & w' & E & Hne & _ & St & Sd).
      eexists _, w'. split; [exact E|]. split.
      - right. split; [reflexivity|]. eauto.
      - split; [rewrite St; apply only_batch_rows_added_refl|exact Sd]. }
    destruct body as [req|]; [|apply R; exact I].
    destruct (validated Ω req) as [[oid amt]|] eqn:V; [|apply R; reflexivity].
    apply validated_accepted in V.
    destruct (batchOrderIds req) as [[|b ids]|] eqn:Hb;
      [| destruct (store_configured Ω) eqn:Hc;
         [destruct (store_error Ω
                      (InsertBatchOrders (batch_rows oid (b :: ids))))
            as [message|] eqn:He|] |].
    - destruct (serve_without_mapping Ω req oid amt w V)
        as (w' & E & _ & St & Sd); [auto|].
      eexists _, w'. split; [exact E|].
      split; [apply gateway_response_status|].
      split; [rewrite St; apply only_batch_rows_added_refl|exact Sd].
    - destruct (serve_mapping_failed Ω req oid amt b ids message w
                  V Hb Hc He) as (w' & E & _ & St & Sd).
      eexists _, w'. split; [exact E|]. split.
      + right. split; [reflexivity|]. eexists _, _.
        split; [reflexivity|discriminate].
      + split; [rewrite St; apply only_batch_rows_added_refl|exact Sd].
    - destruct (serve_mapping_saved Ω req oid amt b ids w V Hb Hc He)
        as (w' & E & _ & St & Sd).
      eexists _, w'. split; [exact E|].
      split; [apply gateway_response_status|].
      split; [rewrite St; apply only_batch_rows_added_insert|exact Sd].
    - destruct (serve_without_mapping Ω req oid amt w V)
        as (w' & E & _ & St & Sd); [auto|].
      eexists _, w'. split; [exact E|].
      split; [apply gateway_response_status|].
      split; [rewrite St; apply only_batch_rows_added_refl|exact Sd].
    - destruct (serve_without_mapping Ω req oid amt w V)
        as (w' & E & _ & St & Sd); [auto|].
      eexists _, w'. split; [exact E|].
      split; [apply gateway_response_status|].
      split; [rewrite St; apply only_batch_rows_added_refl|exact Sd]. }
  destruct method.
  - exists {| resp_status := 200; resp_body := EmptyBody |}, w.
    split; [reflexivity|]. split; [left; reflexivity|].
    split; [intros _; split; reflexivity|].
    split; [apply only_batch_rows_added_refl|reflexivity].
  - destruct P as (resp & w' & E & S & B & Sd).
    exists resp, w'. split; [exact E|]. split; [exact S|].
    split; [discriminate|]. split; assumption.
  - destruct P as (resp & w' & E & S & B & Sd).
    exists resp, w'. split; [exact E|]. split; [exact S|].
    split; [discriminate|]. split; assumption.
Qed.

(** X2: the function fails closed without gateway credentials.  A request
    with a valid order id and amount, sent to a function whose server key
    is missing or empty, is answered with the 500 error "Midtrans server key
    not configured"; nothing is written, not even the batch mapping of a
    batch request, and the gateway is not called. *)
Theorem missing_server_key_fails_closed Ω req oid amt w :
  orderId req = Some oid -> oid <> "" ->
  amount req = Some amt -> (0 < amt)%Q ->
  truthy_str (MIDTRANS_SERVER_KEY (deno_env Ω)) = false ->
  exists w',
    serve Ω POST (Some req) w
    = (Return {| resp_status := 500;
                 resp_body :=
                   ErrorBody "Midtrans server key not configured"
                             "Error: Midtrans server key not configured"
                             "Error" |}, w')
    /\ events w' = events w
    /\ store w' = store w.
Proof.
  intros Ho Hne Ha Hpos Hk. unfold serve, create_payment, error_response.
  rewrite Ho, Ha, (eqb_nonempty _ Hne), (positive_amount _ Hpos), Hk.
  run_monad. eexists. repeat split.
Qed.

Lemma missing_server_key_fails_closed_witness :
  exists w',
    serve (with_env keyless_env example_oracle) POST (Some mismatched_request)
          empty_world
    = (Return {| resp_status := 500;
                 resp_body :=
                   ErrorBody "Midtrans server key not configured"
                             "Error: Midtrans server key not configured"
                             "Error" |}, w')
    /\ events w' = []
    /\ store w' = empty_store.
Proof.
  apply (missing_server_key_fails_closed (with_env keyless_env example_oracle)
           mismatched_request "ORDER-4" 60000 empty_world eq_refl);
    [discriminate|reflexivity|reflexivity|reflexivity].
Defined.

(** X3: a refusal of the gateway is surfaced, and the batch mapping is not
    undone.  For an accepted request whose batch mapping (if any) the store
    accepts, a non-2xx reply of the gateway comes back as a 500 answer
    whose error quotes the gateway's status code and body, and a failed
    fetch as a 500 answer quoting its message.  Rows written to
    [batch_orders] before the call stay in the store. *)
Theorem gateway_failure_is_surfaced Ω req oid amt w :
  accepted Ω req oid amt ->
  (forall rows, store_error Ω (InsertBatchOrders rows) = None) ->
  let p := midtransPayload oid amt req in
  let run := serve Ω POST (Some req) w in
  (forall st text,
     gateway Ω p = HttpError st text ->
     let m := "Midtrans API call failed: Midtrans API error: "
              +:+ show st +:+ " - " +:+ text in
     run.1 = Return {| resp_status := 500;
                       resp_body := ErrorBody m ("Error: " +:+ m) "Error" |})
  /\ (forall message,
        gateway Ω p = FetchFailed message ->
        let m := "Midtrans API call failed: " +:+ message in
        run.1 = Return {| resp_status := 500;
                          resp_body := ErrorBody m ("Error: " +:+ m)
                                                 "Error" |})
  /\ payloads (new_events w run.2) = [p]
  /\ (forall b ids,
        batchOrderIds req = Some (b :: ids) ->
        store_configured Ω = true ->
        batch_orders (store run.2)
        = batch_orders (store w) ++ batch_rows oid (b :: ids)).
Proof.
  intros Hacc Hstore p run.
  assert (R : run.1 = Return (gateway_response (gateway Ω p))
              /\ payloads (new_events w run.2) = [p]
              /\ (forall b ids,
                    batchOrderIds req = Some (b :: ids) ->
                    store_configured Ω = true ->
                    batch_orders (store run.2)
                    = batch_orders (store w) ++ batch_rows oid (b :: ids))).
  { subst run p.
    destruct (batchOrderIds req) as [[|b ids]|] eqn:Hb;
      [| destruct (store_configured Ω) eqn:Hc |].
    - destruct (serve_without_mapping Ω req oid amt w Hacc)
        as (w' & E & Ev & _); [auto|].
      rewrite E. simpl. rewrite (new_events_app _ _ _ Ev).
      split; [reflexivity|]. split; [reflexivity|]. intros b ids [=].
    - destruct (serve_mapping_saved Ω req oid amt b ids w Hacc Hb Hc
                  (Hstore _)) as (w' & E & Ev & St & _).
      rewrite E. simpl. rewrite (new_events_app _ _ _ Ev).
      split; [reflexivity|]. split; [reflexivity|].
      intros b' ids' [= <- <-] _. rewrite St. reflexivity.
    - destruct (serve_without_mapping Ω req oid amt w Hacc)
        as (w' & E & Ev & _); [auto|].
      rewrite E. simpl. rewrite (new_events_app _ _ _ Ev).
      split; [reflexivity|]. split; [reflexivity|]. intros b' ids' _ [=].
    - destruct (serve_without_mapping Ω req oid amt w Hacc)
        as (w' & E & Ev & _); [auto|].
      rewrite E. simpl. rewrite (new_events_app _ _ _ Ev).
      split; [reflexivity|]. split; [reflexivity|]. intros b ids [=]. }
  destruct R as (R1 & R2 & R3).
  split; [|split; [|split]]; try assumption.
  - intros st text Hg m. rewrite R1, Hg. reflexivity.
  - intros message Hg m. rewrite R1, Hg. reflexivity.
Qed.

(** A batch of three orders against a gateway that answers 400: the error
    quotes the answer, and the three mapping rows are in the store. *)
Lemma gateway_failure_is_surfaced_witness :
  let Ω := with_gateway rejecting_gateway example_oracle in
  let run := serve Ω POST (Some mismatched_request) empty_world in
  (exists m,
     run.1 = Return {| resp_status := 500;
                       resp_body := ErrorBody m ("Error: " +:+ m) "Error" |})
  /\ length (batch_orders (store run.2)) = 3%nat.
Proof.
  intros Ω run.
  assert (A : accepted Ω mismatched_request "ORDER-4" 60000).
  { simpl. repeat split; try reflexivity. discriminate. }
  destruct (gateway_failure_is_surfaced Ω mismatched_request "ORDER-4" 60000
              empty_world A (fun _ => eq_refl)) as (H1 & _ & _ & H4).
  split.
  - eexists. apply (H1 400%nat _ eq_refl).
  - unfold run. rewrite (H4 "a" ["b"; "c"] eq_refl eq_refl). reflexivity.
Defined.

(** ** The line items of a payload *)

Lemma num_or_nonzero q d : ~ d == 0 -> ~ num_or q d == 0.
Proof.
  intros Hd. unfold num_or. destruct q as [q|]; [|exact Hd].
  destruct (Qeq_bool q 0) eqn:E; [exact Hd|].
  intros H. apply Qeq_bool_iff in H. congruence.
Qed.

Lemma str_or_nonempty s d : d <> "" -> str_or s d <> "".
Proof.
  intros Hd. unfold str_or. destruct s as [s|]; [|exact Hd].
  destruct (String.eqb s "") eqn:E; [exact Hd|].
  apply String.eqb_neq. exact E.
Qed.

Lemma append_nonempty_r a b : b <> "" -> a +:+ b <> "".
Proof.
  intros Hb. destruct a; simpl; [exact Hb|discriminate].
Qed.

Lemma truncatedName_nonempty item index : truncatedName item index <> "".
Proof.
  unfold truncatedName.
  destruct (in_name item) as [n|]; [|discriminate].
  destruct (truthy_str (Some n) && (45 <? String.length n)%nat).
  - apply append_nonempty_r. discriminate.
  - apply str_or_nonempty. discriminate.
Qed.

(** A property of every normalised item holds of the whole list. *)
Lemma Forall_imap_normalize (P : ItemDetail -> Prop) (items : list ItemInput) :
  (forall index item, P (normalize_item index item)) ->
  Forall P (imap normalize_item items).
Proof.
  intros H. apply Forall_forall. intros x Hx.
  apply list_elem_of_lookup in Hx. destruct Hx as [i Hi].
  rewrite list_lookup_imap in Hi.
  destruct (items !! i) as [item|]; [|discriminate].
  simpl in Hi. injection Hi as <-. apply H.
Qed.

(** X4: the line items of every payload are well formed.  Whatever the
    request, [item_details] is never empty and holds either one line per
    supplied item or the single summary line; no line has a zero quantity
    or an empty name, and with a non-empty order id no line has an empty
    id. *)
Theorem item_details_well_formed oid amt req :
  oid <> "" ->
  let items := item_details (midtransPayload oid amt req) in
  items <> []
  /\ (length items = 1%nat
      \/ length items = length (default [] (itemDetails req)))
  /\ Forall (fun item => ~ quantity item == 0 /\ name item <> ""
                         /\ id item <> "") items.
Proof.
  intros Hoid items. subst items. unfold midtransPayload.
  cbn [item_details]. unfold finalItemDetails.
  assert (S : Forall (fun item => ~ quantity item == 0 /\ name item <> ""
                                  /\ id item <> "")
                     [summary_item oid amt (batchOrderIds req)]).
  { constructor; [|constructor]. simpl. split; [discriminate|].
    split; [|exact Hoid]. unfold summary_name.
    destruct (batchOrderIds req) as [ids|]; [|discriminate].
    destruct (1 <? length ids)%nat; discriminate. }
  destruct (itemDetails req) as [[|i rest]|];
    try (split; [discriminate|]; split; [left; reflexivity|exact S]).
  destruct (total_mismatch (i :: rest) amt);
    [split; [discriminate|]; split; [left; reflexivity|exact S]|].
  split; [discriminate|]. split.
  - right. rewrite length_imap. reflexivity.
  - apply Forall_imap_normalize. intros index item. simpl.
    split; [apply num_or_nonzero; discriminate|].
    split; [apply truncatedName_nonempty|].
    apply str_or_nonempty. discriminate.
Qed.

Lemma item_details_well_formed_witness :
  length (item_details (midtransPayload "ORDER-3" 50000 two_item_request))
  = 2%nat
  /\ Forall (fun item => ~ quantity item == 0 /\ name item <> ""
                         /\ id item <> "")
            (item_details (midtransPayload "ORDER-3" 50000 two_item_request)).
Proof.
  split; [reflexivity|].
  apply (item_details_well_formed "ORDER-3" 50000 two_item_request).
  discriminate.
Defined.

Lemma length_append (a b : string) :
  String.length (a +:+ b) = (String.length a + String.length b)%nat.
Proof. induction a as [|c a IH]; simpl; [reflexivity|rewrite IH; reflexivity]. Qed.

Lemma length_substring_0 n (s : string) :
  (n <= String.length s)%nat -> String.length (String.substring 0 n s) = n.
Proof.
  revert s. induction n as [|n IH]; intros s H.
  - destruct s; reflexivity.
  - destruct s as [|c s]; simpl in *; [lia|]. rewrite IH; [reflexivity|lia].
Qed.

(** X5: the length of a line-item name.  A supplied non-empty name of
    ASCII characters, at most 45 of them, is sent unchanged; a longer one
    is cut to its first 45 characters followed by "...", so that no such
    name reaches the gateway with more than 48 characters. *)
Theorem supplied_name_is_bounded index item n :
  in_name item = Some n -> n <> "" ->
  is_ascii_string n = true ->
  let sent := name (normalize_item index item) in
  (String.length sent <= 48)%nat
  /\ ((String.length n <= 45)%nat -> sent = n)
  /\ ((45 < String.length n)%nat ->
      sent = String.substring 0 45 n +:+ "..."
      /\ String.length sent = 48%nat).
Proof.
  intros Hn Hne _ sent. subst sent. simpl. unfold truncatedName.
  rewrite Hn, (truthy_str_Some _ Hne).
  destruct (45 <? String.length n)%nat eqn:E.
  - apply Nat.ltb_lt in E.
    assert (L : String.length (String.substring 0 45 n +:+ "...") = 48%nat).
    { rewrite length_append, length_substring_0 by lia. reflexivity. }
    cbn [andb]. split; [lia|]. split; [lia|]. intros _. split; [reflexivity|exact L].
  - apply Nat.ltb_ge in E. cbn [andb]. unfold str_or.
    rewrite (eqb_nonempty _ Hne). split; [lia|]. split; [reflexivity|lia].
Qed.

Lemma supplied_name_is_bounded_witness :
  String.length
    (name (normalize_item 0
             {| in_id := None;
                in_name :=
                  Some "Nasi Goreng Spesial Dengan Telur Mata Sapi Dan Kerupuk";
                in_price := Some 18000%Q; in_quantity := None |}))
  = 48%nat.
Proof.
  refine (proj2 (proj2 (proj2
            (supplied_name_is_bounded 0
               {| in_id := None;
                  in_name :=
                    Some "Nasi Goreng Spesial Dengan Telur Mata Sapi Dan Kerupuk";
                  in_price := Some 18000%Q; in_quantity := None |}
               "Nasi Goreng Spesial Dengan Telur Mata Sapi Dan Kerupuk"
               eq_refl _ _)) _)).
  - discriminate.
  - reflexivity.
  - vm_compute. lia.
Defined.

(** ** The gross amount *)

Lemma Math_round_bounds q :
  (q - (1 # 2) < inject_Z (Math_round q))%Q
  /\ (inject_Z (Math_round q) <= q + (1 # 2))%Q.
Proof.
  unfold Math_round. split.
  - pose proof (Qlt_floor (q + (1 # 2))) as H.
    rewrite inject_Z_plus in H. change (inject_Z 1) with 1%Q in H. lra.
  - apply Qfloor_le.
Qed.

(** X6: the gross amount is the amount rounded to the nearest integer
    currency unit: it lies within one half of the amount, halves going up.
    Validation only asks for a positive amount, so the gross amount of an
    accepted request is never negative, and it is 0 exactly when the amount
    is below one half. *)
Theorem gross_amount_is_nearest_integer Ω req oid amt w p :
  accepted Ω req oid amt ->
  p ∈ sent_payloads Ω req w ->
  let gross := gross_amount (transaction_details p) in
  (amt - (1 # 2) < inject_Z gross)%Q
  /\ (inject_Z gross <= amt + (1 # 2))%Q
  /\ (0 <= gross)%Z
  /\ (gross = 0%Z <-> (amt < 1 # 2)%Q).
Proof.
  intros Hacc Hp gross. subst gross.
  rewrite (sent_payload_is _ _ _ _ _ _ Hacc Hp). simpl.
  destruct (Math_round_bounds amt) as [L U].
  destruct Hacc as (_ & _ & _ & Hpos & _).
  split; [exact L|]. split; [exact U|].
  assert (N : (0 <= Math_round amt)%Z).
  { unfold Math_round. rewrite <- (Qfloor_Z 0). apply Qfloor_resp_le.
    change (inject_Z 0) with 0%Q. lra. }
  split; [exact N|]. split.
  - intros E. rewrite E in L. change (inject_Z 0) with 0%Q in L. lra.
  - intros H. apply Z.le_antisymm; [|exact N].
    apply Z.lt_succ_r. rewrite Zlt_Qlt.
    change (inject_Z (Z.succ 0)) with 1%Q. lra.
Qed.

(** An accepted amount of 0.4 is sent as a gross amount of 0. *)
Lemma gross_amount_is_nearest_integer_witness :
  let req := {| orderId := Some "ORDER-6"; amount := Some (2 # 5)%Q;
                customerDetails := None; itemDetails := None;
                batchOrderIds := None |} in
  gross_amount
    (transaction_details (midtransPayload "ORDER-6" (2 # 5) req)) = 0%Z.
Proof.
  intros req.
  assert (A : accepted example_oracle req "ORDER-6" (2 # 5)).
  { simpl. repeat split; try reflexivity. discriminate. }
  assert (P : midtransPayload "ORDER-6" (2 # 5) req
              ∈ sent_payloads example_oracle req empty_world).
  { vm_compute. constructor. }
  apply (proj2 (proj2 (proj2 (proj2
           (gross_amount_is_nearest_integer example_oracle req "ORDER-6"
              (2 # 5) empty_world _ A P))))).
  reflexivity.
Defined.

(** ** The Batch Payment Aggregator: what it leaves alone *)

(** The function call of a batch always comes back, and does not touch
    [orders]. *)
Lemma batch_invocation_runs Ω user selected w :
  let bid := "BATCH-" +:+ stamp Ω (stamps_drawn w) in
  exists r w1 evs,
    batch_invocation Ω user selected w = (Return r, w1)
    /\ events w1
       = events w ++ Invoke (batch_request user (pending selected) bid) :: evs
    /\ Forall server_event evs
    /\ orders (store w1) = orders (store w).
Proof.
  intros bid. unfold batch_invocation, mbind, M_bind, draw_stamp.
  cbv beta iota. fold bid.
  match goal with
  | |- context [functions_invoke Ω ?req ?w0] =>
      destruct (functions_invoke_runs Ω req w0)
        as (r & w1 & evs & R & Ev & Fs & _ & Os & _)
  end.
  exists r, w1, evs. rewrite R. repeat split; assumption.
Qed.

(** A run of [processBatchPayment] with pending orders is the settling of
    the answer of its function call. *)
Lemma processBatchPayment_decompose Ω user selected w r w1 :
  pending selected <> [] ->
  batch_invocation Ω user selected w = (Return r, w1) ->
  processBatchPayment Ω user selected w
  = try_catch
      (batch_settle Ω (pending selected)
                    ("BATCH-" +:+ stamp Ω (stamps_drawn w)) r)
      batch_failed w1.
Proof.
  intros Hp Hi. unfold processBatchPayment.
  rewrite (length_eqb_nonempty _ (pending_nonempty _ Hp)),
    (length_eqb_nonempty _ Hp).
  rewrite try_catch_bind. unfold draw_stamp at 1. cbv beta iota.
  rewrite try_catch_bind.
  unfold batch_invocation, mbind, M_bind, draw_stamp in Hi.
  cbv beta iota in Hi. rewrite Hi. reflexivity.
Qed.

(** Settling never changes [orders] except by the fan-out. *)
Lemma batch_settle_orders Ω l bid r w :
  let w' := (try_catch (batch_settle Ω l bid r) batch_failed w).2 in
  orders (store w') = orders (store w)
  \/ exists token,
       orders (store w') = stamped_orders Ω l token bid (orders (store w)).
Proof.
  destruct (batch_settle_run Ω l bid r w)
    as (w' & evs & R & _ & _ & _ & _ & _ & Hs).
  intros w0. subst w0. rewrite R. simpl.
  destruct r as [[[[token|] x]|] [message|]];
    try (destruct (String.eqb token "") eqn:Et);
    try (right; exists token;
         apply (Hs token x eq_refl); apply String.eqb_neq; exact Et);
    left; revert R; unfold batch_settle, batch_failed; run_monad;
    try rewrite Et; run_monad; intros [= <-]; reflexivity.
Qed.

(** X7: a batch payment never touches an order outside the batch.
    Whatever the selection, the environment and the outcome, the row of
    every order whose id is not the id of a pending order of the selection
    is after the run what it was before. *)
Theorem batch_leaves_other_orders Ω user selected w i :
  i ∉ map key (pending selected) ->
  orders (store (processBatchPayment Ω user selected w).2) !! i
  = orders (store w) !! i.
Proof.
  intros Hi.
  destruct (decide (pending selected = [])) as [Hp|Hp].
  - unfold processBatchPayment. rewrite Hp.
    destruct (length selected =? 0)%nat; reflexivity.
  - destruct (batch_invocation_runs Ω user selected w)
      as (r & w1 & evs & R & _ & _ & Os).
    rewrite (processBatchPayment_decompose Ω user selected w r w1 Hp R).
    destruct (batch_settle_orders Ω (pending selected)
                ("BATCH-" +:+ stamp Ω (stamps_drawn w)) r w1)
      as [E|[token E]]; rewrite E.
    + rewrite Os. reflexivity.
    + rewrite stamped_orders_other by exact Hi. rewrite Os. reflexivity.
Qed.

(** The paid order D of the selection keeps its row. *)
Lemma batch_leaves_other_orders_witness :
  orders (store (processBatchPayment example_oracle example_user
                   [order_A; order_D; order_B; order_C] example_world).2)
    !! "D"
  = Some (columns order_D).
Proof.
  rewrite (batch_leaves_other_orders example_oracle example_user
             [order_A; order_D; order_B; order_C] example_world "D").
  - reflexivity.
  - vm_compute. intros H.
    repeat (apply elem_of_cons in H; destruct H as [H|H]; [discriminate|]).
    inversion H.
Defined.

(** X8: when the Gateway Transaction Function answers a batch with an
    error, nothing is fanned out: no order is updated (no update is even
    requested), the widget is not opened, and the run ends with an error
    toast that shows the error's message. *)
Theorem failed_batch_call_stamps_nothing Ω user selected w r message :
  pending selected <> [] ->
  (batch_invocation Ω user selected w).1 = Return r ->
  error r = Some message ->
  let run := processBatchPayment Ω user selected w in
  run.1 = Return tt
  /\ orders (store run.2) = orders (store w)
  /\ widget_opened (new_events w run.2) = []
  /\ Forall (fun request => exists rows, request.1 = InsertBatchOrders rows)
            (store_requests (new_events w run.2))
  /\ last (new_events w run.2)
     = Some (Toast "Error"
               (str_or (Some (str_or (Some message)
                                     "Failed to create batch payment"))
                       "Gagal memproses pembayaran batch")
               true).
Proof.
  intros Hp Hr He run. subst run.
  destruct (batch_invocation_runs Ω user selected w)
    as (r' & w1 & evs & R & Ev & Fs & Os).
  rewrite R in Hr. simpl in Hr. injection Hr as ->.
  rewrite (processBatchPayment_decompose Ω user selected w r w1 Hp R).
  destruct r as [d e]. simpl in He. subst e.
  unfold batch_settle, batch_failed. run_monad.
  split; [reflexivity|]. split; [exact Os|].
  erewrite (new_events_app w)
    by (rewrite Ev, <- app_assoc; simpl; reflexivity).
  split; [|split].
  - change (widget_opened ([Invoke (batch_request user (pending selected)
                                      ("BATCH-" +:+ stamp Ω (stamps_drawn w)))]
                           ++ evs ++ [Toast "Error"
                                        (str_or (Some (str_or (Some message)
                                           "Failed to create batch payment"))
                                           "Gagal memproses pembayaran batch")
                                        true]) = []).
    rewrite !widget_opened_app.
    rewrite (proj2 (server_events_not_invoked _ Fs)). reflexivity.
  - change (Forall (fun request => exists rows,
                      request.1 = InsertBatchOrders rows)
              (store_requests
                 ([Invoke (batch_request user (pending selected)
                             ("BATCH-" +:+ stamp Ω (stamps_drawn w)))]
                  ++ evs ++ [Toast "Error"
                               (str_or (Some (str_or (Some message)
                                  "Failed to create batch payment"))
                                  "Gagal memproses pembayaran batch")
                               true]))).
    rewrite !store_requests_app. simpl. rewrite app_nil_r.
    clear -Fs. induction Fs as [|e evs He _ IH]; [constructor|].
    destruct e as [[]| | | |]; simpl in *; try contradiction; auto.
    constructor; [eexists; reflexivity|exact IH].
  - rewrite app_comm_cons, last_snoc. reflexivity.
Qed.

(** A batch against a gateway that answers 400: the three orders keep
    their rows and the widget stays closed. *)
Lemma failed_batch_call_stamps_nothing_witness :
  let Ω := with_gateway rejecting_gateway example_oracle in
  let run := processBatchPayment Ω example_user [order_A; order_B; order_C]
                                 example_world in
  orders (store run.2) = orders (store example_world)
  /\ widget_opened (new_events example_world run.2) = [].
Proof.
  intros Ω run.
  assert (P : pending [order_A; order_B; order_C] <> []).
  { vm_compute. discriminate. }
  destruct (failed_batch_call_stamps_nothing Ω example_user
              [order_A; order_B; order_C] example_world
              {| data := None;
                 error := Some "Edge Function returned a non-2xx status code" |}
              "Edge Function returned a non-2xx status code" P)
    as (_ & H2 & H3 & _).
  - vm_compute. reflexivity.
  - reflexivity.
  - split; assumption.
Defined.

(** ** The batch payment button *)

Lemma pending_idempotent (l : list Order) : pending (pending l) = pending l.
Proof.
  unfold pending. induction l as [|o l IH]; [reflexivity|].
  rewrite filter_cons.
  destruct (decide (payment_status o = "pending")) as [Ho|Ho].
  - rewrite filter_cons, decide_True by exact Ho. rewrite IH. reflexivity.
  - exact IH.
Qed.

(** X9: what the batch button shows is what is paid.  When the selection
    has a pending order, the button is rendered and its click calls the
    Gateway Transaction Function exactly once (the aggregator's guards for
    an empty selection are never met from the button), with the displayed
    total as amount and the ids of the displayed pending orders as
    batchOrderIds.  Without a pending order the button is not rendered. *)
Theorem batch_button_pays_what_it_shows Ω user selectedOrders w :
  (button_pendingOrders selectedOrders = [] ->
   button_onClick Ω user selectedOrders = None)
  /\ (button_pendingOrders selectedOrders <> [] ->
      exists click,
        button_onClick Ω user selectedOrders = Some click
        /\ exists req,
             invoked (new_events w (click w).2) = [req]
             /\ amount req = Some (button_totalAmount selectedOrders)
             /\ batchOrderIds req
                = Some (map key (button_pendingOrders selectedOrders))
             /\ orderId req
                = Some ("BATCH-" +:+ stamp Ω (stamps_drawn w))).
Proof.
  unfold button_onClick. split.
  - intros ->. reflexivity.
  - intros Hp. rewrite (length_eqb_nonempty _ Hp).
    eexists. split; [reflexivity|].
    change (button_pendingOrders selectedOrders)
      with (pending selectedOrders) in *.
    assert (Hpp : pending (pending selectedOrders) <> [])
      by (rewrite pending_idempotent; exact Hp).
    destruct (processBatchPayment_pending Ω user (pending selectedOrders) w
                Hpp)
      as (r & w1 & w' & evs1 & evs2 & _ & R & Ev1 & Fs & _ & Ev2 & In & _).
    rewrite pending_idempotent in Ev1.
    exists (batch_request user (pending selectedOrders)
                          ("BATCH-" +:+ stamp Ω (stamps_drawn w))).
    rewrite R. simpl. split; [|repeat split].
    erewrite (new_events_app w)
      by (rewrite Ev2, Ev1, <- app_assoc; simpl; reflexivity).
    change (invoked ([Invoke (batch_request user (pending selectedOrders)
                                ("BATCH-" +:+ stamp Ω (stamps_drawn w)))]
                     ++ evs1 ++ evs2)
            = [batch_request user (pending selectedOrders)
                             ("BATCH-" +:+ stamp Ω (stamps_drawn w))]).
    rewrite !invoked_app, In, (proj1 (server_events_not_invoked _ Fs)).
    reflexivity.
Qed.

(** ** When the gateway receives the itemised invoice *)

Lemma Qsum_app a b : Qsum (a ++ b) == (Qsum a + Qsum b)%Q.
Proof.
  induction a as [|x a IH]; simpl.
  - rewrite Qplus_0_l. reflexivity.
  - rewrite IH, Qplus_assoc. reflexivity.
Qed.

(** The normalised total of an itemisation is the sum of its line values,
    whatever the positions of the lines. *)
Lemma items_total_imap_from k (l : list ItemInput) :
  items_total (imap (fun i => normalize_item (k + i)) l)
  == Qsum (map line_value l).
Proof.
  revert k. induction l as [|item l IH]; intros k; [reflexivity|].
  rewrite imap_cons. simpl.
  rewrite (imap_ext _ (fun i => normalize_item (S k + i))).
  - rewrite IH. reflexivity.
  - intros i x _. simpl. f_equal. lia.
Qed.

Lemma items_total_normalized (l : list ItemInput) :
  items_total (imap normalize_item l) == Qsum (map line_value l).
Proof. apply (items_total_imap_from 0). Qed.

(** A whole price and a non-zero quantity go through the normalisation
    unchanged. *)
Lemma line_value_whole i n p q :
  is_integer p -> ~ q == 0 ->
  line_value {| in_id := i; in_name := n; in_price := Some p;
                in_quantity := Some q |} == (p * q)%Q.
Proof.
  intros Hp Hq. unfold line_value. simpl.
  assert (Eq : Qeq_bool q 0 = false).
  { apply not_true_is_false. intros E. apply Qeq_bool_iff in E. auto. }
  rewrite Eq.
  assert (Ep : (if Qeq_bool p 0 then 0%Q else p) == p).
  { destruct (Qeq_bool p 0) eqn:E; [|reflexivity].
    apply Qeq_bool_iff in E. symmetry. exact E. }
  assert (R : inject_Z (Math_round (if Qeq_bool p 0 then 0%Q else p)) == p).
  { assert (F : Math_round (if Qeq_bool p 0 then 0%Q else p) = Math_round p).
    { unfold Math_round. apply Qfloor_comp. rewrite Ep. reflexivity. }
    rewrite F. apply Math_round_integer. exact Hp. }
  rewrite R. reflexivity.
Qed.

Lemma batch_lines_value (l : list Order) :
  Forall (fun o : Order =>
            Forall (fun item => is_integer (unit_price item)
                                /\ ~ li_quantity item == 0)
                   (line_items o)) l ->
  Qsum (map line_value (batch_item_details l))
  == Qsum (map lines_total l).
Proof.
  induction 1 as [|o l Ho _ IH]; [reflexivity|].
  unfold batch_item_details in *. simpl.
  rewrite map_app, Qsum_app, IH. apply Qplus_comp; [|reflexivity].
  unfold lines_total. clear IH.
  induction Ho as [|item items [Hp Hq] _ IHi]; [reflexivity|].
  simpl. rewrite IHi, (line_value_whole _ _ _ _ Hp Hq). reflexivity.
Qed.

(** X10: when a batch is billed line by line.  For pending orders whose
    unit prices and quantities are whole numbers, the quantities not zero,
    and whose amounts stay within what doubles add exactly (the orders'
    total_amount on the client, the line values in the function), the
    combined itemisation is sent to the gateway unchanged (one normalised
    line per line item) exactly when the orders' total_amount add up to the
    sum of unit_price times quantity over their line items; otherwise the
    single summary line replaces it. *)
Theorem batch_itemisation user (l : list Order) bid :
  Forall (fun o : Order =>
            Forall (fun item => is_integer (unit_price item)
                                /\ ~ li_quantity item == 0)
                   (line_items o)) l ->
  Forall (fun o : Order =>
            Forall (fun item => is_integer (li_quantity item))
                   (line_items o)) l ->
  representable_total (batch_item_details l) ->
  representable_sum (map (fun o : Order => total_amount o) l) ->
  batch_item_details l <> [] ->
  let sent := item_details
                (midtransPayload bid (batch_total l)
                                 (batch_request user l bid)) in
  (Qsum (map (fun o : Order => total_amount o) l) == Qsum (map lines_total l)
   -> sent = imap normalize_item (batch_item_details l)
      /\ length sent = length (batch_item_details l))
  /\ (~ Qsum (map (fun o : Order => total_amount o) l)
        == Qsum (map lines_total l)
      -> sent = [summary_item bid (batch_total l) (Some (map key l))]).
Proof.
  intros Hl _ _ _ Hne sent. subst sent. unfold midtransPayload.
  cbn [item_details batch_request itemDetails batchOrderIds].
  unfold finalItemDetails.
  destruct (batch_item_details l) as [|i rest] eqn:Ei; [congruence|].
  rewrite <- Ei.
  assert (T : items_total (imap normalize_item (batch_item_details l))
              == Qsum (map lines_total l)).
  { rewrite items_total_normalized. apply batch_lines_value. exact Hl. }
  split.
  - intros E.
    assert (M : total_mismatch (batch_item_details l) (batch_total l) = false).
    { apply not_true_is_false. intros M. apply total_mismatch_spec in M.
      apply M. rewrite T, batch_total_sum. symmetry. exact E. }
    rewrite M. split; [reflexivity|apply length_imap].
  - intros E.
    assert (M : total_mismatch (batch_item_details l) (batch_total l) = true).
    { apply total_mismatch_spec. rewrite T, batch_total_sum.
      intros H. apply E. symmetry. exact H. }
    rewrite M. reflexivity.
Qed.

(** The three orders of the scenario are billed as three lines. *)
Lemma batch_itemisation_witness :
  item_details
    (midtransPayload "BATCH-1" (batch_total [order_A; order_B; order_C])
       (batch_request example_user [order_A; order_B; order_C] "BATCH-1"))
  = imap normalize_item (batch_item_details [order_A; order_B; order_C]).
Proof.
  refine (proj1 (proj1 (batch_itemisation example_user
                          [order_A; order_B; order_C] "BATCH-1" _ _ _ _ _) _)).
  - repeat constructor; try (vm_compute; reflexivity); discriminate.
  - repeat constructor; vm_compute; reflexivity.
  - unfold representable_total. vm_compute. discriminate.
  - split; [repeat constructor; vm_compute; reflexivity|].
    vm_compute. discriminate.
  - discriminate.
  - vm_compute. reflexivity.
Defined.

(** ** More on the function call from the client *)

(** Every run of the function on a parsed body, with all it can do to the
    world. *)
Lemma serve_cases Ω req w :
  exists resp w' evs,
    serve Ω POST (Some req) w = (Return resp, w')
    /\ events w' = events w ++ evs
    /\ Forall server_event evs
    /\ only_batch_rows_added (store w) (store w')
    /\ stamps_drawn w' = stamps_drawn w
    /\ (resp_status resp = 500
        \/ exists oid amt,
             accepted Ω req oid amt
             /\ resp = gateway_response
                         (gateway Ω (midtransPayload oid amt req))).
Proof.
  destruct (validated Ω req) as [[oid amt]|] eqn:V.
  - apply validated_accepted in V.
    destruct (batchOrderIds req) as [[|b ids]|] eqn:Hb;
      [| destruct (store_configured Ω) eqn:Hc;
         [destruct (store_error Ω
                      (InsertBatchOrders (batch_rows oid (b :: ids))))
            as [message|] eqn:He|] |].
    + destruct (serve_without_mapping Ω req oid amt w V)
        as (w' & E & Ev & St & Sd); [auto|].
      eexists _, w', _. split; [exact E|]. split; [exact Ev|].
      split; [repeat constructor|].
      split; [rewrite St; apply only_batch_rows_added_refl|].
      split; [exact Sd|]. right. eauto.
    + destruct (serve_mapping_failed Ω req oid amt b ids message w
                  V Hb Hc He) as (w' & E & Ev & St & Sd).
      eexists _, w', _. split; [exact E|]. split; [exact Ev|].
      split; [repeat constructor|].
      split; [rewrite St; apply only_batch_rows_added_refl|].
      split; [exact Sd|]. left. reflexivity.
    + destruct (serve_mapping_saved Ω req oid amt b ids w V Hb Hc He)
        as (w' & E & Ev & St & Sd).
      eexists _, w', _. split; [exact E|]. split; [exact Ev|].
      split; [repeat constructor|].
      split; [rewrite St; apply only_batch_rows_added_insert|].
      split; [exact Sd|]. right. eauto.
    + destruct (serve_without_mapping Ω req oid amt w V)
        as (w' & E & Ev & St & Sd); [auto|].
      eexists _, w', _. split; [exact E|]. split; [exact Ev|].
      split; [repeat constructor|].
      split; [rewrite St; apply only_batch_rows_added_refl|].
      split; [exact Sd|]. right. eauto.
    + destruct (serve_without_mapping Ω req oid amt w V)
        as (w' & E & Ev & St & Sd); [auto|].
      eexists _, w', _. split; [exact E|]. split; [exact Ev|].
      split; [repeat constructor|].
      split; [rewrite St; apply only_batch_rows_added_refl|].
      split; [exact Sd|]. right. eauto.
  - destruct (serve_not_validated Ω req w V)
      as (resp & w' & E & S5 & Ev & St & Sd).
    exists resp, w', []. split; [exact E|].
    split; [rewrite app_nil_r; exact Ev|]. split; [constructor|].
    split; [rewrite St; apply only_batch_rows_added_refl|].
    split; [exact Sd|]. left. exact S5.
Qed.

(** The answer of [supabase.functions.invoke] to a response. *)
Lemma functions_invoke_of_serve Ω body w resp w' :
  serve Ω POST (Some body)
        (mkWorld (store w) (events w ++ [Invoke body]) (console_errors w)
                 (stamps_drawn w))
  = (Return resp, w') ->
  functions_invoke Ω body w
  = (Return
       match Nat.eqb (resp_status resp) 200, resp_body resp with
       | true, TokenBody t r => {| data := Some (t, r); error := None |}
       | true, _ => {| data := None; error := None |}
       | false, _ =>
           {| data := None;
              error := Some "Edge Function returned a non-2xx status code" |}
       end, w').
Proof.
  intros E. unfold functions_invoke, mbind, M_bind. rewrite emit_run, E.
  destruct (Nat.eqb (resp_status resp) 200), (resp_body resp); reflexivity.
Qed.

(** Against a gateway that never accepts, every call of the function comes
    back as an error, and [orders] and [order_line_items] are as before. *)
Lemma functions_invoke_refused Ω body w :
  (forall p t r, gateway Ω p <> HttpOk t r) ->
  exists w' evs,
    functions_invoke Ω body w
    = (Return {| data := None;
                 error :=
                   Some "Edge Function returned a non-2xx status code" |}, w')
    /\ events w' = events w ++ Invoke body :: evs
    /\ Forall server_event evs
    /\ only_batch_rows_added (store w) (store w')
    /\ stamps_drawn w' = stamps_drawn w.
Proof.
  intros Hg.
  set (w0 := mkWorld (store w) (events w ++ [Invoke body]) (console_errors w)
                     (stamps_drawn w)).
  destruct (serve_cases Ω body w0)
    as (resp & w' & evs & E & Ev & Fs & St & Sd & Hr).
  exists w', evs. rewrite (functions_invoke_of_serve Ω body w resp w' E).
  assert (S5 : resp_status resp = 500).
  { destruct Hr as [S5|(oid & amt & _ & ->)]; [exact S5|].
    destruct (gateway Ω (midtransPayload oid amt body)) as [m|st t|t r] eqn:G;
      try reflexivity.
    exfalso. apply (Hg _ _ _ G). }
  rewrite S5. simpl.
  split; [reflexivity|].
  split; [rewrite Ev; simpl; rewrite <- app_assoc; reflexivity|].
  split; [exact Fs|]. split; [exact St|exact Sd].
Qed.

(** A call for a single order that the function accepts and the gateway
    grants. *)
Lemma functions_invoke_granted Ω body oid amt w t r :
  accepted Ω body oid amt ->
  batchOrderIds body = None ->
  gateway Ω (midtransPayload oid amt body) = HttpOk t r ->
  exists w',
    functions_invoke Ω body w
    = (Return {| data := Some (t, r); error := None |}, w')
    /\ events w'
       = events w ++ [Invoke body; GatewayCall (midtransPayload oid amt body)]
    /\ store w' = store w
    /\ stamps_drawn w' = stamps_drawn w.
Proof.
  intros Hacc Hb Hg.
  set (w0 := mkWorld (store w) (events w ++ [Invoke body]) (console_errors w)
                     (stamps_drawn w)).
  destruct (serve_without_mapping Ω body oid amt w0 Hacc)
    as (w' & E & Ev & St & Sd); [auto|].
  exists w'. rewrite (functions_invoke_of_serve Ω body w _ w' E).
  rewrite Hg. simpl. split; [reflexivity|].
  split; [rewrite Ev; simpl; rewrite <- app_assoc; reflexivity|].
  split; assumption.
Qed.

(** ** The retry path: caching the fresh token *)

(** The run of [retryPayment] on a cached token. *)
Lemma retryPayment_cached Ω user (order : Order) token w :
  snap_token order = Some token -> token <> "" ->
  retryPayment Ω user order w
  = (Return tt,
     mkWorld (store w)
             (events w
              ++ [if window_snap Ω then SnapPay token
                  else Toast "Error" "Midtrans Snap belum loaded" true])
             (if window_snap Ω then console_errors w
              else console_errors w ++ ["Retry payment error:"])
             (stamps_drawn w)).
Proof.
  intros Ht Hne. unfold retryPayment, retry_failed, snap_pay.
  rewrite Ht, (truthy_str_Some _ Hne). simpl.
  destruct (window_snap Ω); reflexivity.
Qed.

(** A run of the uncached path is the settling of the answer of its
    function call. *)
Lemma retryPayment_decompose Ω user (order : Order) w r w1 :
  truthy_str (snap_token order) = false ->
  retry_invocation Ω user order w = (Return r, w1) ->
  retryPayment Ω user order w
  = try_catch (retry_settle Ω order r) retry_failed w1.
Proof.
  intros Hs Hi. unfold retryPayment. rewrite Hs.
  unfold retry_invocation in Hi.
  unfold try_catch, mbind, M_bind in *.
  destruct (ensure_midtrans_order_id Ω order w) as [[oid|e] w0];
    [|discriminate].
  rewrite Hi. reflexivity.
Qed.

(** The function call of a retry leaves the order in the store, with the
    token it had. *)
Lemma retry_invocation_keeps_row Ω user (order : Order) w r w1 row :
  retry_invocation Ω user order w = (Return r, w1) ->
  orders (store w) !! key order = Some row ->
  exists row1,
    orders (store w1) !! key order = Some row1
    /\ snap_token row1 = snap_token row
    /\ total_amount row1 = total_amount row.
Proof.
  intros Hi Hrow. unfold retry_invocation, mbind, M_bind in Hi.
  assert (K : forall oid w0 row0,
             functions_invoke Ω (retry_request user order oid) w0
             = (Return r, w1) ->
             orders (store w0) !! key order = Some row0 ->
             orders (store w1) !! key order = Some row0).
  { intros oid w0 row0 Hf H0.
    destruct (functions_invoke_runs Ω (retry_request user order oid) w0)
      as (r' & w' & evs & R & _ & _ & _ & Os & _).
    rewrite Hf in R. injection R as _ <-. rewrite Os. exact H0. }
  unfold ensure_midtrans_order_id in Hi.
  destruct (truthy_str (midtrans_order_id order)).
  - exists row. split; [|split; reflexivity].
    exact (K (default "" (midtrans_order_id order)) w row Hi Hrow).
  - revert Hi. run_monad.
    destruct (store_error Ω _) as [m|]; simpl; [discriminate|].
    intros Hi. eexists. split; [|split].
    + eapply K; [exact Hi|]. simpl. rewrite lookup_alter_eq, Hrow.
      reflexivity.
    + reflexivity.
    + reflexivity.
Qed.

(** Settling a granted token: the token is saved when the store carries
    the update out, the failure is only logged when it does not, and the
    widget is opened either way. *)
Lemma retry_settle_granted Ω (order : Order) t x w :
  t <> "" ->
  let save := UpdateOrder (key order) (token_patch t) in
  exists w',
    try_catch (retry_settle Ω order
                 {| data := Some (Some t, x); error := None |})
              retry_failed w
    = (Return tt, w')
    /\ store w'
       = match store_error Ω save with
         | Some _ => store w
         | None => apply_op save (store w)
         end
    /\ events w'
       = events w
         ++ [StoreRequest save (bool_decide (store_error Ω save = None));
             if window_snap Ω then SnapPay t
             else Toast "Error" "Midtrans Snap belum loaded" true].
Proof.
  intros Hne save. subst save. unfold retry_settle, retry_failed, snap_pay.
  cbn [error data]. rewrite (truthy_str_Some _ Hne). cbn [default].
  run_monad.
  destruct (store_error Ω (UpdateOrder (key order) (token_patch t)))
    as [m|]; destruct (window_snap Ω); simpl;
    eexists; (split; [reflexivity|]); simpl; rewrite <- app_assoc;
    split; reflexivity.
Qed.

(** X11: a fresh token is cached and reused.  When a retry without cached
    token obtains a token and the store carries the save out, the stored
    order holds that token; and retrying the order as it is then read from
    the store opens the widget with this token, without calling the
    function or the gateway again and without writing. *)
Theorem retry_caches_fresh_token Ω user (order : Order) w t x row :
  truthy_str (snap_token order) = false ->
  (retry_invocation Ω user order w).1
  = Return {| data := Some (Some t, x); error := None |} ->
  t <> "" ->
  store_error Ω (UpdateOrder (key order) (token_patch t)) = None ->
  orders (store w) !! key order = Some row ->
  let run := retryPayment Ω user order w in
  let again := retryPayment Ω user (reload (store run.2) order) run.2 in
  (exists row',
     orders (store run.2) !! key order = Some row'
     /\ snap_token row' = Some t)
  /\ invoked (new_events run.2 again.2) = []
  /\ payloads (new_events run.2 again.2) = []
  /\ store again.2 = store run.2
  /\ (window_snap Ω = true -> new_events run.2 again.2 = [SnapPay t]).
Proof.
  intros Hs Hi Hne Hok Hrow run again. subst again run.
  destruct (retry_invocation Ω user order w) as [[r|e] w1] eqn:R;
    simpl in Hi; [|discriminate].
  injection Hi as ->.
  destruct (retry_invocation_keeps_row Ω user order w _ w1 row R Hrow)
    as (row1 & Hrow1 & _).
  rewrite (retryPayment_decompose Ω user order w _ w1 Hs R).
  destruct (retry_settle_granted Ω order t x w1 Hne) as (w2 & E & St & Ev).
  rewrite E. cbn [snd]. rewrite Hok in St.
  assert (L : orders (store w2) !! key order
              = Some (apply_patch (token_patch t) row1)).
  { rewrite St. simpl. rewrite lookup_alter_eq, Hrow1. reflexivity. }
  split; [eexists; split; [exact L|reflexivity]|].
  rewrite (retryPayment_cached Ω user (reload (store w2) order) t w2);
    [|unfold reload; simpl; rewrite L; reflexivity|exact Hne].
  cbn [snd store].
  erewrite (new_events_app w2) by (simpl; reflexivity).
  destruct (window_snap Ω); repeat split; discriminate.
Qed.

(** Retrying order A twice: the second retry reuses the token saved by the
    first. *)
Lemma retry_caches_fresh_token_witness :
  let run := retryPayment example_oracle example_user order_A example_world in
  let again := retryPayment example_oracle example_user
                            (reload (store run.2) order_A) run.2 in
  invoked (new_events run.2 again.2) = []
  /\ new_events run.2 again.2 = [SnapPay "snap-token-1"].
Proof.
  intros run again.
  destruct (retry_caches_fresh_token example_oracle example_user order_A
              example_world "snap-token-1"
              (Some "https://pay.example/redirect/1") (columns order_A))
    as (_ & H2 & _ & _ & H5).
  - reflexivity.
  - vm_compute. reflexivity.
  - discriminate.
  - reflexivity.
  - reflexivity.
  - split; [exact H2|exact (H5 eq_refl)].
Defined.

Lemma last_app_two {A} (l : list A) a b : last (l ++ [a; b]) = Some b.
Proof.
  change [a; b] with ([a] ++ [b]). rewrite app_assoc. apply last_snoc.
Qed.

(** X12: a token that cannot be saved is still used.  When a retry obtains
    a token and the store refuses to save it, the failure is only logged:
    the run ends normally, the widget is opened with the fresh token when
    it is loaded, and the stored order keeps the token field it had, so the
    next retry will request another token. *)
Theorem retry_token_save_failure_is_swallowed
    Ω user (order : Order) w t x row message :
  truthy_str (snap_token order) = false ->
  (retry_invocation Ω user order w).1
  = Return {| data := Some (Some t, x); error := None |} ->
  t <> "" ->
  store_error Ω (UpdateOrder (key order) (token_patch t)) = Some message ->
  orders (store w) !! key order = Some row ->
  let run := retryPayment Ω user order w in
  run.1 = Return tt
  /\ (exists row',
        orders (store run.2) !! key order = Some row'
        /\ snap_token row' = snap_token row)
  /\ (window_snap Ω = true ->
      widget_opened (new_events w run.2) = [t]
      /\ last (new_events w run.2) = Some (SnapPay t)).
Proof.
  intros Hs Hi Hne Hf Hrow run. subst run.
  destruct (retry_invocation Ω user order w) as [[r|e] w1] eqn:R;
    simpl in Hi; [|discriminate].
  injection Hi as ->.
  destruct (retry_invocation_keeps_row Ω user order w _ w1 row R Hrow)
    as (row1 & Hrow1 & Htok & _).
  rewrite (retryPayment_decompose Ω user order w _ w1 Hs R).
  destruct (retry_settle_granted Ω order t x w1 Hne) as (w2 & E & St & Ev).
  rewrite E. cbn [fst snd]. rewrite Hf in St.
  split; [reflexivity|]. split.
  - exists row1. rewrite St. split; assumption.
  - intros Hw. rewrite Hw in Ev.
    assert (W : exists evs, events w1 = events w ++ evs
                            /\ widget_opened evs = []).
    { clear -R. unfold retry_invocation, mbind, M_bind in R.
      assert (K : forall oid w0 pre,
                 events w0 = events w ++ pre -> widget_opened pre = [] ->
                 functions_invoke Ω (retry_request user order oid) w0
                 = (Return {| data := Some (Some t, x); error := None |}, w1)
                 -> exists evs, events w1 = events w ++ evs
                                /\ widget_opened evs = []).
      { intros oid w0 pre Hpre Hw0 Hf.
        destruct (functions_invoke_runs Ω (retry_request user order oid) w0)
          as (r' & w' & evs & R' & Ev' & Fs & _).
        rewrite Hf in R'. injection R' as _ <-.
        exists (pre ++ Invoke (retry_request user order oid) :: evs).
        split; [rewrite Ev', Hpre, <- app_assoc; reflexivity|].
        rewrite widget_opened_app, Hw0. simpl.
        apply (server_events_not_invoked _ Fs). }
      unfold ensure_midtrans_order_id in R.
      destruct (truthy_str (midtrans_order_id order)).
      - apply (K (default "" (midtrans_order_id order)) w []);
          [rewrite app_nil_r; reflexivity|reflexivity|exact R].
      - revert R. run_monad.
        destruct (store_error Ω _) as [m|]; simpl; [discriminate|].
        intros R. refine (K _ _ [_] _ _ R); reflexivity. }
    destruct W as (evs & Ev1 & Hw1).
    erewrite (new_events_app w)
      by (rewrite Ev, Ev1, <- app_assoc; reflexivity).
    split.
    + rewrite widget_opened_app, Hw1. reflexivity.
    + apply last_app_two.
Qed.

(** Retrying order A against a store that refuses to save its token: the
    widget opens all the same and the stored order has no token. *)
Lemma retry_token_save_failure_is_swallowed_witness :
  let Ω := with_store_error refuse_token_of_A example_oracle in
  let run := retryPayment Ω example_user order_A example_world in
  run.1 = Return tt
  /\ widget_opened (new_events example_world run.2) = ["snap-token-1"]
  /\ exists row',
       orders (store run.2) !! "A" = Some row' /\ snap_token row' = None.
Proof.
  intros Ω run.
  destruct (retry_token_save_failure_is_swallowed Ω example_user order_A
              example_world "snap-token-1"
              (Some "https://pay.example/redirect/1") (columns order_A)
              "timeout")
    as (H1 & H2 & H3).
  - reflexivity.
  - vm_compute. reflexivity.
  - discriminate.
  - reflexivity.
  - reflexivity.
  - split; [exact H1|]. split; [exact (proj1 (H3 eq_refl))|exact H2].
Defined.

(** ** The checkout once the order is stored *)

(** A checkout that passes its guards and stores the order and its line
    items continues with the payment step. *)
Lemma handleCheckout_stored Ω h cartItems w u selectedChild :
  order_stored Ω h cartItems w u selectedChild ->
  handleCheckout Ω h cartItems w
  = try_catch
      (checkout_payment Ω u selectedChild cartItems
         (new_order_id Ω, checkout_order Ω h u cartItems selectedChild w))
      checkout_failed
      (order_stored_world Ω h u cartItems selectedChild w).
Proof.
  intros (Hu & Hc & Hne & Hchild & Ho & Hl). unfold handleCheckout.
  unfold checkout_child_id in *.
  rewrite Hu, (length_eqb_nonempty _ Hc), (eqb_nonempty _ Hne), Hchild.
  unfold checkout_rows, checkout_order, checkout_child_id in *.
  unfold try_catch at 1. unfold mbind at 1, M_bind at 1.
  unfold draw_stamp at 1. cbv beta iota zeta.
  unfold mbind at 1, M_bind at 1. unfold store_request at 1.
  cbn [fst snd store events console_errors stamps_drawn].
  rewrite Ho. cbv beta iota zeta.
  unfold mbind at 1, M_bind at 1. unfold store_request at 1.
  cbn [fst snd store events console_errors stamps_drawn].
  rewrite Hl. cbv beta iota zeta.
  unfold order_stored_world, checkout_rows, checkout_order, checkout_child_id.
  cbn [fst snd store events console_errors stamps_drawn].
  rewrite <- !app_assoc. reflexivity.
Qed.

(** Every call of the function from the client, with all it can do to the
    world. *)
Lemma functions_invoke_cases Ω body w :
  exists r w' evs,
    functions_invoke Ω body w = (Return r, w')
    /\ events w' = events w ++ Invoke body :: evs
    /\ Forall server_event evs
    /\ only_batch_rows_added (store w) (store w')
    /\ stamps_drawn w' = stamps_drawn w.
Proof.
  set (w0 := mkWorld (store w) (events w ++ [Invoke body]) (console_errors w)
                     (stamps_drawn w)).
  destruct (serve_cases Ω body w0)
    as (resp & w' & evs & E & Ev & Fs & St & Sd & _).
  eexists _, w', evs. rewrite (functions_invoke_of_serve Ω body w resp w' E).
  split; [reflexivity|].
  split; [rewrite Ev; simpl; rewrite <- app_assoc; reflexivity|].
  split; [exact Fs|]. split; [exact St|exact Sd].
Qed.

(** The payment step of a checkout: the gateway order id is saved, the
    function is called once, and the step ends in one of three ways. *)
Lemma checkout_payment_cases Ω u selectedChild cartItems oid row w :
  let mid := "ORDER-" +:+ stamp Ω (stamps_drawn w) in
  let save := UpdateOrder oid (midtrans_id_patch mid) in
  let body := checkout_request u selectedChild cartItems mid in
  let orders1 :=
    match store_error Ω save with
    | Some _ => orders (store w)
    | None => alter (apply_patch (midtrans_id_patch mid)) oid
                    (orders (store w))
    end in
  exists res w' sevs tail,
    try_catch (checkout_payment Ω u selectedChild cartItems (oid, row))
              checkout_failed w
    = (res, w')
    /\ events w'
       = events w
         ++ StoreRequest save (bool_decide (store_error Ω save = None))
            :: Invoke body :: sevs ++ tail
    /\ Forall server_event sevs
    /\ order_line_items (store w') = order_line_items (store w)
    /\ ((exists message,
           res = Return None
           /\ tail = [Toast "Error Pembayaran" message true]
           /\ orders (store w') = orders1)
        \/ (exists t,
              t <> ""
              /\ res = Return (Some (oid, row))
              /\ tail
                 = [StoreRequest (UpdateOrder oid (token_patch t))
                      (bool_decide
                         (store_error Ω (UpdateOrder oid (token_patch t))
                          = None));
                    if window_snap Ω then SnapPay t
                    else Toast "Error"
                           "Sistem pembayaran belum siap. Silakan refresh halaman."
                           true]
              /\ orders (store w')
                 = match store_error Ω (UpdateOrder oid (token_patch t)) with
                   | Some _ => orders1
                   | None => alter (apply_patch (token_patch t)) oid orders1
                   end)
        \/ (res = Throw "Token pembayaran tidak diterima"
            /\ tail = [Toast "Error" "Token pembayaran tidak diterima" true]
            /\ orders (store w') = orders1)).
Proof.
  intros mid save body orders1.
  unfold checkout_payment.
  rewrite try_catch_bind. unfold draw_stamp at 1. cbv beta iota zeta.
  fold mid. fold (midtrans_id_patch mid). fold save. fold body.
  cbn [fst].
  set (w0 := mkWorld (store w) (events w) (console_errors w)
                     (S (stamps_drawn w))).
  assert (K : forall w1 : World,
             exists res w' sevs tail,
               try_catch
                 (functions_invoke Ω body
                  ≫= λ r : InvokeResult,
                    match error r with
                    | Some message =>
                        console_error "Payment error:";;
                        toast "Error Pembayaran"
                              (str_or (Some message)
                                      "Gagal membuat pembayaran") true;;
                        mret None
                    | None =>
                        if truthy_str (data r ≫= fst)
                        then
                          store_request Ω
                            (UpdateOrder oid
                               (token_patch (default "" (data r ≫= fst))));;
                          snap_pay Ω (default "" (data r ≫= fst))
                            (console_error "Midtrans Snap not loaded";;
                             toast "Error"
                               "Sistem pembayaran belum siap. Silakan refresh halaman."
                               true);;
                          mret (Some (oid, row))
                        else throw "Token pembayaran tidak diterima"
                    end)
                 checkout_failed w1
               = (res, w')
               /\ events w' = events w1 ++ Invoke body :: sevs ++ tail
               /\ Forall server_event sevs
               /\ order_line_items (store w') = order_line_items (store w1)
               /\ ((exists message,
                      res = Return None
                      /\ tail = [Toast "Error Pembayaran" message true]
                      /\ orders (store w') = orders (store w1))
                   \/ (exists t,
                         t <> ""
                         /\ res = Return (Some (oid, row))
                         /\ tail
                            = [StoreRequest (UpdateOrder oid (token_patch t))
                                 (bool_decide
                                    (store_error Ω
                                       (UpdateOrder oid (token_patch t))
                                     = None));
                               if window_snap Ω then SnapPay t
                               else Toast "Error"
                                      "Sistem pembayaran belum siap. Silakan refresh halaman."
                                      true]
                         /\ orders (store w')
                            = match store_error Ω
                                      (UpdateOrder oid (token_patch t)) with
                              | Some _ => orders (store w1)
                              | None => alter (apply_patch (token_patch t)) oid
                                              (orders (store w1))
                              end)
                   \/ (res = Throw "Token pembayaran tidak diterima"
                       /\ tail = [Toast "Error"
                                    "Token pembayaran tidak diterima" true]
                       /\ orders (store w') = orders (store w1)))).
  { intros w1. rewrite try_catch_bind.
    destruct (functions_invoke_cases Ω body w1)
      as (r & w2 & sevs & E & Ev & Fs & (Os & Ls & _) & _).
    rewrite E. destruct r as [d [message|]]; cbn [error data].
    - run_monad. eexists _, _, sevs, _.
      split; [reflexivity|]. simpl. rewrite Ev, <- app_assoc. simpl.
      split; [reflexivity|]. split; [exact Fs|]. split; [exact Ls|].
      left. eexists. split; [reflexivity|]. split; [reflexivity|exact Os].
    - destruct (truthy_str (d ≫= fst)) eqn:T.
      + destruct (d ≫= fst) as [t|] eqn:D; [|discriminate].
        cbn [default].
        assert (Hne : t <> "") by (intros ->; discriminate).
        unfold snap_pay. run_monad.
        destruct (store_error Ω (UpdateOrder oid (token_patch t)))
          as [m|] eqn:S; destruct (window_snap Ω); simpl;
          eexists _, _, sevs, _; (split; [reflexivity|]); simpl;
          rewrite Ev, <- !app_assoc; simpl;
          (split; [reflexivity|]); (split; [exact Fs|]);
          (split; [exact Ls|]); right; left; exists t; rewrite S;
          (split; [exact Hne|]); (split; [reflexivity|]);
          (split; [reflexivity|]); rewrite ?Os; reflexivity.
      + unfold checkout_failed. run_monad. eexists _, _, sevs, _.
        split; [reflexivity|]. simpl. rewrite Ev, <- app_assoc. simpl.
        split; [reflexivity|]. split; [exact Fs|]. split; [exact Ls|].
        right. right. split; [reflexivity|]. split; [reflexivity|exact Os]. }
  rewrite (try_catch_bind (store_request Ω save)).
  unfold store_request at 1.
  subst orders1.
  destruct (store_error Ω save) as [m|] eqn:S; cbv beta iota zeta.
  - rewrite (try_catch_bind (console_error _)).
    unfold console_error at 1. cbv beta iota zeta.
    cbn [store events console_errors stamps_drawn].
    match goal with
    | |- context [try_catch _ checkout_failed ?w1] =>
        destruct (K w1) as (res & w' & sevs & tail & E & Ev & Fs & Ls & H)
    end.
    exists res, w', sevs, tail. split; [exact E|].
    split; [rewrite Ev; simpl; rewrite <- app_assoc; reflexivity|].
    split; [exact Fs|]. split; [exact Ls|]. exact H.
  - rewrite (try_catch_bind (mret tt)).
    unfold mret at 1, M_ret at 1. cbv beta iota zeta.
    match goal with
    | |- context [try_catch _ checkout_failed ?w1] =>
        destruct (K w1) as (res & w' & sevs & tail & E & Ev & Fs & Ls & H)
    end.
    exists res, w', sevs, tail. split; [exact E|].
    split; [rewrite Ev; simpl; rewrite <- app_assoc; reflexivity|].
    split; [exact Fs|]. split; [exact Ls|]. exact H.
Qed.

Lemma server_events_not_delete evs :
  Forall server_event evs -> Forall (fun e => is_delete e = false) evs.
Proof.
  intros H. eapply Forall_impl; [exact H|].
  intros [[]| | | |]; simpl; try contradiction; auto.
Qed.

(** X13: once the order and its line items are stored, no outcome of the
    payment step removes them.  Whatever the function and the gateway
    answer and whatever the later updates do, the checkout calls the
    function exactly once, never requests a deletion, and leaves the
    order in the store, pending, with the cart's total, together with its
    line items; it ends with the order, with nothing (the function failed)
    or with the error "Token pembayaran tidak diterima". *)
Theorem checkout_keeps_stored_order Ω h cartItems w u selectedChild :
  order_stored Ω h cartItems w u selectedChild ->
  let oid := new_order_id Ω in
  let run := handleCheckout Ω h cartItems w in
  (exists row',
     orders (store run.2) !! oid = Some row'
     /\ total_amount row' = cart_total cartItems
     /\ status row' = "pending"
     /\ payment_status row' = "pending"
     /\ user_id row' = uid u)
  /\ order_line_items (store run.2)
     = order_line_items (store w) ++ checkout_rows Ω h cartItems selectedChild
  /\ Forall (fun e => is_delete e = false) (new_events w run.2)
  /\ invoked (new_events w run.2)
     = [checkout_request u selectedChild cartItems
          ("ORDER-" +:+ stamp Ω (S (stamps_drawn w)))]
  /\ (run.1 = Return None
      \/ run.1 = Return (Some (oid, checkout_order Ω h u cartItems
                                      selectedChild w))
      \/ run.1 = Throw "Token pembayaran tidak diterima").
Proof.
  intros Hs oid run. subst run.
  rewrite (handleCheckout_stored Ω h cartItems w u selectedChild Hs).
  set (row := checkout_order Ω h u cartItems selectedChild w).
  set (w1 := order_stored_world Ω h u cartItems selectedChild w).
  destruct (checkout_payment_cases Ω u selectedChild cartItems oid row w1)
    as (res & w' & sevs & tail & E & Ev & Fs & Ls & H).
  fold oid. rewrite E. cbn [fst snd].
  set (mid := "ORDER-" +:+ stamp Ω (stamps_drawn w1)) in *.
  set (save := UpdateOrder oid (midtrans_id_patch mid)) in *.
  assert (L1 : exists row1,
             match store_error Ω save with
             | Some _ => orders (store w1)
             | None => alter (apply_patch (midtrans_id_patch mid)) oid
                             (orders (store w1))
             end !! oid = Some row1
             /\ total_amount row1 = cart_total cartItems
             /\ status row1 = "pending"
             /\ payment_status row1 = "pending"
             /\ user_id row1 = uid u).
  { destruct (store_error Ω save).
    - exists row. split; [apply lookup_insert_eq|]. repeat split.
    - eexists. split.
      + rewrite lookup_alter_eq. simpl. fold oid.
        rewrite lookup_insert_eq. reflexivity.
      + repeat split. }
  destruct L1 as (row1 & L1 & T1 & S1 & P1 & U1).
  assert (Ev' : events w'
                = events w
                  ++ [StoreRequest (InsertOrder oid row) true;
                      StoreRequest
                        (InsertLineItems
                           (checkout_rows Ω h cartItems selectedChild)) true;
                      StoreRequest save
                        (bool_decide (store_error Ω save = None));
                      Invoke (checkout_request u selectedChild cartItems mid)]
                  ++ sevs ++ tail).
  { rewrite Ev. simpl. rewrite <- !app_assoc. reflexivity. }
  rewrite (new_events_app w w' _ Ev').
  destruct (server_events_not_invoked sevs Fs) as [Is _].
  split; [|split; [rewrite Ls; reflexivity|]].
  - destruct H as [(message & _ & _ & ->)|[(t & _ & _ & _ & ->)|(_ & _ & ->)]].
    + exists row1. auto.
    + destruct (store_error Ω (UpdateOrder oid (token_patch t))).
      * exists row1. auto.
      * exists (apply_patch (token_patch t) row1).
        rewrite lookup_alter_eq, L1. repeat split; assumption.
    + exists row1. auto.
  - split; [|split].
    + repeat (apply Forall_cons; split; [reflexivity|]).
      apply Forall_app. split; [apply server_events_not_delete; exact Fs|].
      destruct H as [(message & _ & -> & _)|[(t & _ & _ & -> & _)|(_ & -> & _)]].
      * repeat constructor.
      * destruct (window_snap Ω); repeat constructor.
      * repeat constructor.
    + rewrite !invoked_app, Is. simpl.
      destruct H as [(message & _ & -> & _)|[(t & _ & _ & -> & _)|(_ & -> & _)]].
      * reflexivity.
      * destruct (window_snap Ω); reflexivity.
      * reflexivity.
    + destruct H as [(message & -> & _)|[(t & _ & -> & _)|(-> & _)]]; auto.
Qed.

(** The checkout of the example cart against a gateway that rejects every
    transaction: the order stays in the store, pending. *)
Lemma checkout_keeps_stored_order_witness :
  let Ω := with_gateway rejecting_gateway example_oracle in
  let run := handleCheckout Ω example_hook example_cart example_world in
  run.1 = Return None
  /\ exists row',
       orders (store run.2) !! "order-new" = Some row'
       /\ total_amount row' = cart_total example_cart
       /\ payment_status row' = "pending".
Proof.
  intros Ω run.
  destruct (checkout_keeps_stored_order Ω example_hook example_cart
              example_world
              {| uid := "parent-1"; user_email := Some "ibu@example.com";
                 full_name := Some "Ibu Budi"; user_phone := None |}
              {| ch_id := "child-1"; ch_name := "Budi"; class_name := "3A" |})
    as ((row' & L & T & _ & P & _) & _).
  - repeat split; try discriminate; reflexivity.
  - split; [vm_compute; reflexivity|].
    exists row'. split; [exact L|]. split; [exact T|exact P].
Defined.

(** X14: the whole of a successful checkout.  When the function accepts the
    request, the gateway grants a token and the store carries every request
    out, the checkout makes exactly these steps in this order: the order is
    inserted, its line items are inserted, the gateway order id is saved,
    the function is called, the gateway is called once with that order id
    and the rounded cart total, the token is saved, and the widget is
    opened with the token.  The stored order then carries the order id the
    gateway knows and the token. *)
Theorem checkout_success Ω h cartItems w u selectedChild t r :
  order_stored Ω h cartItems w u selectedChild ->
  let oid := new_order_id Ω in
  let row := checkout_order Ω h u cartItems selectedChild w in
  let mid := "ORDER-" +:+ stamp Ω (S (stamps_drawn w)) in
  let body := checkout_request u selectedChild cartItems mid in
  let p := midtransPayload mid (cart_total cartItems) body in
  (0 < cart_total cartItems)%Q ->
  truthy_str (MIDTRANS_SERVER_KEY (deno_env Ω)) = true ->
  gateway Ω p = HttpOk (Some t) r ->
  t <> "" ->
  store_error Ω (UpdateOrder oid (midtrans_id_patch mid)) = None ->
  store_error Ω (UpdateOrder oid (token_patch t)) = None ->
  let run := handleCheckout Ω h cartItems w in
  run.1 = Return (Some (oid, row))
  /\ new_events w run.2
     = [ StoreRequest (InsertOrder oid row) true;
         StoreRequest
           (InsertLineItems (checkout_rows Ω h cartItems selectedChild)) true;
         StoreRequest (UpdateOrder oid (midtrans_id_patch mid)) true;
         Invoke body;
         GatewayCall p;
         StoreRequest (UpdateOrder oid (token_patch t)) true;
         if window_snap Ω then SnapPay t
         else Toast "Error"
                "Sistem pembayaran belum siap. Silakan refresh halaman." true ]
  /\ exists row',
       orders (store run.2) !! oid = Some row'
       /\ midtrans_order_id row' = Some (order_id (transaction_details p))
       /\ snap_token row' = Some t
       /\ payment_status row' = "pending"
       /\ total_amount row' = cart_total cartItems.
Proof.
  intros Hs oid row mid body p Hpos Hkey Hg Hne Hmid Htok run.
  assert (R : exists w',
             run = (Return (Some (oid, row)), w')
             /\ events w'
                = events w
                  ++ [ StoreRequest (InsertOrder oid row) true;
                       StoreRequest
                         (InsertLineItems
                            (checkout_rows Ω h cartItems selectedChild)) true;
                       StoreRequest (UpdateOrder oid (midtrans_id_patch mid))
                                    true;
                       Invoke body;
                       GatewayCall p;
                       StoreRequest (UpdateOrder oid (token_patch t)) true;
                       if window_snap Ω then SnapPay t
                       else Toast "Error"
                              "Sistem pembayaran belum siap. Silakan refresh halaman."
                              true ]
             /\ orders (store w')
                = alter (apply_patch (token_patch t)) oid
                    (alter (apply_patch (midtrans_id_patch mid)) oid
                       (<[oid := row]> (orders (store w))))).
  { subst run.
    rewrite (handleCheckout_stored Ω h cartItems w u selectedChild Hs).
    fold oid. fold row.
    set (w1 := order_stored_world Ω h u cartItems selectedChild w).
    unfold checkout_payment.
    rewrite try_catch_bind. unfold draw_stamp at 1. cbv beta iota zeta.
    change (stamps_drawn w1) with (S (stamps_drawn w)).
    fold mid. fold (midtrans_id_patch mid). fold body. cbn [fst].
    rewrite (try_catch_bind (store_request Ω _)).
    unfold store_request at 1. rewrite Hmid. cbv beta iota zeta.
    rewrite (try_catch_bind (mret tt)).
    unfold mret at 1, M_ret at 1. cbv beta iota zeta.
    rewrite (try_catch_bind (functions_invoke Ω body)).
    match goal with
    | |- context [functions_invoke Ω body ?w2] =>
        destruct (functions_invoke_granted Ω body mid (cart_total cartItems)
                    w2 (Some t) r)
          as (w3 & E & Ev & St & Sd)
    end.
    { split; [reflexivity|]. split; [discriminate|].
      split; [reflexivity|]. split; [exact Hpos|exact Hkey]. }
    { reflexivity. }
    { exact Hg. }
    rewrite E. cbn [error data mbind option_bind fst].
    rewrite (truthy_str_Some _ Hne). cbn [default].
    unfold snap_pay. run_monad. rewrite Htok.
    cbn [store events] in Ev, St.
    destruct (window_snap Ω); simpl; eexists; (split; [reflexivity|]);
      simpl; rewrite Ev, St; simpl; rewrite <- !app_assoc; simpl;
      split; reflexivity. }
  destruct R as (w' & -> & Ev & St). cbn [fst snd].
  split; [reflexivity|].
  split; [apply new_events_app; exact Ev|].
  rewrite St. eexists. split.
  - rewrite !lookup_alter_eq, lookup_insert_eq. reflexivity.
  - repeat split.
Qed.

(** The checkout of the example cart: seven steps, the last one opening the
    widget with the granted token. *)
Lemma checkout_success_witness :
  let run := handleCheckout example_oracle example_hook example_cart
                            example_world in
  length (new_events example_world run.2) = 7%nat
  /\ widget_opened (new_events example_world run.2) = ["snap-token-1"]
  /\ exists row',
       orders (store run.2) !! "order-new" = Some row'
       /\ snap_token row' = Some "snap-token-1".
Proof.
  intros run.
  destruct (checkout_success example_oracle example_hook example_cart
              example_world
              {| uid := "parent-1"; user_email := Some "ibu@example.com";
                 full_name := Some "Ibu Budi"; user_phone := None |}
              {| ch_id := "child-1"; ch_name := "Budi"; class_name := "3A" |}
              "snap-token-1" (Some "https://pay.example/redirect/1"))
    as (_ & Ev & row' & L & _ & T & _).
  - repeat split; try discriminate; reflexivity.
  - reflexivity.
  - reflexivity.
  - reflexivity.
  - discriminate.
  - reflexivity.
  - reflexivity.
  - unfold run. rewrite Ev. split; [reflexivity|]. split; [reflexivity|].
    exists row'. split; [exact L|exact T].
Defined.

(** ** What the gateway receives from a checkout *)

Lemma cart_total_from acc (l : list CartItem) :
  foldl (fun sum item => (sum + ci_price item * ci_quantity item)%Q) acc l
  == acc + Qsum (map cart_line_value l).
Proof.
  revert acc. induction l as [|item l IH]; intros acc; simpl.
  - rewrite Qplus_0_r. reflexivity.
  - rewrite IH, Qplus_assoc. reflexivity.
Qed.

Lemma cart_total_sum (l : list CartItem) :
  cart_total l == Qsum (map cart_line_value l).
Proof. unfold cart_total. rewrite cart_total_from. apply Qplus_0_l. Qed.

Lemma num_or_whole q d : ~ q == 0 -> num_or (Some q) d = q.
Proof.
  intros H. unfold num_or.
  destruct (Qeq_bool q 0) eqn:E; [|reflexivity].
  apply Qeq_bool_iff in E. contradiction.
Qed.

Lemma Math_round_whole_price p :
  is_integer p -> inject_Z (Math_round (num_or (Some p) 0)) == p.
Proof.
  intros Hp.
  pose proof (line_value_whole None None p 1 Hp) as H.
  unfold line_value in H. cbn [in_price in_quantity] in H.
  assert (H1 : ~ 1 == 0) by discriminate.
  specialize (H H1). rewrite (num_or_whole 1 1 H1) in H.
  rewrite !Qmult_1_r in H. exact H.
Qed.

(** The lines of a cart of whole prices, as the handler normalises them. *)
Lemma normalized_cart_lines k (selectedChild : Child) (l : list CartItem) :
  whole_cart l ->
  Forall2 (fun d item =>
             inject_Z (price d) == ci_price item
             /\ quantity d = ci_quantity item)
          (imap (fun i => normalize_item (k + i))
                (map (fun item =>
                        {| in_id := Some (menu_item_id item);
                           in_price := Some (ci_price item);
                           in_quantity := Some (ci_quantity item);
                           in_name :=
                             Some (ci_name item +:+ " - "
                                   +:+ ch_name selectedChild) |}) l))
          l.
Proof.
  intros H. revert k. induction H as [|item l [Hp Hq] _ IH]; intros k.
  - constructor.
  - simpl. constructor.
    + split; [apply Math_round_whole_price; exact Hp
             |apply num_or_whole; exact Hq].
    + rewrite (imap_ext _ (fun i => normalize_item (S k + i))).
      * apply IH.
      * intros i x _. simpl. f_equal. lia.
Qed.

(** X15: a checkout is always billed line by line.  For a cart of whole
    prices and non-zero quantities, the amount the checkout sends is the
    total of the lines it sends, so the function never replaces the
    itemisation by the summary line: the gateway receives one line per
    cart item, with the price and the quantity of that item, and the lines
    add up to the cart total. *)
Theorem checkout_itemisation u selectedChild cartItems mid :
  whole_cart cartItems ->
  cartItems <> [] ->
  let body := checkout_request u selectedChild cartItems mid in
  let sent := item_details (midtransPayload mid (cart_total cartItems) body) in
  sent = imap normalize_item (default [] (itemDetails body))
  /\ Forall2 (fun d item =>
                inject_Z (price d) == ci_price item
                /\ quantity d = ci_quantity item)
             sent cartItems
  /\ items_total sent == cart_total cartItems.
Proof.
  intros Hw Hne body sent. subst sent body. unfold midtransPayload.
  cbn [item_details checkout_request itemDetails batchOrderIds default].
  set (inputs := map _ cartItems).
  assert (V : Qsum (map line_value inputs) == Qsum (map cart_line_value cartItems)).
  { subst inputs. clear Hne.
    induction Hw as [|item l [Hp Hq] _ IH]; [reflexivity|].
    simpl. rewrite IH, (line_value_whole _ _ _ _ Hp Hq). reflexivity. }
  assert (T : items_total (imap normalize_item inputs)
              == cart_total cartItems).
  { rewrite items_total_normalized, V, cart_total_sum. reflexivity. }
  assert (M : total_mismatch inputs (cart_total cartItems) = false).
  { apply not_true_is_false. intros M. apply total_mismatch_spec in M.
    apply M. exact T. }
  unfold finalItemDetails.
  destruct inputs as [|i rest] eqn:Ei.
  - destruct cartItems; [congruence|discriminate].
  - rewrite M. split; [reflexivity|]. split; [|exact T].
    rewrite <- Ei. apply (normalized_cart_lines 0). exact Hw.
Qed.

(** The example cart is billed as its two lines. *)
Lemma checkout_itemisation_witness :
  map quantity
      (item_details
         (midtransPayload "ORDER-1" (cart_total example_cart)
            (checkout_request
               {| uid := "parent-1"; user_email := Some "ibu@example.com";
                  full_name := Some "Ibu Budi"; user_phone := None |}
               {| ch_id := "child-1"; ch_name := "Budi"; class_name := "3A" |}
               example_cart "ORDER-1")))
  = [2%Q; 1%Q].
Proof.
  destruct (checkout_itemisation
              {| uid := "parent-1"; user_email := Some "ibu@example.com";
                 full_name := Some "Ibu Budi"; user_phone := None |}
              {| ch_id := "child-1"; ch_name := "Budi"; class_name := "3A" |}
              example_cart "ORDER-1") as (E & _).
  - repeat constructor; try (vm_compute; reflexivity); discriminate.
  - discriminate.
  - rewrite E. reflexivity.
Defined.

(** ** The guards of the checkout *)

(** X16: nothing is paid for an order that is not stored.  Either the
    checkout passes its guards and the store carries out the insertion of
    the order and of its line items, or the checkout never calls the
    function, never reaches the gateway, never opens the widget, returns no
    order, and ends on a destructive "Error" toast. *)
Theorem payment_requires_stored_order Ω h cartItems w :
  let run := handleCheckout Ω h cartItems w in
  let evs := new_events w run.2 in
  (exists u selectedChild, order_stored Ω h cartItems w u selectedChild)
  \/ (invoked evs = []
      /\ payloads evs = []
      /\ widget_opened evs = []
      /\ (forall o, run.1 <> Return (Some o))
      /\ exists description, last evs = Some (Toast "Error" description true)).
Proof.
  intros run evs. subst evs run.
  destruct (user h) as [u|] eqn:Hu.
  2:{ right. unfold handleCheckout. rewrite Hu. run_monad.
      erewrite (new_events_app w) by (simpl; reflexivity).
      repeat split; try discriminate. eexists. reflexivity. }
  destruct (decide (cartItems = [])) as [->|Hc].
  { right. unfold handleCheckout. rewrite Hu. run_monad.
    erewrite (new_events_app w) by (simpl; reflexivity).
    repeat split; try discriminate. eexists. reflexivity. }
  destruct (decide (checkout_child_id h cartItems = "")) as [Hi|Hi].
  { right. unfold handleCheckout, checkout_child_id in *.
    rewrite Hu, (length_eqb_nonempty _ Hc), Hi. run_monad.
    erewrite (new_events_app w) by (simpl; reflexivity).
    repeat split; try discriminate. eexists. reflexivity. }
  destruct (find_selected_child (children h) cartItems
              (checkout_child_id h cartItems)) as [child|] eqn:Hchild.
  2:{ right. unfold handleCheckout, checkout_child_id in *.
      rewrite Hu, (length_eqb_nonempty _ Hc), (eqb_nonempty _ Hi), Hchild.
      run_monad.
      erewrite (new_events_app w) by (simpl; reflexivity).
      repeat split; try discriminate. eexists. reflexivity. }
  destruct (store_error Ω (InsertOrder (new_order_id Ω)
                             (checkout_order Ω h u cartItems child w)))
    as [m|] eqn:Ho.
  { right. unfold handleCheckout, checkout_order, checkout_child_id in *.
    rewrite Hu, (length_eqb_nonempty _ Hc), (eqb_nonempty _ Hi), Hchild.
    unfold try_catch, mbind, M_bind, draw_stamp, store_request.
    cbv beta iota zeta. cbn [fst snd store events console_errors stamps_drawn].
    rewrite Ho. run_monad.
    erewrite (new_events_app w)
      by (simpl; rewrite <- !app_assoc; reflexivity).
    repeat split; try discriminate. eexists. reflexivity. }
  destruct (store_error Ω (InsertLineItems
                             (checkout_rows Ω h cartItems child)))
    as [m|] eqn:Hl.
  2:{ left. exists u, child. repeat split; assumption. }
  right.
  unfold handleCheckout, checkout_order, checkout_rows in *.
  fold (checkout_child_id h cartItems).
  rewrite Hu, (length_eqb_nonempty _ Hc), (eqb_nonempty _ Hi), Hchild.
  set (cid := checkout_child_id h cartItems) in *.
  unfold try_catch, mbind, M_bind, draw_stamp, store_request.
  cbv beta iota zeta. cbn [fst snd store events console_errors stamps_drawn].
  rewrite Ho.
  cbv beta iota zeta. cbn [fst snd store events console_errors stamps_drawn].
  rewrite Hl.
  cbv beta iota zeta. cbn [fst snd store events console_errors stamps_drawn].
  unfold console_error, throw, toast, emit.
  cbv beta iota zeta. cbn [fst snd store events console_errors stamps_drawn].
  destruct (store_error Ω (DeleteOrder (new_order_id Ω)));
    cbn [fst snd store events console_errors stamps_drawn];
    erewrite (new_events_app w)
      by (cbn [events]; rewrite <- !app_assoc; reflexivity);
    repeat split; try discriminate; eexists; reflexivity.
Qed.

(** ** Cash settlement when the store refuses a request *)

(** X17: the settlement of CashPaymentV2 is not atomic.  With enough money
    received, [handlePayment] updates the order first.  When the store
    refuses that update, nothing is written and no payment is requested.
    When the store carries the update out and then refuses the payment
    row, the order stays marked paid and confirmed although [payments]
    holds no row for it.  In both cases the run ends normally on the toast
    "Gagal memproses pembayaran". *)
Theorem handlePayment_store_failure Ω (order : Order) r w row :
  (total_amount order <= r)%Q ->
  orders (store w) !! key order = Some row ->
  let c := {| selectedOrder := Some order; receivedAmount := Some r |} in
  let update := UpdateOrder (key order) paid_confirmed in
  let pay := InsertPayment
               (cash_payment_row order
                  ("CASH-" +:+ stamp Ω (stamps_drawn w))) in
  let run := handlePayment Ω c w in
  let failed := Toast "Error" "Gagal memproses pembayaran" true in
  (forall message,
     store_error Ω update = Some message ->
     run.1 = Return tt
     /\ store run.2 = store w
     /\ new_events w run.2 = [StoreRequest update false; failed])
  /\ (forall message,
        store_error Ω update = None ->
        store_error Ω pay = Some message ->
        run.1 = Return tt
        /\ new_events w run.2
           = [StoreRequest update true; StoreRequest pay false; failed]
        /\ payments (store run.2) = payments (store w)
        /\ exists row',
             orders (store run.2) !! key order = Some row'
             /\ payment_status row' = "paid"
             /\ status row' = "confirmed").
Proof.
  intros Hr Hrow c update pay run failed. subst run c.
  unfold handlePayment, isValidPayment. cbn [selectedOrder receivedAmount].
  apply Qle_bool_iff in Hr. rewrite Hr.
  unfold try_catch, mbind, M_bind, draw_stamp, store_request.
  cbv beta iota zeta. cbn [store events console_errors stamps_drawn].
  fold update. fold (cash_payment_row order
                       ("CASH-" +:+ stamp Ω (stamps_drawn w))).
  fold pay. split.
  - intros message Hu. rewrite Hu. run_monad.
    split; [reflexivity|]. split; [reflexivity|].
    erewrite (new_events_app w)
      by (simpl; rewrite <- !app_assoc; reflexivity).
    reflexivity.
  - intros message Hu Hp. rewrite Hu.
    cbv beta iota zeta. cbn [store events console_errors stamps_drawn].
    rewrite Hp. run_monad.
    split; [reflexivity|].
    split; [erewrite (new_events_app w)
              by (simpl; rewrite <- !app_assoc; reflexivity);
            reflexivity|].
    split; [reflexivity|].
    exists (apply_patch paid_confirmed row).
    rewrite lookup_alter_eq, Hrow. repeat split.
Qed.

(** On the order of 50000 with a store that refuses the payment row: the
    order is paid and confirmed, [payments] is empty. *)
Lemma handlePayment_store_failure_witness :
  let Ω := with_store_error refuse_payments example_oracle in
  let run := handlePayment Ω {| selectedOrder := Some order_50000;
                                receivedAmount := Some 100000%Q |}
                           cashier_world in
  payments (store run.2) = []
  /\ exists row',
       orders (store run.2) !! "G" = Some row'
       /\ payment_status row' = "paid".
Proof.
  intros Ω run.
  destruct (handlePayment_store_failure Ω order_50000 100000%Q cashier_world
              (columns order_50000)) as (_ & H).
  - discriminate.
  - reflexivity.
  - destruct (H "permission denied for table payments" eq_refl eq_refl)
      as (_ & _ & Hp & row' & L & P & _).
    split; [exact Hp|]. exists row'. split; [exact L|exact P].
Defined.

(** X18: the settlement of the cashier page is not atomic either, in the
    other order.  With enough money received, [processPayment] records the
    cash payment first.  When the store refuses that row, nothing is
    written and the order is not updated.  When the store records the row
    and then refuses the update of the order, the cash payment stays
    recorded although the order keeps the payment status it had.  In both
    cases the run ends normally on the toast "Gagal memproses
    pembayaran". *)
Theorem processPayment_store_failure Ω formatPrice c (order : Order) w row :
  cashier_selectedOrder c = Some order ->
  (paymentAmount c <= cashier_receivedAmount c)%Q ->
  orders (store w) !! key order = Some row ->
  let cash := InsertCashPayment (cashier_payment_row Ω c order) in
  let update := UpdateOrder (key order) paid_cash in
  let run := processPayment Ω formatPrice c w in
  let failed := Toast "Error" "Gagal memproses pembayaran" true in
  (forall message,
     store_error Ω cash = Some message ->
     run.1 = Return tt
     /\ store run.2 = store w
     /\ new_events w run.2 = [StoreRequest cash false; failed])
  /\ (forall message,
        store_error Ω cash = None ->
        store_error Ω update = Some message ->
        run.1 = Return tt
        /\ new_events w run.2
           = [StoreRequest cash true; StoreRequest update false; failed]
        /\ cash_payments (store run.2)
           = cash_payments (store w) ++ [cashier_payment_row Ω c order]
        /\ orders (store run.2) !! key order = Some row).
Proof.
  intros Hs Hr Hrow cash update run failed. subst run.
  unfold processPayment. rewrite Hs.
  apply Qle_bool_iff in Hr. rewrite Hr. cbn [negb].
  unfold try_catch, mbind, M_bind, store_request.
  fold (cashier_payment_row Ω c order). fold cash. fold update. split.
  - intros message Hc. rewrite Hc. run_monad.
    split; [reflexivity|]. split; [reflexivity|].
    erewrite (new_events_app w)
      by (simpl; rewrite <- !app_assoc; reflexivity).
    reflexivity.
  - intros message Hc Hu. rewrite Hc.
    cbv beta iota zeta. cbn [store events console_errors stamps_drawn].
    rewrite Hu. run_monad.
    split; [reflexivity|].
    split; [erewrite (new_events_app w)
              by (simpl; rewrite <- !app_assoc; reflexivity);
            reflexivity|].
    split; [reflexivity|exact Hrow].
Qed.

(** On the order of 50000 with a store that refuses to update orders: the
    cash payment is recorded, the order is still pending. *)
Lemma processPayment_store_failure_witness :
  let Ω := with_store_error refuse_order_updates example_oracle in
  let c := setReceivedAmount 100000 (handleViewDetail order_50000) in
  let run := processPayment Ω example_formatPrice c cashier_world in
  length (cash_payments (store run.2)) = 1%nat
  /\ payment_status <$> orders (store run.2) !! "G" = Some "pending".
Proof.
  intros Ω c run.
  destruct (processPayment_store_failure Ω example_formatPrice c order_50000
              cashier_world (columns order_50000)) as (_ & H).
  - reflexivity.
  - discriminate.
  - reflexivity.
  - destruct (H "permission denied for table orders" eq_refl eq_refl)
      as (_ & _ & Hc & Ho).
    unfold run. split; [rewrite Hc; reflexivity|].
    change "G" with (key order_50000). rewrite Ho. reflexivity.
Defined.

(** ** The change of the cashier page *)

(** X19: the change the cashier page displays is the change it records.
    Whatever the state of the page, every cash payment row that
    [processPayment] asks the store to insert carries a change that is not
    negative, that equals [calculateChange] and that, added to the amount
    due, gives the amount received. *)
Theorem recorded_change_is_displayed_change Ω formatPrice c w :
  let run := processPayment Ω formatPrice c w in
  Forall (fun cash =>
            (change_amount cash == calculateChange c
             /\ 0 <= change_amount cash
             /\ received_amount cash == cp_amount cash + change_amount cash)%Q)
         (cash_rows_requested (new_events w run.2)).
Proof.
  intros run. subst run. unfold processPayment.
  destruct (cashier_selectedOrder c) as [order|].
  2:{ run_monad. unfold new_events. rewrite drop_all. constructor. }
  destruct (Qle_bool (paymentAmount c) (cashier_receivedAmount c)) eqn:Hr;
    cbn [negb].
  2:{ run_monad. erewrite (new_events_app w) by (simpl; reflexivity).
      constructor. }
  apply Qle_bool_iff in Hr.
  assert (Hc : (0 <= cashier_receivedAmount c - paymentAmount c)%Q) by lra.
  assert (G : (change_amount (cashier_payment_row Ω c order)
               == calculateChange c
               /\ 0 <= change_amount (cashier_payment_row Ω c order)
               /\ received_amount (cashier_payment_row Ω c order)
                  == cp_amount (cashier_payment_row Ω c order)
                     + change_amount (cashier_payment_row Ω c order))%Q).
  { unfold calculateChange. simpl. split; [|split; [exact Hc|lra]].
    symmetry. apply Q.max_r. exact Hc. }
  unfold try_catch, mbind, M_bind, store_request.
  fold (cashier_payment_row Ω c order).
  destruct (store_error Ω (InsertCashPayment (cashier_payment_row Ω c order))).
  - run_monad.
    erewrite (new_events_app w)
      by (simpl; rewrite <- !app_assoc; reflexivity).
    simpl. constructor; [exact G|constructor].
  - cbv beta iota zeta. cbn [store events console_errors stamps_drawn].
    destruct (store_error Ω (UpdateOrder (key order) paid_cash));
      run_monad;
      erewrite (new_events_app w)
        by (simpl; rewrite <- !app_assoc; reflexivity);
      simpl; (constructor; [exact G|constructor]).
Qed.

(** ** The cart of the menu page *)

Lemma find_map_preserved {A} (P : A -> bool) (f : A -> A) (l : list A) :
  (forall x, P (f x) = P x) ->
  List.find P (map f l) = f <$> List.find P l.
Proof.
  intros H. induction l as [|x l IH]; [reflexivity|].
  simpl. rewrite H. destruct (P x); [reflexivity|exact IH].
Qed.

Lemma find_app_last {A} (P : A -> bool) (l : list A) x :
  List.find P l = None -> P x = true -> List.find P (l ++ [x]) = Some x.
Proof.
  intros H Hx. induction l as [|y l IH]; simpl in *.
  - rewrite Hx. reflexivity.
  - destruct (P y); [discriminate|auto].
Qed.

Lemma num_or_value q : num_or (Some q) 0 == q.
Proof.
  unfold num_or. destruct (Qeq_bool q 0) eqn:E; [|reflexivity].
  apply Qeq_bool_iff in E. symmetry. exact E.
Qed.

(** A click that passes the guards reaches the update of the cart. *)
Lemma addToCart_passes now p menuItem selectedChild :
  can_add p selectedChild ->
  ch_id selectedChild = selectedChildForMenu p
  /\ addToCart now p menuItem
     = (match List.find (same_slot (mi_id menuItem) (dateString p)
                                   (ch_id selectedChild))
                        (page_cartItems p) with
        | Some existingItem =>
            map (fun item =>
                   if String.eqb (entry_id item) (entry_id existingItem)
                   then with_quantity (ci_quantity item + 1) item
                   else item) (page_cartItems p)
        | None => page_cartItems p ++ [newItem now p menuItem selectedChild]
        end,
        Toast "Ditambahkan ke Keranjang"
              (mi_name menuItem +:+ " untuk " +:+ ch_name selectedChild
               +:+ " berhasil ditambahkan") false).
Proof.
  intros (Hu & Hs & Hf). split.
  - apply find_some in Hf. destruct Hf as [_ Hf].
    apply String.eqb_eq. exact Hf.
  - unfold addToCart. destruct (page_user p) as [u|]; [|congruence].
    destruct (page_children p) as [|c cs] eqn:Ec; [discriminate|].
    cbn [length Nat.eqb]. rewrite (truthy_str_Some _ Hs). cbn [negb].
    rewrite Hf. reflexivity.
Qed.

(** X20: the plus button counts.  A click on the plus button of a menu
    card that passes the guards of [addToCart] raises the quantity the card
    displays for the selected child and date by exactly one, whether the
    cart already holds the entry or not, and shows the confirmation
    toast. *)
Theorem plus_button_counts now p menuItem selectedChild :
  can_add p selectedChild ->
  let click := addToCart now p menuItem in
  getItemQuantityInCart (setCartItems click.1 p) (mi_id menuItem)
  == getItemQuantityInCart p (mi_id menuItem) + 1
  /\ click.2
     = Toast "Ditambahkan ke Keranjang"
             (mi_name menuItem +:+ " untuk " +:+ ch_name selectedChild
              +:+ " berhasil ditambahkan") false.
Proof.
  intros Hc click. subst click.
  destruct (addToCart_passes now p menuItem selectedChild Hc) as [Hid ->].
  destruct Hc as (_ & Hs & _). cbn [fst snd]. split; [|reflexivity].
  unfold getItemQuantityInCart.
  cbn [setCartItems selectedChildForMenu dateString page_cartItems].
  rewrite (truthy_str_Some _ Hs). cbn [negb]. rewrite Hid.
  set (slot := same_slot (mi_id menuItem) (dateString p)
                         (selectedChildForMenu p)).
  destruct (List.find slot (page_cartItems p)) as [e|] eqn:F.
  - rewrite find_map_preserved.
    + rewrite F. cbn [fmap option_fmap option_map].
      rewrite String.eqb_refl. cbn [with_quantity cart_item ci_quantity].
      rewrite !num_or_value. reflexivity.
    + intros x. destruct (String.eqb (entry_id x) (entry_id e)); reflexivity.
  - rewrite (find_app_last slot _ _ F).
    + cbn [fmap option_fmap option_map newItem cart_item ci_quantity].
      rewrite num_or_value. reflexivity.
    + subst slot. unfold same_slot, newItem. simpl.
      rewrite <- Hid, !String.eqb_refl. reflexivity.
Qed.

(** Two clicks on the plus button of the example page: the card shows 2. *)
Lemma plus_button_counts_witness :
  let once := setCartItems (addToCart "1737331200000" example_page
                                      nasi_goreng).1 example_page in
  let twice := setCartItems (addToCart "1737331200001" once nasi_goreng).1
                            once in
  getItemQuantityInCart twice "menu-1" == 2.
Proof.
  intros once twice.
  destruct (plus_button_counts "1737331200001" once nasi_goreng
              {| ch_id := "child-1"; ch_name := "Budi"; class_name := "3A" |})
    as [H _].
  - repeat split; discriminate.
  - fold twice in H. rewrite H. reflexivity.
Defined.

(** ** The invariant of the cart *)

Lemma ids_of_update (c : MenuCartItem -> bool) (g : Q -> Q)
    (l : list MenuCartItem) :
  map entry_id
      (map (fun item => if c item then with_quantity (g (ci_quantity item)) item
                        else item) l)
  = map entry_id l.
Proof.
  rewrite map_map. apply map_ext. intros x. destruct (c x); reflexivity.
Qed.

Lemma NoDup_ids_inj (l : list MenuCartItem) x y :
  NoDup (map entry_id l) -> x ∈ l -> y ∈ l -> entry_id x = entry_id y ->
  x = y.
Proof.
  induction l as [|z l IH]; intros Hn Hx Hy E; [inversion Hx|].
  simpl in Hn. apply NoDup_cons in Hn as [Hz Hn].
  apply elem_of_cons in Hx as [->|Hx]; apply elem_of_cons in Hy as [->|Hy].
  - reflexivity.
  - exfalso. apply Hz. rewrite E.
    apply list_elem_of_In, in_map, list_elem_of_In. exact Hy.
  - exfalso. apply Hz. rewrite <- E.
    apply list_elem_of_In, in_map, list_elem_of_In. exact Hx.
  - auto.
Qed.

(** What [find] by id returns in a cart of distinct ids. *)
Lemma find_by_id (l : list MenuCartItem) (e : MenuCartItem) :
  NoDup (map entry_id l) -> e ∈ l ->
  List.find (fun item => String.eqb (entry_id item) (entry_id e)) l = Some e.
Proof.
  intros Hn He.
  destruct (List.find (fun item => String.eqb (entry_id item) (entry_id e)) l)
    as [x|] eqn:F.
  - apply find_some in F as [Hx E]. apply String.eqb_eq in E.
    apply list_elem_of_In in Hx.
    rewrite (NoDup_ids_inj l x e Hn Hx He E). reflexivity.
  - exfalso. apply list_elem_of_In in He.
    pose proof (find_none _ _ F e He) as N. simpl in N.
    rewrite String.eqb_refl in N. discriminate.
Qed.

Lemma whole_above_one q :
  is_integer q -> (1 < q)%Q -> is_integer (q - 1) /\ (1 <= q - 1)%Q.
Proof.
  intros Hi Hq. split.
  - apply is_integer_plus; [exact Hi|]. apply (is_integer_inject (-1)).
  - apply is_integer_iff in Hi as [z Hz]. rewrite Hz in *.
    change 1%Q with (inject_Z 1) in *.
    rewrite <- Zlt_Qlt in Hq.
    assert (H2 : (2 <= z)%Z) by lia.
    rewrite Zle_Qle in H2. change (inject_Z 2) with 2%Q in H2.
    change (inject_Z 1) with 1%Q. lra.
Qed.

Lemma whole_plus_one q :
  is_integer q -> (1 <= q)%Q -> is_integer (q + 1) /\ (1 <= q + 1)%Q.
Proof.
  intros Hi Hq. split; [|lra].
  apply is_integer_plus; [exact Hi|]. apply (is_integer_inject 1).
Qed.

Lemma addToCart_well_formed now p menuItem :
  cart_well_formed (page_cartItems p) ->
  (forall selectedChild,
     entry_id (newItem now p menuItem selectedChild)
     ∉ map entry_id (page_cartItems p)) ->
  cart_well_formed (addToCart now p menuItem).1.
Proof.
  intros [Hn Hq] Hfresh. unfold addToCart.
  destruct (page_user p); [|split; assumption].
  destruct (length (page_children p) =? 0)%nat; [split; assumption|].
  destruct (negb (truthy_str (Some (selectedChildForMenu p))));
    [split; assumption|].
  destruct (List.find _ (page_children p)) as [child|]; [|split; assumption].
  cbn [fst].
  destruct (List.find _ (page_cartItems p)) as [e|].
  - split.
    + rewrite (ids_of_update _ (fun q => q + 1)%Q). exact Hn.
    + apply List.Forall_map. eapply Forall_impl; [exact Hq|].
      intros x [Hi H1]. simpl.
      destruct (String.eqb (entry_id x) (entry_id e)); [|split; assumption].
      apply whole_plus_one; assumption.
  - split.
    + rewrite map_app. simpl. apply NoDup_app. split; [exact Hn|].
      split; [|apply NoDup_singleton].
      intros i Hi Hin. apply list_elem_of_singleton in Hin. subst i.
      exact (Hfresh child Hi).
    + apply Forall_app. split; [exact Hq|].
      constructor; [|constructor]. split; [|discriminate].
      apply (is_integer_inject 1).
Qed.

Lemma filter_well_formed itemId (l : list MenuCartItem) :
  cart_well_formed l ->
  cart_well_formed (filter (fun item => entry_id item <> itemId) l).
Proof.
  intros [Hn Hq]. split.
  - clear Hq. induction l as [|x l IH]; [constructor|].
    simpl in Hn. apply NoDup_cons in Hn as [Hx Hn].
    rewrite filter_cons. destruct (decide (entry_id x <> itemId)).
    + simpl. apply NoDup_cons. split; [|auto].
      intros Hin. apply Hx.
      apply list_elem_of_In, in_map_iff in Hin as (y & E & Hy).
      apply list_elem_of_In, list_elem_of_filter in Hy as [_ Hy].
      rewrite <- E. apply list_elem_of_In, in_map, list_elem_of_In. exact Hy.
    + auto.
  - apply Forall_forall. intros x Hx.
    apply list_elem_of_filter in Hx as [_ Hx].
    exact (proj1 (Forall_forall _ _) Hq x Hx).
Qed.

Lemma removeFromCart_well_formed itemId (l : list MenuCartItem) :
  cart_well_formed l -> cart_well_formed (removeFromCart itemId l).
Proof.
  intros Hw. unfold removeFromCart.
  destruct (List.find _ l) as [e|] eqn:F; [|apply filter_well_formed; exact Hw].
  destruct (Qle_bool (ci_quantity e) 1) eqn:Q1; cbn [negb];
    [apply filter_well_formed; exact Hw|].
  destruct Hw as [Hn Hq].
  apply find_some in F as [He E]. apply String.eqb_eq in E.
  apply list_elem_of_In in He. split.
  - rewrite (ids_of_update _ (fun q => q - 1)%Q). exact Hn.
  - apply List.Forall_map. apply Forall_forall. intros x Hx. simpl.
    pose proof (proj1 (Forall_forall _ _) Hq x Hx) as [Hi H1].
    destruct (String.eqb (entry_id x) itemId) eqn:Ex; [|split; assumption].
    apply String.eqb_eq in Ex.
    assert (x = e) by (apply (NoDup_ids_inj l); congruence). subst x.
    apply whole_above_one; [exact Hi|].
    apply Qnot_le_lt. intros Hle. apply Qle_bool_iff in Hle. congruence.
Qed.

(** X21: the cart stays well formed.  If the entries of the cart have
    distinct ids and whole quantities of at least one, they still have
    after any click on a plus button (provided [Date.now()] makes an id no
    entry has yet) and after any [removeFromCart]: a quantity never drops
    to zero or below, an entry that would is removed instead. *)
Theorem cart_stays_well_formed now p menuItem itemId :
  cart_well_formed (page_cartItems p) ->
  (forall selectedChild,
     entry_id (newItem now p menuItem selectedChild)
     ∉ map entry_id (page_cartItems p)) ->
  cart_well_formed (addToCart now p menuItem).1
  /\ cart_well_formed (removeFromCart itemId (page_cartItems p))
  /\ Forall (fun item : MenuCartItem => ~ ci_quantity item == 0)
            (removeFromCart itemId (addToCart now p menuItem).1).
Proof.
  intros Hw Hfresh.
  pose proof (addToCart_well_formed now p menuItem Hw Hfresh) as Ha.
  split; [exact Ha|]. split; [apply removeFromCart_well_formed; exact Hw|].
  destruct (removeFromCart_well_formed itemId _ Ha) as [_ Hq].
  eapply Forall_impl; [exact Hq|]. intros x [_ H1] H0. rewrite H0 in H1.
  apply (Qlt_irrefl 0). eapply Qlt_le_trans; [|exact H1]. reflexivity.
Qed.

(** The cart after one click on the example page is well formed. *)
Lemma cart_stays_well_formed_witness :
  cart_well_formed (addToCart "1737331200000" example_page nasi_goreng).1.
Proof.
  refine (proj1 (cart_stays_well_formed "1737331200000" example_page
                   nasi_goreng "none" _ _)).
  - split; constructor.
  - intros selectedChild H. inversion H.
Defined.

(** ** The number of items of the cart *)

Lemma totalCartItems_from acc (l : list MenuCartItem) :
  foldl (fun sum (item : MenuCartItem) => (sum + ci_quantity item)%Q) acc l
  == acc + Qsum (map (fun item : MenuCartItem => ci_quantity item) l).
Proof.
  revert acc. induction l as [|item l IH]; intros acc; simpl.
  - rewrite Qplus_0_r. reflexivity.
  - rewrite IH, Qplus_assoc. reflexivity.
Qed.

Lemma totalCartItems_sum (l : list MenuCartItem) :
  totalCartItems l
  == Qsum (map (fun item : MenuCartItem => ci_quantity item) l).
Proof. unfold totalCartItems. rewrite totalCartItems_from. apply Qplus_0_l. Qed.

Lemma Qsum_cons x l : Qsum (x :: l) = (x + Qsum l)%Q.
Proof. reflexivity. Qed.

Lemma update_absent (g : Q -> Q) i (l : list MenuCartItem) :
  i ∉ map entry_id l ->
  map (fun item => if String.eqb (entry_id item) i
                   then with_quantity (g (ci_quantity item)) item
                   else item) l
  = l.
Proof.
  induction l as [|x l IH]; intros H; [reflexivity|].
  simpl in *. apply not_elem_of_cons in H as [Hx H].
  rewrite IH by exact H.
  destruct (String.eqb (entry_id x) i) eqn:E; [|reflexivity].
  apply String.eqb_eq in E. congruence.
Qed.

(** Changing the quantity of the entry with a given id changes the number
    of items by as much. *)
Lemma total_after_update (g : Q -> Q) (delta : Q) i (l : list MenuCartItem) :
  (forall q, g q == q + delta) ->
  NoDup (map entry_id l) -> i ∈ map entry_id l ->
  totalCartItems
    (map (fun item => if String.eqb (entry_id item) i
                      then with_quantity (g (ci_quantity item)) item
                      else item) l)
  == totalCartItems l + delta.
Proof.
  intros Hg Hn Hi. rewrite !totalCartItems_sum.
  induction l as [|x l IH]; [inversion Hi|].
  simpl in Hn, Hi. apply NoDup_cons in Hn as [Hx Hn].
  cbn [map]. rewrite !Qsum_cons.
  destruct (String.eqb (entry_id x) i) eqn:E.
  - apply String.eqb_eq in E. subst i.
    rewrite (update_absent g _ l Hx).
    cbn [with_quantity cart_item ci_quantity]. rewrite Hg. lra.
  - apply String.eqb_neq in E.
    apply elem_of_cons in Hi as [Hi|Hi]; [congruence|].
    rewrite (IH Hn Hi). lra.
Qed.

Lemma filter_absent i (l : list MenuCartItem) :
  i ∉ map entry_id l ->
  filter (fun item => entry_id item <> i) l = l.
Proof.
  induction l as [|x l IH]; intros H; [reflexivity|].
  simpl in H. apply not_elem_of_cons in H as [Hx H].
  rewrite filter_cons_True by congruence. rewrite IH by exact H. reflexivity.
Qed.

(** Removing the entry with a given id lowers the number of items by its
    quantity. *)
Lemma total_after_filter (e : MenuCartItem) (l : list MenuCartItem) :
  NoDup (map entry_id l) -> e ∈ l ->
  totalCartItems (filter (fun item => entry_id item <> entry_id e) l)
  == totalCartItems l - ci_quantity e.
Proof.
  intros Hn He. rewrite !totalCartItems_sum.
  induction l as [|x l IH]; [inversion He|].
  simpl in Hn. apply NoDup_cons in Hn as [Hx Hn].
  destruct (decide (entry_id x = entry_id e)) as [E|E].
  - rewrite filter_cons_False by (intros H; apply H; exact E).
    rewrite filter_absent by (rewrite <- E; exact Hx).
    assert (x = e).
    { apply (NoDup_ids_inj (x :: l)); [|left|exact He|exact E].
      simpl. apply NoDup_cons. split; assumption. }
    subst x. cbn [map]. rewrite Qsum_cons. lra.
  - rewrite filter_cons_True by exact E.
    apply elem_of_cons in He as [->|He]; [congruence|].
    cbn [map]. rewrite !Qsum_cons, (IH Hn He). lra.
Qed.

Lemma addToCart_total now p menuItem selectedChild :
  NoDup (map entry_id (page_cartItems p)) ->
  can_add p selectedChild ->
  totalCartItems (addToCart now p menuItem).1
  == totalCartItems (page_cartItems p) + 1.
Proof.
  intros Hn Hc.
  destruct (addToCart_passes now p menuItem selectedChild Hc) as [_ ->].
  cbn [fst].
  destruct (List.find _ (page_cartItems p)) as [e|] eqn:F.
  - apply find_some in F as [He _].
    apply (total_after_update (fun q => q + 1)%Q 1); [reflexivity|exact Hn|].
    apply list_elem_of_In, in_map. exact He.
  - rewrite !totalCartItems_sum, map_app, Qsum_app. cbn [map].
    rewrite Qsum_cons. cbn [Qsum foldr newItem cart_item ci_quantity]. lra.
Qed.

Lemma removeFromCart_total (e : MenuCartItem) (l : list MenuCartItem) :
  cart_well_formed l -> e ∈ l ->
  totalCartItems (removeFromCart (entry_id e) l) == totalCartItems l - 1.
Proof.
  intros [Hn Hq] He. unfold removeFromCart.
  rewrite (find_by_id l e Hn He).
  destruct (Qle_bool (ci_quantity e) 1) eqn:Q1; cbn [negb].
  - rewrite (total_after_filter e l Hn He).
    apply Qle_bool_iff in Q1.
    pose proof (proj1 (Forall_forall _ _) Hq e He) as [_ H1].
    assert (E : ci_quantity e == 1) by (apply Qle_antisym; assumption).
    rewrite E. reflexivity.
  - apply (total_after_update (fun q => q - 1)%Q (-1)); [|exact Hn|].
    + intros q. lra.
    + apply list_elem_of_In, in_map, list_elem_of_In. exact He.
Qed.

(** X22: the badge of the cart counts clicks.  In a well-formed cart a
    click on a plus button that passes the guards raises the number of
    items by exactly one, and removing an entry of the cart lowers it by
    exactly one, whether the entry's quantity is decreased or the entry
    leaves the cart. *)
Theorem badge_counts_clicks now p menuItem selectedChild (e : MenuCartItem) :
  cart_well_formed (page_cartItems p) ->
  (can_add p selectedChild ->
   totalCartItems (addToCart now p menuItem).1
   == totalCartItems (page_cartItems p) + 1)
  /\ (e ∈ page_cartItems p ->
      totalCartItems (removeFromCart (entry_id e) (page_cartItems p))
      == totalCartItems (page_cartItems p) - 1).
Proof.
  intros Hw. split.
  - intros Hc. apply (addToCart_total now p menuItem selectedChild);
      [exact (proj1 Hw)|exact Hc].
  - intros He. apply removeFromCart_total; assumption.
Qed.

(** One click on the example page: the badge shows 1. *)
Lemma badge_counts_clicks_witness :
  totalCartItems (addToCart "1737331200000" example_page nasi_goreng).1 == 1.
Proof.
  destruct (badge_counts_clicks "1737331200000" example_page nasi_goreng
              {| ch_id := "child-1"; ch_name := "Budi"; class_name := "3A" |}
              (newItem "0" example_page nasi_goreng
                 {| ch_id := "child-1"; ch_name := "Budi";
                    class_name := "3A" |}))
    as [H _].
  - split; constructor.
  - rewrite H; [reflexivity|]. repeat split; discriminate.
Defined.

(** ** Plus, then minus *)

(** X23: the minus button undoes the plus button.  In a well-formed cart,
    a click on the plus button of a menu card that passes the guards
    (with a fresh id from [Date.now()]) followed by a click on the minus
    button of the same card brings the cart back: it holds the same
    entries, the card displays the quantity it displayed and the badge the
    number it showed. *)
Theorem minus_undoes_plus now p menuItem selectedChild :
  cart_well_formed (page_cartItems p) ->
  can_add p selectedChild ->
  entry_id (newItem now p menuItem selectedChild)
  ∉ map entry_id (page_cartItems p) ->
  let plus := setCartItems (addToCart now p menuItem).1 p in
  let minus := setCartItems (minus_onClick plus (mi_id menuItem)) plus in
  map entry_id (page_cartItems minus) = map entry_id (page_cartItems p)
  /\ getItemQuantityInCart minus (mi_id menuItem)
     == getItemQuantityInCart p (mi_id menuItem)
  /\ totalCartItems (page_cartItems minus)
     == totalCartItems (page_cartItems p).
Proof.
  intros [Hn Hq] Hc Hfresh plus minus. subst minus plus.
  destruct (addToCart_passes now p menuItem selectedChild Hc) as [Hid ->].
  destruct Hc as (_ & Hs & _). cbn [fst].
  unfold minus_onClick, getItemQuantityInCart.
  cbn [setCartItems selectedChildForMenu dateString page_cartItems].
  rewrite (truthy_str_Some _ Hs). cbn [negb]. rewrite Hid in *.
  set (slot := same_slot (mi_id menuItem) (dateString p)
                         (selectedChildForMenu p)).
  set (cart := page_cartItems p) in *.
  destruct (List.find slot cart) as [e|] eqn:F.
  - pose proof F as F'. apply find_some in F' as [He _].
    apply list_elem_of_In in He.
    pose proof (proj1 (Forall_forall _ _) Hq e He) as [_ H1].
    set (inc := fun item : MenuCartItem =>
                  if String.eqb (entry_id item) (entry_id e)
                  then with_quantity (ci_quantity item + 1) item else item).
    assert (Pslot : forall x, slot (inc x) = slot x).
    { intros x. unfold inc.
      destruct (String.eqb (entry_id x) (entry_id e)); reflexivity. }
    assert (Einc : inc e = with_quantity (ci_quantity e + 1) e).
    { unfold inc. rewrite String.eqb_refl. reflexivity. }
    rewrite (find_map_preserved slot inc cart Pslot), F.
    cbn [fmap option_fmap option_map]. rewrite Einc.
    cbn [with_quantity entry_id].
    unfold removeFromCart.
    assert (Pid : forall x,
               String.eqb (entry_id (inc x)) (entry_id e)
               = String.eqb (entry_id x) (entry_id e)).
    { intros x. unfold inc.
      destruct (String.eqb (entry_id x) (entry_id e)) eqn:E;
        cbn [with_quantity entry_id]; rewrite ?E; reflexivity. }
    rewrite (find_map_preserved
               (fun item => String.eqb (entry_id item) (entry_id e))
               inc cart Pid).
    rewrite (find_by_id cart e Hn He).
    cbn [fmap option_fmap option_map]. rewrite Einc.
    cbn [with_quantity cart_item ci_quantity].
    assert (Q1 : Qle_bool (ci_quantity e + 1) 1 = false).
    { apply Qle_bool_false. lra. }
    rewrite Q1. cbn [negb].
    set (dec := fun item : MenuCartItem =>
                  if String.eqb (entry_id item) (entry_id e)
                  then with_quantity (ci_quantity item - 1) item else item).
    assert (Pdec : forall x, slot (dec x) = slot x).
    { intros x. unfold dec.
      destruct (String.eqb (entry_id x) (entry_id e)); reflexivity. }
    split; [|split].
    + unfold dec, inc.
      rewrite (ids_of_update _ (fun q => q - 1)%Q).
      apply (ids_of_update _ (fun q => q + 1)%Q).
    + rewrite (find_map_preserved slot dec _ Pdec).
      rewrite (find_map_preserved slot inc cart Pslot), F.
      cbn [fmap option_fmap option_map]. rewrite Einc.
      unfold dec. cbn [with_quantity entry_id]. rewrite String.eqb_refl.
      cbn [with_quantity cart_item ci_quantity].
      rewrite !num_or_value. lra.
    + assert (Hin : entry_id e ∈ map entry_id cart).
      { apply list_elem_of_In, in_map, list_elem_of_In. exact He. }
      unfold dec.
      rewrite (total_after_update (fun q => q - 1)%Q (-1) (entry_id e)).
      * unfold inc.
        rewrite (total_after_update (fun q => q + 1)%Q 1 (entry_id e));
          [lra|reflexivity|exact Hn|exact Hin].
      * intros q. lra.
      * unfold inc. rewrite (ids_of_update _ (fun q => q + 1)%Q). exact Hn.
      * unfold inc. rewrite (ids_of_update _ (fun q => q + 1)%Q). exact Hin.
  - set (new := newItem now p menuItem selectedChild) in *.
    assert (Snew : slot new = true).
    { subst slot new. unfold same_slot, newItem. simpl.
      rewrite <- Hid, !String.eqb_refl. reflexivity. }
    rewrite (find_app_last slot cart new F Snew).
    unfold removeFromCart.
    assert (Fid : List.find (fun item => String.eqb (entry_id item)
                                                    (entry_id new)) cart
                  = None).
    { destruct (List.find (fun item => String.eqb (entry_id item)
                                                  (entry_id new)) cart)
        as [x|] eqn:Fx; [|reflexivity].
      apply find_some in Fx as [Hx E]. apply String.eqb_eq in E.
      exfalso. apply Hfresh. rewrite <- E. apply list_elem_of_In, in_map.
      exact Hx. }
    rewrite (find_app_last _ cart new Fid (String.eqb_refl _)).
    assert (Q1 : Qle_bool (ci_quantity new) 1 = true) by reflexivity.
    rewrite Q1. cbn [negb].
    rewrite filter_app, (filter_absent _ cart Hfresh).
    rewrite filter_cons_False by (intros H; apply H; reflexivity).
    rewrite filter_nil, app_nil_r.
    split; [reflexivity|]. split; [|reflexivity].
    rewrite F. reflexivity.
Qed.

(** Plus, then minus, on the example page: the cart is empty again. *)
Lemma minus_undoes_plus_witness :
  let plus := setCartItems (addToCart "1737331200000" example_page
                                      nasi_goreng).1 example_page in
  map entry_id (minus_onClick plus "menu-1") = [].
Proof.
  intros plus.
  destruct (minus_undoes_plus "1737331200000" example_page nasi_goreng
              {| ch_id := "child-1"; ch_name := "Budi"; class_name := "3A" |})
    as (H & _).
  - split; constructor.
  - repeat split; discriminate.
  - intros H. inversion H.
  - exact H.
Defined.

(** ** The children of a cart *)




(** ** Totals that doubles add exactly *)

Lemma Qsum_abs_nonneg (l : list Q) : (0 <= Qsum (map Qabs l))%Q.
Proof.
  induction l as [|x l IH]; [discriminate|].
  cbn [map]. rewrite Qsum_cons.
  pose proof (Qabs_nonneg x). lra.
Qed.

Lemma Qsum_abs_bound (l : list Q) : (Qabs (Qsum l) <= Qsum (map Qabs l))%Q.
Proof.
  induction l as [|x l IH]; [discriminate|].
  cbn [map]. rewrite !Qsum_cons.
  eapply Qle_trans; [apply Qabs_triangle|]. lra.
Qed.

Lemma Qsum_abs_take k (l : list Q) :
  (Qsum (map Qabs (take k l)) <= Qsum (map Qabs l))%Q.
Proof.
  revert k. induction l as [|x l IH]; intros [|k]; cbn [take map];
    rewrite ?Qsum_cons; try apply Qle_refl.
  - pose proof (Qsum_abs_nonneg l). pose proof (Qabs_nonneg x).
    change (Qsum []) with 0%Q. lra.
  - specialize (IH k). lra.
Qed.

Lemma Qsum_integer (l : list Q) : Forall is_integer l -> is_integer (Qsum l).
Proof.
  induction 1 as [|x l Hx _ IH]; [apply (is_integer_inject 0)|].
  rewrite Qsum_cons. apply is_integer_plus; assumption.
Qed.

(** With whole quantities and a representable total, every line value and
    every total the handler's loop passes through is a whole number of
    magnitude at most 2^53: doubles compute each of them exactly, so the
    total the code compares is the exact one. *)
Lemma recomputed_total_is_exact (items : list ItemInput) :
  Forall (fun item => is_integer (num_or (in_quantity item) 1)) items ->
  representable_total items ->
  Forall (fun item =>
            is_integer (line_value item)
            /\ (Qabs (line_value item) <= 9007199254740992)%Q) items
  /\ forall k,
       is_integer (calculatedTotal (imap normalize_item (take k items)))
       /\ (Qabs (calculatedTotal (imap normalize_item (take k items)))
           <= 9007199254740992)%Q.
Proof.
  intros Hq Hr. unfold representable_total in Hr.
  assert (Hi : Forall is_integer (map line_value items)).
  { apply List.Forall_map. eapply Forall_impl; [exact Hq|].
    intros item H. unfold line_value.
    apply is_integer_mult; [apply is_integer_inject|exact H]. }
  split.
  - apply Forall_forall. intros item Hin.
    split.
    + apply (proj1 (Forall_forall _ _) Hi).
      apply list_elem_of_In, in_map, list_elem_of_In. exact Hin.
    + eapply Qle_trans; [|exact Hr].
      clear -Hin. induction Hin as [item l|item y l _ IH];
        cbn [map]; rewrite Qsum_cons.
      * pose proof (Qsum_abs_nonneg (map line_value l)) as H.
        rewrite map_map in H. lra.
      * pose proof (Qabs_nonneg (line_value y)). lra.
  - intros k.
    assert (E : calculatedTotal (imap normalize_item (take k items))
                == Qsum (map line_value (take k items))).
    { rewrite calculatedTotal_items_total. apply items_total_normalized. }
    split.
    + apply is_integer_iff.
      assert (Hk : is_integer (Qsum (map line_value (take k items)))).
      { apply Qsum_integer. rewrite <- firstn_map.
        apply Forall_take. exact Hi. }
      apply is_integer_iff in Hk as [z Hz]. exists z.
      rewrite E. exact Hz.
    + rewrite E.
      eapply Qle_trans; [apply Qsum_abs_bound|].
      eapply Qle_trans; [|exact Hr].
      rewrite <- (map_map line_value Qabs), <- firstn_map.
      rewrite map_map. rewrite <- (map_map line_value Qabs).
      apply Qsum_abs_take.
Qed.

(** The same of a sum a caller computes, such as the batch total. *)
Lemma representable_sum_is_exact (l : list Q) :
  representable_sum l ->
  forall k,
    is_integer (Qsum (take k l))
    /\ (Qabs (Qsum (take k l)) <= 9007199254740992)%Q.
Proof.
  intros [Hi Hr] k. split.
  - apply Qsum_integer, Forall_take. exact Hi.
  - eapply Qle_trans; [apply Qsum_abs_bound|].
    eapply Qle_trans; [|exact Hr].
    apply Qsum_abs_take.
Qed.
